(** * WITRN PD sniffer: acquisition worker, consumer loop, rolling buffer,
      refresh scheduler

    A shallow embedding of the core of [witrn_pd_sniffer.py]:

    - [data_collection_worker], the acquisition process, one loop iteration
      at a time ([Worker]);
    - the consumer side of the GUI object: [add_data_item],
      [_consume_queue_data], [_handle_device_disconnect],
      [_reset_plot], [_append_plot_point], [_append_marker_event] ([Gui]);
    - [refresh_data_loop] and [_delayed_update_treeview] ([Sched]);
    - the list view of the log: [update_treeview], [on_item_select],
      [on_item_click] ([Tree]).

    Conventions of the embedding.

    - Python [float]s (clock readings, volts, amperes) are exact rationals
      [Q]; rounding, infinities and NaN are outside the model.  Equalities
      between computed rationals are stated with [==].
    - A Python exception is a value [Exc msg] carrying the text [str(e)];
      [try: ... except: x = d] is [try_default].
    - A [multiprocessing.Queue] is its capacity and the list of queued
      items, oldest first.  A [collections.deque] is a list, oldest first,
      with its [maxlen] passed to [deque_append].
    - The decoded packet ([metadata], owned by the external decoder) is the
      record of what its accessors return or raise.
    - Every iteration of a loop receives what it reads from its environment
      (the device, the clock, the shared pause flag) as an argument.
    - The consumer of the channels runs on a thread of its own, next to the
      main thread, and only the buffers of the plot are under a lock.  A
      function of [Gui] is a call run from its entry to its return with
      the other thread standing still; where the consumer acts on what it
      read in an earlier statement the main thread is let in between
      ([Threads]), and a call of the main thread that reads the log more
      than once is given each reading apart ([Tree.reads]). *)

From Stdlib Require Import List String Ascii Bool Arith ZArith QArith Qabs Qround.
From Stdlib Require Import Lia Lqa.
Import ListNotations.

Set Implicit Arguments.

(* ------------------------------------------------------------------ *)
(** ** Python values, exceptions and strings *)

Module Py.

(** The outcome of evaluating an expression: a value or a raised
    exception with its message. *)
Inductive res (A : Type) : Type :=
| Ret (a : A)
| Exc (msg : string).
Arguments Ret {A} a.
Arguments Exc {A} msg.

Definition bind {A B} (r : res A) (k : A -> res B) : res B :=
  match r with
  | Ret a => k a
  | Exc m => Exc m
  end.

(** [try: x = e / except: x = d]. *)
Definition try_default {A} (r : res A) (d : A) : A :=
  match r with
  | Ret a => a
  | Exc _ => d
  end.

Definition raised {A} (r : res A) : bool :=
  match r with
  | Ret _ => false
  | Exc _ => true
  end.

(** What [.value()] of a decoded node may hold. *)
#[warnings="-register-all"] Inductive pyval : Type :=
| PNone
| PStr (s : string)
| PBool (b : bool)
| PInt (z : Z)
| PList (l : list pyval).

(** [str.lower()] on the ASCII range. *)
Definition lower_ascii (c : ascii) : ascii :=
  let n := nat_of_ascii c in
  if (65 <=? n)%nat && (n <=? 90)%nat then ascii_of_nat (n + 32) else c.

Fixpoint lower (s : string) : string :=
  match s with
  | EmptyString => EmptyString
  | String c t => String (lower_ascii c) (lower t)
  end.

(** [needle in hay] on strings. *)
Fixpoint contains (needle hay : string) : bool :=
  String.prefix needle hay
  || match hay with
     | EmptyString => false
     | String _ t => contains needle t
     end.

Definition startswith (s p : string) : bool := String.prefix p s.

(** [s[:-1]]. *)
Fixpoint drop_last_char (s : string) : string :=
  match s with
  | EmptyString => EmptyString
  | String c EmptyString => EmptyString
  | String c t => String c (drop_last_char t)
  end.

(** [s[n:]]. *)
Fixpoint drop_chars (n : nat) (s : string) : string :=
  match n, s with
  | O, _ => s
  | S _, EmptyString => EmptyString
  | S k, String _ t => drop_chars k t
  end.

(** [v[:-1]]: defined on sequences, a [TypeError] elsewhere. *)
Definition slice_drop_last (v : pyval) : res pyval :=
  match v with
  | PStr s => Ret (PStr (drop_last_char s))
  | PList l => Ret (PList (removelast l))
  | _ => Exc "TypeError: object is not subscriptable"
  end.

(** [v[n:]]. *)
Definition slice_from (n : nat) (v : pyval) : res pyval :=
  match v with
  | PStr s => Ret (PStr (drop_chars n s))
  | PList l => Ret (PList (skipn n l))
  | _ => Exc "TypeError: object is not subscriptable"
  end.

(** [v == 'lit'] for a string literal. *)
Definition eq_str (v : pyval) (lit : string) : bool :=
  match v with
  | PStr s => String.eqb s lit
  | _ => false
  end.

(** [int(x)] on a number: truncation toward zero. *)
Definition int_of (q : Q) : Z := Z.quot (Qnum q) (Zpos (Qden q)).

End Py.
Import Py.

(* ------------------------------------------------------------------ *)
(** ** Bounded channels and bounded deques *)

Module Chan.

Record queue (A : Type) : Type := mkQueue {
  maxsize : Z;
  items : list A
}.
Arguments mkQueue {A} maxsize items.

Section Ops.
Context {A : Type}.

(** [Queue(maxsize=n)]. *)
Definition new (n : Z) : queue A := mkQueue n [].

(** [len(q)] as a Python integer. *)
Definition qsize (q : queue A) : Z := Z.of_nat (List.length (items q)).

(** A capacity of 0 or less means no bound. *)
Definition full (q : queue A) : bool :=
  (0 <? maxsize q)%Z && (maxsize q <=? qsize q)%Z.

(** [q.put_nowait(x)]: [None] stands for [queue.Full]. *)
Definition put_nowait (x : A) (q : queue A) : option (queue A) :=
  if full q then None
  else Some (mkQueue (maxsize q) (items q ++ [x])).

(** [q.get_nowait()]: [None] stands for [queue.Empty]. *)
Definition get_nowait (q : queue A) : option (A * queue A) :=
  match items q with
  | [] => None
  | x :: rest => Some (x, mkQueue (maxsize q) rest)
  end.

(** [try: q.put_nowait(x) / except queue.Full: pass]. *)
Definition offer (x : A) (q : queue A) : queue A :=
  match put_nowait x q with
  | Some q' => q'
  | None => q
  end.

(** A burst of offers with nobody taking. *)
Definition offer_all (xs : list A) (q : queue A) : queue A :=
  fold_left (fun acc x => offer x acc) xs q.

(** [deque(maxlen=n).append(x)]. *)
Definition deque_append (maxlen : Z) (x : A) (d : list A) : list A :=
  if (maxlen =? 0)%Z then []
  else if (maxlen <=? Z.of_nat (List.length d))%Z then tl d ++ [x]
  else d ++ [x].

End Ops.

End Chan.
Import Chan.

(* ------------------------------------------------------------------ *)
(** ** Decoded packets and channel items *)

(** A decoded packet, as far as the program looks into it: the
    classification tag and what each accessor chain returns or raises. *)
Record metadata : Type := mkMetadata {
  md_field : string;                      (* pkg.field() *)
  md_value : string -> res pyval;         (* pkg[name].value() *)
  md_header_at : nat -> res pyval;        (* pkg["Message Header"][k].value() *)
  md_header_named : string -> res pyval;  (* pkg["Message Header"][name].value() *)
  md_is_pdo : res bool;                   (* is_pdo(pkg) *)
  md_is_rdo : res bool                    (* is_rdo(pkg) *)
}.

(** The dictionary put on [iv_queue]. *)
Record iv_record : Type := mkIv {
  iv_timestamp : Q;
  iv_voltage : Q;
  iv_current : Q;
  iv_power : Q;
  iv_cc1 : Q;
  iv_cc2 : Q;
  iv_dp : Q;
  iv_dn : Q;
  update_plot : bool;
  update_iv_info : bool
}.

(** The dictionary put on [data_queue] for a PD packet. *)
Record pd_record : Type := mkPd {
  pd_timestamp : string;
  pd_time_sec : Q;
  pd_sop : pyval;
  pd_rev : pyval;
  pd_ppr : pyval;
  pd_pdr : pyval;
  pd_msg_type : pyval;
  pd_data : metadata;
  pd_is_pdo : bool;
  pd_is_rdo : bool;
  pd_last_pdo : option metadata;
  pd_last_rdo : option metadata
}.

(** An item of [data_queue]: a PD record or [{'error': text}]. *)
Inductive pd_msg : Type :=
| PdData (d : pd_record)
| PdError (err : string).

(* ------------------------------------------------------------------ *)
(** ** The acquisition worker: [data_collection_worker] *)

Module Worker.

(** The locals of the worker that live across iterations, and the two
    channels it publishes on. *)
Record wstate : Type := mkW {
  last_pdo : option metadata;
  last_rdo : option metadata;
  last_general_timestamp : Q;
  data_queue : queue pd_msg;
  iv_queue : queue iv_record
}.

(** What one iteration reads from its environment. *)
Record reading : Type := mkReading {
  rd_unpack : res (string * metadata);  (* k2.read_data(); k2.auto_unpack() *)
  rd_current_time : Q;                  (* current_time = time.time() *)
  rd_now : Q;                           (* now = time.time() *)
  rd_pause : Z                          (* pause_flag.value *)
}.

(** How an iteration ends: falls through to the next one, sleeps 10 ms
    and retries, or breaks out of the loop. *)
Inductive ctl : Type := Continue | Retry | Exit.

Section WithFloat.

(** The builtin [float] on a string. *)
Variable float_of_str : string -> res Q.

Definition py_float (v : pyval) : res Q :=
  match v with
  | PStr s => float_of_str s
  | PInt z => Ret (inject_Z z)
  | PBool b => Ret (if b then 1 else 0)
  | _ => Exc "TypeError: float() argument must be a string or a real number"
  end.

(** [try: x = float(pkg[name].value()[:-1]) / except: x = 0.0]. *)
Definition decode_float (pkg : metadata) (name : string) : res Q :=
  bind (md_value pkg name) (fun v => bind (slice_drop_last v) py_float).

Definition read_float (pkg : metadata) (name : string) : Q :=
  try_default (decode_float pkg name) 0.

(** [update_iv_info = (now - last_general_timestamp >= 0.1)]. *)
Definition summary_due (now last : Q) : bool := Qle_bool (1 # 10) (now - last).

(** The dictionary built in the ["general"] branch. *)
Definition make_iv (pkg : metadata) (current_time now last : Q) : iv_record :=
  let current := read_float pkg "Current" in
  let voltage := read_float pkg "VBus" in
  let power := Qabs (current * voltage) in
  let cc1 := read_float pkg "CC1" in
  let cc2 := read_float pkg "CC2" in
  let dp := read_float pkg "D+" in
  let dn := read_float pkg "D-" in
  mkIv current_time voltage current power cc1 cc2 dp dn
       true (summary_due now last).

(** The ["general"] branch. *)
Definition on_general (pkg : metadata) (current_time now : Q) (w : wstate)
  : wstate :=
  let m := make_iv pkg current_time now (last_general_timestamp w) in
  mkW (last_pdo w) (last_rdo w)
      (if update_iv_info m then now else last_general_timestamp w)
      (data_queue w)
      (offer m (iv_queue w)).

(** The tolerant header reads of the ["pd"] branch. *)
Definition header_rev (pkg : metadata) : pyval :=
  try_default
    (bind (md_header_at pkg 4) (fun v =>
     bind (slice_from 4 v) (fun rev =>
     Ret (if eq_str rev "rved" then PNone else rev))))
    PNone.

Definition header_ppr (pkg : metadata) : pyval :=
  try_default (md_header_at pkg 3) PNone.

Definition header_pdr (pkg : metadata) : pyval :=
  try_default (md_header_at pkg 5) PNone.

Definition header_msg_type (pkg : metadata) : pyval :=
  try_default (md_header_named pkg "Message Type") PNone.

(** The dictionary built in the ["pd"] branch. *)
Definition make_pd (timestamp_str : string) (current_time : Q)
  (pkg : metadata) (sop : pyval) (is_pdo_flag is_rdo_flag : bool)
  (lp lr : option metadata) : pd_record :=
  mkPd timestamp_str current_time sop
       (header_rev pkg) (header_ppr pkg) (header_pdr pkg)
       (header_msg_type pkg)
       pkg is_pdo_flag is_rdo_flag lp lr.

(** The ["pd"] branch; [Exc] is an exception that escapes to the handler
    of the iteration. *)
Definition on_pd (timestamp_str : string) (pkg : metadata)
  (current_time : Q) (pause : Z) (w : wstate) : res wstate :=
  if (pause =? 1)%Z then Ret w
  else
    bind (md_value pkg "SOP*") (fun sop =>
    bind (md_is_pdo pkg) (fun is_pdo_flag =>
    bind (md_is_rdo pkg) (fun is_rdo_flag =>
      let lp := if is_pdo_flag then Some pkg else last_pdo w in
      let lr := if is_rdo_flag then Some pkg else last_rdo w in
      Ret (mkW lp lr (last_general_timestamp w)
               (offer (PdData (make_pd timestamp_str current_time pkg sop
                                       is_pdo_flag is_rdo_flag lp lr))
                      (data_queue w))
               (iv_queue w))))).

(** [except Exception as e] of the iteration. *)
Definition on_error (msg : string) (w : wstate) : wstate * ctl :=
  if contains "read error" (lower msg) then
    (mkW (last_pdo w) (last_rdo w) (last_general_timestamp w)
         (offer (PdError "device_disconnected") (data_queue w))
         (iv_queue w),
     Exit)
  else (w, Retry).

(** The body of [while not stop_event.is_set()]. *)
Definition worker_iter (r : reading) (w : wstate) : wstate * ctl :=
  match rd_unpack r with
  | Exc msg => on_error msg w
  | Ret (timestamp_str, pkg) =>
      if String.eqb (md_field pkg) "general" then
        (on_general pkg (rd_current_time r) (rd_now r) w, Continue)
      else if String.eqb (md_field pkg) "pd" then
        match on_pd timestamp_str pkg (rd_current_time r) (rd_pause r) w with
        | Ret w' => (w', Continue)
        | Exc msg => on_error msg w
        end
      else (w, Continue)
  end.

(** What the other side of the channels did since the previous iteration:
    how many items it took from each. *)
Definition drain {A} (n : nat) (q : queue A) : queue A :=
  mkQueue (maxsize q) (skipn n (items q)).

Record turn : Type := mkTurn {
  t_stop : bool;       (* stop_event.is_set() *)
  t_taken_pd : nat;
  t_taken_iv : nat;
  t_reading : reading
}.

Definition taken (t : turn) (w : wstate) : wstate :=
  mkW (last_pdo w) (last_rdo w) (last_general_timestamp w)
      (drain (t_taken_pd t) (data_queue w))
      (drain (t_taken_iv t) (iv_queue w)).

(** The loop, over the turns it gets to run. *)
Fixpoint worker_loop (ts : list turn) (w : wstate) : wstate :=
  match ts with
  | [] => w
  | t :: rest =>
      let w0 := taken t w in
      if t_stop t then w0
      else
        let (w1, c) := worker_iter (t_reading t) w0 in
        match c with
        | Exit => w1
        | _ => worker_loop rest w1
        end
  end.

(** The worker from its entry: [k2.open()] succeeds or raises. *)
Definition data_collection_worker (open_result : res unit)
  (ts : list turn) (dq : queue pd_msg) (ivq : queue iv_record) : wstate :=
  let w := mkW None None 0 dq ivq in
  match open_result with
  | Exc e =>
      mkW None None 0 (offer (PdError ("connection_failed: " ++ e)) dq) ivq
  | Ret _ => worker_loop ts w
  end.

(** The clock readings [now] of the telemetry samples of a run whose
    record carries [update_iv_info = True], in order. *)
Definition is_general (r : reading) : bool :=
  match rd_unpack r with
  | Ret (_, pkg) => String.eqb (md_field pkg) "general"
  | Exc _ => false
  end.

Fixpoint summary_times (ts : list turn) (w : wstate) : list Q :=
  match ts with
  | [] => []
  | t :: rest =>
      let w0 := taken t w in
      if t_stop t then []
      else
        let r := t_reading t in
        let here :=
          if is_general r
             && summary_due (rd_now r) (last_general_timestamp w0)
          then [rd_now r] else [] in
        let (w1, c) := worker_iter r w0 in
        match c with
        | Exit => here
        | _ => here ++ summary_times rest w1
        end
  end.

End WithFloat.

(** Clock readings each at least 100 ms after the one before, the first
    at least 100 ms after [last]. *)
Fixpoint spaced (last : Q) (l : list Q) : Prop :=
  match l with
  | [] => True
  | t :: rest => 1 # 10 <= t - last /\ spaced t rest
  end.

(** The same reading under another value of the pause flag. *)
Definition with_pause (p : Z) (r : reading) : reading :=
  mkReading (rd_unpack r) (rd_current_time r) (rd_now r) p.

(** The terminal item of a lost device. *)
Definition sentinel : pd_msg := PdError "device_disconnected".

Definition is_sentinel (m : pd_msg) : bool :=
  match m with
  | PdError err => String.eqb err "device_disconnected"
  | PdData _ => false
  end.

End Worker.

(* ------------------------------------------------------------------ *)
(** ** The owning process: event log, connection state, rolling buffer *)

Module Gui.

(** A row of the event log ([class DataItem]). *)
Record DataItem : Type := mkItem {
  index : nat;
  timestamp : string;
  time_sec : option Q;
  sop : pyval;
  rev : pyval;
  ppr : pyval;
  pdr : pyval;
  msg_type : pyval;
  data : metadata
}.

(** The texts and levels [set_status] is called with. *)
Inductive status_text : Type :=
| StReady
| StConnecting
| StDeviceConnected
| StCollecting
| StPaused
| StReadRows (n : nat)
| StDeviceDisconnected
| StConnectionFailed
| StListCleared
| StListClearedConnected
| StListClearedCollecting.

Inductive level : Type := info | ok | busy | warn | error.

(** A call handed to the main thread with [root.after(0, ...)]. *)
Inductive callback : Type :=
| HandleDeviceDisconnect
| HandleConnectionFailed (err : string).

Record gui : Type := mkGui {
  data_list : list DataItem;  (* self.data_list *)
  is_paused : bool;
  device_open : bool;
  awaiting_connection_ack : bool;
  autostart_after_connect : bool;
  last_pdo : option metadata;
  last_rdo : option metadata;
  pause_flag : option Z;  (* the shared Value('i'), None when there is no worker *)
  data_thread_started : bool;
  parser_ready : bool;  (* self.parser is set *)
  import_mode : bool;
  egg_activated : bool;  (* self._egg_activated *)
  status_log : list (status_text * level);  (* the calls of set_status,
                                               oldest first *)
  iv_info : option iv_record;  (* the sample the summary panel shows *)
  plot_times : list Q;  (* deque(maxlen=60000) *)
  plot_voltage : list Q;  (* deque(maxlen=60000) *)
  plot_current : list Q;  (* deque(maxlen=60000) *)
  plot_start_time : option Q;
  marker_events : list (Q * string);  (* deque(maxlen=3600) *)
  is_vline_locked : bool;  (* self._is_vline_locked *)
  hover_last_item_index : option nat;  (* self._hover_last_item_index *)
  after_calls : list callback  (* calls queued with root.after(0, ...), oldest first *)
}.

(** Field updates ([self.x = v]). *)
Definition set_data_list (v : list DataItem) (g : gui) : gui :=
  mkGui v (is_paused g) (device_open g) (awaiting_connection_ack g)
        (autostart_after_connect g) (last_pdo g) (last_rdo g) (pause_flag
        g) (data_thread_started g) (parser_ready g) (import_mode g)
        (egg_activated g) (status_log g) (iv_info g) (plot_times g)
        (plot_voltage g) (plot_current g) (plot_start_time g)
        (marker_events g) (is_vline_locked g) (hover_last_item_index g)
        (after_calls g).

Definition set_is_paused (v : bool) (g : gui) : gui :=
  mkGui (data_list g) v (device_open g) (awaiting_connection_ack g)
        (autostart_after_connect g) (last_pdo g) (last_rdo g) (pause_flag
        g) (data_thread_started g) (parser_ready g) (import_mode g)
        (egg_activated g) (status_log g) (iv_info g) (plot_times g)
        (plot_voltage g) (plot_current g) (plot_start_time g)
        (marker_events g) (is_vline_locked g) (hover_last_item_index g)
        (after_calls g).

Definition set_device_open (v : bool) (g : gui) : gui :=
  mkGui (data_list g) (is_paused g) v (awaiting_connection_ack g)
        (autostart_after_connect g) (last_pdo g) (last_rdo g) (pause_flag
        g) (data_thread_started g) (parser_ready g) (import_mode g)
        (egg_activated g) (status_log g) (iv_info g) (plot_times g)
        (plot_voltage g) (plot_current g) (plot_start_time g)
        (marker_events g) (is_vline_locked g) (hover_last_item_index g)
        (after_calls g).

Definition set_awaiting_connection_ack (v : bool) (g : gui) : gui :=
  mkGui (data_list g) (is_paused g) (device_open g) v
        (autostart_after_connect g) (last_pdo g) (last_rdo g) (pause_flag
        g) (data_thread_started g) (parser_ready g) (import_mode g)
        (egg_activated g) (status_log g) (iv_info g) (plot_times g)
        (plot_voltage g) (plot_current g) (plot_start_time g)
        (marker_events g) (is_vline_locked g) (hover_last_item_index g)
        (after_calls g).

Definition set_autostart_after_connect (v : bool) (g : gui) : gui :=
  mkGui (data_list g) (is_paused g) (device_open g)
        (awaiting_connection_ack g) v (last_pdo g) (last_rdo g)
        (pause_flag g) (data_thread_started g) (parser_ready g)
        (import_mode g) (egg_activated g) (status_log g) (iv_info g)
        (plot_times g) (plot_voltage g) (plot_current g) (plot_start_time
        g) (marker_events g) (is_vline_locked g) (hover_last_item_index g)
        (after_calls g).

Definition set_last_pdo (v : option metadata) (g : gui) : gui :=
  mkGui (data_list g) (is_paused g) (device_open g)
        (awaiting_connection_ack g) (autostart_after_connect g) v
        (last_rdo g) (pause_flag g) (data_thread_started g) (parser_ready
        g) (import_mode g) (egg_activated g) (status_log g) (iv_info g)
        (plot_times g) (plot_voltage g) (plot_current g) (plot_start_time
        g) (marker_events g) (is_vline_locked g) (hover_last_item_index g)
        (after_calls g).

Definition set_last_rdo (v : option metadata) (g : gui) : gui :=
  mkGui (data_list g) (is_paused g) (device_open g)
        (awaiting_connection_ack g) (autostart_after_connect g) (last_pdo
        g) v (pause_flag g) (data_thread_started g) (parser_ready g)
        (import_mode g) (egg_activated g) (status_log g) (iv_info g)
        (plot_times g) (plot_voltage g) (plot_current g) (plot_start_time
        g) (marker_events g) (is_vline_locked g) (hover_last_item_index g)
        (after_calls g).

Definition set_pause_flag (v : option Z) (g : gui) : gui :=
  mkGui (data_list g) (is_paused g) (device_open g)
        (awaiting_connection_ack g) (autostart_after_connect g) (last_pdo
        g) (last_rdo g) v (data_thread_started g) (parser_ready g)
        (import_mode g) (egg_activated g) (status_log g) (iv_info g)
        (plot_times g) (plot_voltage g) (plot_current g) (plot_start_time
        g) (marker_events g) (is_vline_locked g) (hover_last_item_index g)
        (after_calls g).

Definition set_data_thread_started (v : bool) (g : gui) : gui :=
  mkGui (data_list g) (is_paused g) (device_open g)
        (awaiting_connection_ack g) (autostart_after_connect g) (last_pdo
        g) (last_rdo g) (pause_flag g) v (parser_ready g) (import_mode g)
        (egg_activated g) (status_log g) (iv_info g) (plot_times g)
        (plot_voltage g) (plot_current g) (plot_start_time g)
        (marker_events g) (is_vline_locked g) (hover_last_item_index g)
        (after_calls g).

Definition set_parser_ready (v : bool) (g : gui) : gui :=
  mkGui (data_list g) (is_paused g) (device_open g)
        (awaiting_connection_ack g) (autostart_after_connect g) (last_pdo
        g) (last_rdo g) (pause_flag g) (data_thread_started g) v
        (import_mode g) (egg_activated g) (status_log g) (iv_info g)
        (plot_times g) (plot_voltage g) (plot_current g) (plot_start_time
        g) (marker_events g) (is_vline_locked g) (hover_last_item_index g)
        (after_calls g).

Definition set_import_mode (v : bool) (g : gui) : gui :=
  mkGui (data_list g) (is_paused g) (device_open g)
        (awaiting_connection_ack g) (autostart_after_connect g) (last_pdo
        g) (last_rdo g) (pause_flag g) (data_thread_started g)
        (parser_ready g) v (egg_activated g) (status_log g) (iv_info g)
        (plot_times g) (plot_voltage g) (plot_current g) (plot_start_time
        g) (marker_events g) (is_vline_locked g) (hover_last_item_index g)
        (after_calls g).

Definition set_egg_activated (v : bool) (g : gui) : gui :=
  mkGui (data_list g) (is_paused g) (device_open g)
        (awaiting_connection_ack g) (autostart_after_connect g) (last_pdo
        g) (last_rdo g) (pause_flag g) (data_thread_started g)
        (parser_ready g) (import_mode g) v (status_log g) (iv_info g)
        (plot_times g) (plot_voltage g) (plot_current g) (plot_start_time
        g) (marker_events g) (is_vline_locked g) (hover_last_item_index g)
        (after_calls g).

Definition set_status_log (v : list (status_text * level)) (g : gui)
  : gui :=
  mkGui (data_list g) (is_paused g) (device_open g)
        (awaiting_connection_ack g) (autostart_after_connect g) (last_pdo
        g) (last_rdo g) (pause_flag g) (data_thread_started g)
        (parser_ready g) (import_mode g) (egg_activated g) v (iv_info g)
        (plot_times g) (plot_voltage g) (plot_current g) (plot_start_time
        g) (marker_events g) (is_vline_locked g) (hover_last_item_index g)
        (after_calls g).

Definition set_iv_info (v : option iv_record) (g : gui) : gui :=
  mkGui (data_list g) (is_paused g) (device_open g)
        (awaiting_connection_ack g) (autostart_after_connect g) (last_pdo
        g) (last_rdo g) (pause_flag g) (data_thread_started g)
        (parser_ready g) (import_mode g) (egg_activated g) (status_log g) v
        (plot_times g) (plot_voltage g) (plot_current g) (plot_start_time
        g) (marker_events g) (is_vline_locked g) (hover_last_item_index g)
        (after_calls g).

Definition set_plot_times (v : list Q) (g : gui) : gui :=
  mkGui (data_list g) (is_paused g) (device_open g)
        (awaiting_connection_ack g) (autostart_after_connect g) (last_pdo
        g) (last_rdo g) (pause_flag g) (data_thread_started g)
        (parser_ready g) (import_mode g) (egg_activated g) (status_log g)
        (iv_info g) v (plot_voltage g) (plot_current g) (plot_start_time
        g) (marker_events g) (is_vline_locked g) (hover_last_item_index g)
        (after_calls g).

Definition set_plot_voltage (v : list Q) (g : gui) : gui :=
  mkGui (data_list g) (is_paused g) (device_open g)
        (awaiting_connection_ack g) (autostart_after_connect g) (last_pdo
        g) (last_rdo g) (pause_flag g) (data_thread_started g)
        (parser_ready g) (import_mode g) (egg_activated g) (status_log g)
        (iv_info g) (plot_times g) v (plot_current g) (plot_start_time g)
        (marker_events g) (is_vline_locked g) (hover_last_item_index g)
        (after_calls g).

Definition set_plot_current (v : list Q) (g : gui) : gui :=
  mkGui (data_list g) (is_paused g) (device_open g)
        (awaiting_connection_ack g) (autostart_after_connect g) (last_pdo
        g) (last_rdo g) (pause_flag g) (data_thread_started g)
        (parser_ready g) (import_mode g) (egg_activated g) (status_log g)
        (iv_info g) (plot_times g) (plot_voltage g) v (plot_start_time g)
        (marker_events g) (is_vline_locked g) (hover_last_item_index g)
        (after_calls g).

Definition set_plot_start_time (v : option Q) (g : gui) : gui :=
  mkGui (data_list g) (is_paused g) (device_open g)
        (awaiting_connection_ack g) (autostart_after_connect g) (last_pdo
        g) (last_rdo g) (pause_flag g) (data_thread_started g)
        (parser_ready g) (import_mode g) (egg_activated g) (status_log g)
        (iv_info g) (plot_times g) (plot_voltage g) (plot_current g) v
        (marker_events g) (is_vline_locked g) (hover_last_item_index g)
        (after_calls g).

Definition set_marker_events (v : list (Q * string)) (g : gui) : gui :=
  mkGui (data_list g) (is_paused g) (device_open g)
        (awaiting_connection_ack g) (autostart_after_connect g) (last_pdo
        g) (last_rdo g) (pause_flag g) (data_thread_started g)
        (parser_ready g) (import_mode g) (egg_activated g) (status_log g)
        (iv_info g) (plot_times g) (plot_voltage g) (plot_current g)
        (plot_start_time g) v (is_vline_locked g) (hover_last_item_index
        g) (after_calls g).

Definition set_is_vline_locked (v : bool) (g : gui) : gui :=
  mkGui (data_list g) (is_paused g) (device_open g)
        (awaiting_connection_ack g) (autostart_after_connect g) (last_pdo
        g) (last_rdo g) (pause_flag g) (data_thread_started g)
        (parser_ready g) (import_mode g) (egg_activated g) (status_log g)
        (iv_info g) (plot_times g) (plot_voltage g) (plot_current g)
        (plot_start_time g) (marker_events g) v (hover_last_item_index g)
        (after_calls g).

Definition set_hover_last_item_index (v : option nat) (g : gui) : gui :=
  mkGui (data_list g) (is_paused g) (device_open g)
        (awaiting_connection_ack g) (autostart_after_connect g) (last_pdo
        g) (last_rdo g) (pause_flag g) (data_thread_started g)
        (parser_ready g) (import_mode g) (egg_activated g) (status_log g)
        (iv_info g) (plot_times g) (plot_voltage g) (plot_current g)
        (plot_start_time g) (marker_events g) (is_vline_locked g) v
        (after_calls g).

Definition set_after_calls (v : list callback) (g : gui) : gui :=
  mkGui (data_list g) (is_paused g) (device_open g)
        (awaiting_connection_ack g) (autostart_after_connect g) (last_pdo
        g) (last_rdo g) (pause_flag g) (data_thread_started g)
        (parser_ready g) (import_mode g) (egg_activated g) (status_log g)
        (iv_info g) (plot_times g) (plot_voltage g) (plot_current g)
        (plot_start_time g) (marker_events g) (is_vline_locked g)
        (hover_last_item_index g) v.
(** The object after [__init__]. *)
Definition init : gui :=
  mkGui [] true false false false None None None false true false false
        [(StReady, info)] None [] [] [] None [] false None [].

Definition plot_maxlen : Z := 60000.
Definition marker_maxlen : Z := 3600.

(** [set_status(text, level)]. *)
Definition set_status (t : status_text) (l : level) (g : gui) : gui :=
  set_status_log (status_log g ++ [(t, l)]) g.

(** [timestamp or datetime.now().strftime(...)]: [clock] is the text of
    the wall clock. *)
Definition timestamp_or (timestamp : option string) (clock : string)
  : string :=
  match timestamp with
  | None => clock
  | Some EmptyString => clock
  | Some s => s
  end.

(** [add_data_item]. *)
Definition add_data_item (clock : string)
  (sop rev ppr pdr msg_type : pyval) (data : metadata)
  (timestamp : option string) (time_sec : option Q) (force : bool)
  (g : gui) : gui :=
  if negb force && is_paused g then g
  else
    let timestamp := timestamp_or timestamp clock in
    let index := (List.length (data_list g) + 1)%nat in
    let item :=
      mkItem index timestamp time_sec sop rev ppr pdr msg_type data in
    let g1 := set_data_list (data_list g ++ [item]) g in
    set_status (StReadRows (List.length (data_list g1))) busy g1.

(** [_reset_plot], as far as it touches the buffers, the markers and the
    highlight state. *)
Definition _reset_plot (g : gui) : gui :=
  let g := set_plot_times [] g in
  let g := set_plot_voltage [] g in
  let g := set_plot_current [] g in
  let g := set_plot_start_time None g in
  let g := set_marker_events [] g in
  let g := set_is_vline_locked false g in
  set_hover_last_item_index None g.

(** [_append_plot_point]. *)
Definition _append_plot_point (t_sec v i : Q) (g : gui) : gui :=
  let g :=
    match plot_start_time g with
    | None => set_plot_start_time (Some t_sec) g
    | Some _ => g
    end in
  let start :=
    match plot_start_time g with
    | Some s => s
    | None => t_sec
    end in
  let rel_time := t_sec - start in
  let g := set_plot_times (deque_append plot_maxlen rel_time (plot_times g)) g in
  let g := set_plot_voltage (deque_append plot_maxlen v (plot_voltage g)) g in
  set_plot_current (deque_append plot_maxlen i (plot_current g)) g.

(** [_append_marker_event]. *)
Definition _append_marker_event (t_sec : Q) (kind : string) (g : gui) : gui :=
  if negb (String.eqb kind "pdo" || String.eqb kind "rdo") then g
  else
    match plot_start_time g with
    | Some start =>
        let rel_time := t_sec - start in
        set_marker_events
          (deque_append marker_maxlen (rel_time, kind) (marker_events g)) g
    | None => g
    end.

(** The test that guards the connection acknowledgement. *)
Definition ack_due (g : gui) : bool :=
  device_open g && awaiting_connection_ack g.

(** The acknowledgement block at the head of both consumers. *)
Definition acknowledge (g : gui) : gui :=
  if ack_due g then
    let g := set_status StDeviceConnected ok g in
    let g := set_awaiting_connection_ack false g in
    if autostart_after_connect g then
      let g := set_is_paused false g in
      let g :=
        match pause_flag g with
        | Some _ => set_pause_flag (Some 0%Z) g
        | None => g
        end in
      let g := set_status StCollecting busy g in
      set_autostart_after_connect false g
    else g
  else g.

(** One item of [data_queue] in [_consume_queue_data]. *)
Definition consume_pd (clock : string) (m : pd_msg) (g : gui) : gui :=
  match m with
  | PdError err =>
      if String.eqb err "device_disconnected" then
        set_after_calls (after_calls g ++ [HandleDeviceDisconnect]) g
      else if startswith err "connection_failed" then
        set_after_calls (after_calls g ++ [HandleConnectionFailed err]) g
      else g
  | PdData d =>
      let g := acknowledge g in
      let g :=
        add_data_item clock (pd_sop d) (pd_rev d) (pd_ppr d) (pd_pdr d)
          (pd_msg_type d) (pd_data d) (Some (pd_timestamp d))
          (Some (pd_time_sec d)) false g in
      let g :=
        if pd_is_pdo d then
          _append_marker_event (pd_time_sec d) "pdo"
            (set_last_pdo (pd_last_pdo d) g)
        else g in
      if pd_is_rdo d then
        _append_marker_event (pd_time_sec d) "rdo"
          (set_last_rdo (pd_last_rdo d) g)
      else g
  end.

(** One item of [iv_queue] in [_consume_queue_data]. *)
Definition consume_iv (m : iv_record) (g : gui) : gui :=
  let g := acknowledge g in
  let g :=
    if update_plot m then
      _append_plot_point (iv_timestamp m) (iv_voltage m) (iv_current m) g
    else g in
  if update_iv_info m then
    if device_open g then set_iv_info (Some m) g else g
  else g.

(** The inner [while True] over [data_queue]: items are taken until the
    queue is empty or an error item breaks the loop; the items left are
    returned. *)
Fixpoint drain_data_queue (clock : string) (q : list pd_msg) (g : gui)
  : list pd_msg * gui :=
  match q with
  | [] => ([], g)
  | PdError err :: rest => (rest, consume_pd clock (PdError err) g)
  | m :: rest => drain_data_queue clock rest (consume_pd clock m g)
  end.

(** The inner [while True] over [iv_queue]. *)
Definition drain_iv_queue (q : list iv_record) (g : gui) : gui :=
  fold_left (fun acc m => consume_iv m acc) q g.

(** [_stop_collection_process], on the fields of the object. *)
Definition _stop_collection_process (g : gui) : gui :=
  set_pause_flag None (set_data_thread_started false g).

(** [_handle_device_disconnect]. *)
Definition _handle_device_disconnect (g : gui) : gui :=
  let g := set_is_paused true g in
  let g := set_device_open false g in
  let g := set_awaiting_connection_ack false g in
  let g := set_autostart_after_connect false g in
  let g := set_last_pdo None g in
  let g := set_last_rdo None g in
  let g := set_status StDeviceDisconnected error g in
  let g := set_iv_info None g in
  _stop_collection_process g.

(** [_handle_connection_failed]. *)
Definition _handle_connection_failed (err_msg : string) (g : gui) : gui :=
  let g := _stop_collection_process g in
  let g := set_device_open false g in
  let g := set_is_paused true g in
  let g := set_awaiting_connection_ack false g in
  let g := set_autostart_after_connect false g in
  let g := set_iv_info None g in
  set_status StConnectionFailed error g.

Definition run_callback (c : callback) (g : gui) : gui :=
  match c with
  | HandleDeviceDisconnect => _handle_device_disconnect g
  | HandleConnectionFailed err => _handle_connection_failed err g
  end.

(** The main thread runs the oldest queued call. *)
Definition run_after (g : gui) : gui :=
  match after_calls g with
  | [] => g
  | c :: rest => run_callback c (set_after_calls rest g)
  end.

(** [clear_list]; [answer] is what the user replies if asked. *)
Definition clear_list (ask_user answer : bool) (g : gui) : gui :=
  if negb ask_user || answer then
    let g := set_data_list [] g in
    let g := set_is_vline_locked false g in
    let g := set_hover_last_item_index None g in
    let g := set_last_pdo None g in
    let g := set_last_rdo None g in
    let g := set_import_mode false g in
    if is_paused g && negb (device_open g) then
      set_status StListCleared info g
    else if device_open g && is_paused g then
      set_status StListClearedConnected ok g
    else if device_open g && negb (is_paused g) then
      set_status StListClearedCollecting busy g
    else g
  else g.

(** [start_data_thread_if_needed], on the fields of the object. *)
Definition start_data_thread_if_needed (g : gui) : gui :=
  if negb (device_open g) || negb (parser_ready g) then g
  else if data_thread_started g then g
  else set_data_thread_started true (set_pause_flag (Some 1%Z) g).

(** [connect_device]. *)
Definition connect_device (answer : bool) (g : gui) : gui :=
  if negb (device_open g) then
    if (0 <? List.length (data_list g))%nat && negb answer then g
    else
      let g :=
        if (0 <? List.length (data_list g))%nat then clear_list false true g
        else g in
      let g := set_device_open true g in
      let g := set_is_paused true g in
      let g := set_status StConnecting warn g in
      let g := set_awaiting_connection_ack true g in
      let g := set_autostart_after_connect false g in
      let g := start_data_thread_if_needed g in
      if egg_activated g then _reset_plot g else g
  else
    let g := _stop_collection_process g in
    let g := set_last_pdo None g in
    let g := set_last_rdo None g in
    let g := set_device_open false g in
    let g := set_is_paused true g in
    let g := set_awaiting_connection_ack false g in
    let g := set_autostart_after_connect false g in
    let g := set_status StDeviceDisconnected warn g in
    set_iv_info None g.

(** [pause_collection]. *)
Definition pause_collection (answer : bool) (g : gui) : gui :=
  if is_paused g then
    if awaiting_connection_ack g then set_autostart_after_connect true g
    else if import_mode g && (0 <? List.length (data_list g))%nat
            && negb answer then g
    else
      let g :=
        if import_mode g then
          set_import_mode false
            (if (0 <? List.length (data_list g))%nat
             then clear_list false true g else g)
        else g in
      let g := set_is_paused false g in
      let g :=
        match pause_flag g with
        | Some _ => set_pause_flag (Some 0%Z) g
        | None => g
        end in
      set_status StCollecting busy g
  else
    let g := set_is_paused true g in
    let g :=
      match pause_flag g with
      | Some _ => set_pause_flag (Some 1%Z) g
      | None => g
      end in
    set_status StPaused warn g.

(** What happens to the object, one call at a time: the consumer thread
    takes an item, the main thread runs a queued call, or the user acts.
    An event is one call run from its entry to its return with the other
    thread standing still; the calls of the consumer in which the other
    thread can make a difference are taken apart in [Threads]. *)
Inductive event : Type :=
| TakePd (clock : string) (m : pd_msg)
| TakeIv (m : iv_record)
| RunAfter
| Clear (ask_user answer : bool)
| Connect (answer : bool)
| Pause (answer : bool)
| ImportRow (clock : string) (sop rev ppr pdr msg_type : pyval)
            (data : metadata) (timestamp : option string)
| ResetPlot.

Definition step (e : event) (g : gui) : gui :=
  match e with
  | TakePd clock m => consume_pd clock m g
  | TakeIv m => consume_iv m g
  | RunAfter => run_after g
  | Clear ask_user answer => clear_list ask_user answer g
  | Connect answer => connect_device answer g
  | Pause answer => pause_collection answer g
  | ImportRow clock sop rev ppr pdr msg_type data timestamp =>
      add_data_item clock sop rev ppr pdr msg_type data timestamp None true g
  | ResetPlot => _reset_plot g
  end.

Definition run (es : list event) (g : gui) : gui :=
  fold_left (fun acc e => step e acc) es g.

(** The events of the consumer side alone: items taken from the channels
    and the calls they queue. *)
Definition from_channel (e : event) : bool :=
  match e with
  | TakePd _ _ | TakeIv _ | RunAfter => true
  | _ => false
  end.

(** The fields of the rolling buffer and the marker log. *)
Definition same_plot (g g' : gui) : Prop :=
  plot_start_time g' = plot_start_time g
  /\ marker_events g' = marker_events g.

(** The events that leave the relative-time baseline armed: all but a
    reset of the plot and the connect button, which resets it. *)
Definition keeps_baseline (e : event) : bool :=
  match e with
  | ResetPlot | Connect _ => false
  | _ => true
  end.

(** An item that is not an error sentinel. *)
Definition is_item (e : event) : bool :=
  match e with
  | TakePd _ (PdData _) | TakeIv _ => true
  | _ => false
  end.

(** The three ways a call can leave the log: as it was, emptied, or one
    row longer with the next index. *)
Definition log_moves (before after : list DataItem) : Prop :=
  after = before \/ after = []
  \/ exists item, after = before ++ [item]
                  /\ index item = (List.length before + 1)%nat.

(** The number of times the object announced a connected device. *)
Definition is_connected_notice (n : status_text * level) : bool :=
  match fst n with
  | StDeviceConnected => true
  | _ => false
  end.

Definition acks (g : gui) : nat :=
  List.length (filter is_connected_notice (status_log g)).

(** What follows the block in either consumer leaves the connection
    fields and the connected notices alone. *)
Definition same_connection (g g' : gui) : Prop :=
  awaiting_connection_ack g' = awaiting_connection_ack g
  /\ device_open g' = device_open g
  /\ autostart_after_connect g' = autostart_after_connect g
  /\ is_paused g' = is_paused g
  /\ pause_flag g' = pause_flag g
  /\ acks g' = acks g.

End Gui.

(* ------------------------------------------------------------------ *)
(** ** The presentation scheduler: [refresh_data_loop] *)

Module Sched.

Record sched : Type := mkSched {
  last_treeview_update_time : Q;
  pending_treeview_update : bool;
  last_data_count : Z;   (* the local of refresh_data_loop *)
  deferred : list Z;     (* root.after(delay_ms, _delayed_update_treeview)
                            calls not yet run, with their delay_ms *)
  immediate : nat;       (* root.after(0, _safe_update_treeview) calls made *)
  delayed_runs : nat     (* update_treeview calls made by
                            _delayed_update_treeview *)
}.

(** The object after [__init__], as the loop starts. *)
Definition init : sched := mkSched 0 false 0 [] 0 0.

(** The refresh interval chosen from the number of events, in seconds. *)
Definition min_interval (current_data_count : Z) : Q :=
  if (current_data_count <? 1000)%Z then 1 # 10
  else if (current_data_count <? 5000)%Z then 3 # 10
  else if (current_data_count <? 10000)%Z then 1 # 2
  else if (current_data_count <? 20000)%Z then 1
  else 2.

(** The pause before the next check, in seconds. *)
Definition check_sleep (current_data_count : Z) : Q :=
  if (current_data_count <? 5000)%Z then 1 # 10
  else if (current_data_count <? 20000)%Z then 2 # 10
  else 1 # 2.

(** [delay_ms = int((min_interval - time_since_last_update) * 1000)]. *)
Definition delay_ms (min_interval time_since_last_update : Q) : Z :=
  int_of ((min_interval - time_since_last_update) * 1000).

(** One pass of the body of [while True], with the event count and the
    clock it reads. *)
Definition refresh_tick (current_data_count : Z) (now : Q) (s : sched)
  : sched :=
  if (current_data_count =? last_data_count s)%Z then s
  else
    let mi := min_interval current_data_count in
    let time_since_last_update := now - last_treeview_update_time s in
    if Qle_bool mi time_since_last_update then
      mkSched now (pending_treeview_update s) current_data_count
              (deferred s) (S (immediate s)) (delayed_runs s)
    else if pending_treeview_update s then s
    else
      mkSched (last_treeview_update_time s) true (last_data_count s)
              (deferred s ++ [delay_ms mi time_since_last_update])
              (immediate s) (delayed_runs s).

(** [_delayed_update_treeview], run at clock reading [now]. *)
Definition _delayed_update_treeview (now : Q) (s : sched) : sched :=
  if pending_treeview_update s then
    mkSched now false (last_data_count s) (deferred s) (immediate s)
            (S (delayed_runs s))
  else s.

(** The timer of the oldest deferred call expires. *)
Definition fire (now : Q) (s : sched) : sched :=
  match deferred s with
  | [] => s
  | _ :: rest =>
      _delayed_update_treeview now
        (mkSched (last_treeview_update_time s) (pending_treeview_update s)
                 (last_data_count s) rest (immediate s) (delayed_runs s))
  end.

Inductive event : Type :=
| Tick (current_data_count : Z) (now : Q)
| Fire (now : Q).

Definition step (e : event) (s : sched) : sched :=
  match e with
  | Tick c now => refresh_tick c now s
  | Fire now => fire now s
  end.

Definition run (es : list event) (s : sched) : sched :=
  fold_left (fun acc e => step e acc) es s.

(** A pass of the loop, as opposed to the expiry of a timer. *)
Definition is_tick (e : event) : bool :=
  match e with
  | Tick _ _ => true
  | Fire _ => false
  end.

(** The flag and the timers agree: no deferred call and the flag down, or
    one deferred call and the flag up. *)
Definition coalesced (s : sched) : Prop :=
  (deferred s = [] /\ pending_treeview_update s = false)
  \/ (exists d, deferred s = [d] /\ pending_treeview_update s = true).

(** The bands of the policy, in milliseconds. *)
Definition interval_ms (current_data_count : Z) : Z :=
  if (current_data_count <? 1000)%Z then 100
  else if (current_data_count <? 5000)%Z then 300
  else if (current_data_count <? 10000)%Z then 500
  else if (current_data_count <? 20000)%Z then 1000
  else 2000.

End Sched.

(* ------------------------------------------------------------------ *)
(** ** Concrete packets and states for the examples *)

Module Sample.

(** A reader of plain decimal literals ([12], [5.04], [-0.3]), standing in
    for [float] on the texts the examples use. *)
Definition digit_of (c : ascii) : option Z :=
  let n := nat_of_ascii c in
  if (48 <=? n)%nat && (n <=? 57)%nat then Some (Z.of_nat (n - 48)) else None.

(** Reads digits; [acc] is the number so far and [scale] the power of ten
    accumulated after the point ([0] before the point). *)
Fixpoint read_digits (s : string) (acc : Z) (scale : positive)
  (seen_point seen_digit : bool) : res Q :=
  match s with
  | EmptyString =>
      if seen_digit then Ret (acc # scale)
      else Exc "ValueError: could not convert string to float"
  | String c t =>
      match digit_of c with
      | Some d =>
          read_digits t (acc * 10 + d)
            (if seen_point then (scale * 10)%positive else scale)
            seen_point true
      | None =>
          if Ascii.eqb c "."%char && negb seen_point
          then read_digits t acc scale true seen_digit
          else Exc "ValueError: could not convert string to float"
      end
  end.

Definition dec_float (s : string) : res Q :=
  match s with
  | String "-"%char t =>
      bind (read_digits t 0 1 false false) (fun q => Ret (- q))
  | _ => read_digits s 0 1 false false
  end.

Definition key_error {A} (name : string) : res A :=
  Exc ("KeyError: " ++ name).

(** A telemetry packet whose fields all decode. *)
Definition general_ok : metadata :=
  mkMetadata "general"
    (fun name =>
       if String.eqb name "Current" then Ret (PStr "1.5A")
       else if String.eqb name "VBus" then Ret (PStr "5.0V")
       else if String.eqb name "CC1" then Ret (PStr "0.1V")
       else if String.eqb name "CC2" then Ret (PStr "1.7V")
       else if String.eqb name "D+" then Ret (PStr "0.60V")
       else if String.eqb name "D-" then Ret (PStr "0.59V")
       else key_error name)
    (fun _ => key_error "Message Header")
    (fun _ => key_error "Message Header")
    (Ret false) (Ret false).

(** The same packet with a malformed current and no [CC2] at all. *)
Definition general_bad : metadata :=
  mkMetadata "general"
    (fun name =>
       if String.eqb name "Current" then Ret (PStr "1.x5A")
       else if String.eqb name "VBus" then Ret (PStr "5.0V")
       else if String.eqb name "CC1" then Ret (PStr "0.1V")
       else if String.eqb name "D+" then Ret (PStr "0.60V")
       else if String.eqb name "D-" then Ret (PStr "0.59V")
       else key_error name)
    (fun _ => key_error "Message Header")
    (fun _ => key_error "Message Header")
    (Ret false) (Ret false).

(** A capability advertisement. *)
Definition pd_source_cap : metadata :=
  mkMetadata "pd"
    (fun name =>
       if String.eqb name "SOP*" then Ret (PStr "SOP") else key_error name)
    (fun k =>
       match k with
       | 3 => Ret (PStr "Source")
       | 4 => Ret (PStr "Rev 3.0")
       | 5 => Ret (PStr "DFP")
       | _ => Exc "IndexError: list index out of range"
       end%nat)
    (fun name =>
       if String.eqb name "Message Type" then Ret (PStr "Source_Capabilities")
       else key_error name)
    (Ret true) (Ret false).


(** A PD packet without the [SOP*] field. *)
Definition pd_no_sop : metadata :=
  mkMetadata "pd"
    (fun name => key_error name)
    (fun k =>
       match k with
       | 3 => Ret (PStr "Source")
       | 4 => Ret (PStr "Rev 3.0")
       | 5 => Ret (PStr "DFP")
       | _ => Exc "IndexError: list index out of range"
       end%nat)
    (fun name =>
       if String.eqb name "Message Type" then Ret (PStr "Source_Capabilities")
       else key_error name)
    (Ret true) (Ret false).

(** [start], [start + 1], ..., [n] numbers in all. *)
Fixpoint zseq_from (start : Z) (n : nat) : list Z :=
  match n with
  | O => []
  | S k => start :: zseq_from (start + 1) k
  end.

Definition zseq (start n : Z) : list Z := zseq_from start (Z.to_nat n).

(** The worker as it enters its loop, with the channels of
    [start_data_thread_if_needed]. *)
Definition fresh_worker : Worker.wstate :=
  Worker.mkW None None 0 (Chan.new 1000) (Chan.new 500).

Definition reading_of (pkg : metadata) (t : Q) (pause : Z) : Worker.reading :=
  Worker.mkReading (Ret ("12:00:00.000"%string, pkg)) t t pause.

(** A thousand capability records published with nobody reading: the
    worker ends with [data_queue] filled to its capacity. *)
Definition pd_turn (k : Z) : Worker.turn :=
  Worker.mkTurn false 0 0 (reading_of pd_source_cap (inject_Z k) 0).

Definition jam : list Worker.turn := map pd_turn (zseq 1 1000).

Definition jammed_worker : Worker.wstate :=
  Worker.worker_loop dec_float jam fresh_worker.

Definition read_error : Worker.reading :=
  Worker.mkReading (Exc "HID Read Error: device unplugged") 10 10 0.

(** The object right after the user pressed connect, and after the user
    also pressed start while it waits. *)
Definition connecting : Gui.gui := Gui.connect_device true Gui.init.

Definition connecting_autostart : Gui.gui :=
  Gui.pause_collection true connecting.

(** A telemetry record and a capability record as the worker builds
    them. *)
Definition iv_sample (t : Q) : iv_record :=
  Worker.make_iv dec_float general_ok t t 0.

Definition pd_sample : pd_record :=
  Worker.make_pd "12:00:00.000"%string 10 pd_source_cap (PStr "SOP")
    true false (Some pd_source_cap) None.

(** Three telemetry samples at 10 s, 10.05 s and 10.2 s. *)
Definition sample_turn (t : Q) : Worker.turn :=
  Worker.mkTurn false 0 0 (reading_of general_ok t 1).

Definition three_samples : list Worker.turn :=
  [sample_turn 10; sample_turn (201 # 20); sample_turn (51 # 5)].

End Sample.

(* ------------------------------------------------------------------ *)
(** ** Proof steps used throughout *)

(** Splits on every test a goal still branches on. *)
Ltac split_tests :=
  repeat match goal with
         | |- context [if ?b then _ else _] => destruct b eqn:?
         | |- context [match ?x with _ => _ end] => destruct x eqn:?
         end.

(** Settles a goal about a field that a call does not touch. *)
Ltac frame :=
  intros; simpl; split_tests; simpl in *;
  try reflexivity; try congruence; auto.

(** Counts the connected notices in a status log that was extended. *)
Ltac count_acks :=
  unfold Gui.acks; simpl; rewrite ?filter_app, ?length_app; simpl; try lia.

(* ------------------------------------------------------------------ *)
(** ** Further notions about the worker and its channels *)

Module WorkerMore.
Import Worker.

(** A bounded channel holds no more than its capacity. *)
Definition within_capacity {A} (q : queue A) : Prop :=
  (0 < maxsize q)%Z -> (qsize q <= maxsize q)%Z.

(** A capability record names its own packet as the last capability, a
    request record its own packet as the last request. *)
Definition own_refs (m : pd_msg) : Prop :=
  match m with
  | PdData d =>
      (pd_is_pdo d = true -> pd_last_pdo d = Some (pd_data d))
      /\ (pd_is_rdo d = true -> pd_last_rdo d = Some (pd_data d))
  | PdError _ => True
  end.

(** What the telemetry branch reads and writes, and what the protocol
    branch reads and writes. *)
Definition telemetry_side (w : wstate) : Q * queue iv_record :=
  (last_general_timestamp w, iv_queue w).

Definition protocol_side (w : wstate)
  : option metadata * option metadata * queue pd_msg :=
  (last_pdo w, last_rdo w, data_queue w).

End WorkerMore.

(* ------------------------------------------------------------------ *)
(** ** Further notions about the owning process *)

Module GuiMore.
Import Gui.

(** The value the pause flag holds for a paused or a collecting object. *)
Definition pause_value (paused : bool) : Z := if paused then 1 else 0.

(** The fields that describe the connection. *)
Definition core (g : gui)
  : bool * bool * bool * bool * option Z * bool * bool * option iv_record :=
  (is_paused g, device_open g, awaiting_connection_ack g,
   autostart_after_connect g, pause_flag g, data_thread_started g,
   parser_ready g, iv_info g).

(** How the fields of the connection hang together. *)
Definition consistent (g : gui) : Prop :=
  parser_ready g = true
  /\ (autostart_after_connect g = true -> awaiting_connection_ack g = true)
  /\ (awaiting_connection_ack g = true ->
      device_open g = true /\ is_paused g = true)
  /\ (pause_flag g = None
      \/ pause_flag g = Some (pause_value (is_paused g)))
  /\ (device_open g = false ->
      pause_flag g = None /\ iv_info g = None
      /\ data_thread_started g = false).

(** The fields of the rolling buffer and the marker log. *)
Definition plot_fields (g : gui)
  : list Q * list Q * list Q * option Q * list (Q * string) :=
  (plot_times g, plot_voltage g, plot_current g, plot_start_time g,
   marker_events g).

(** The three buffers run in step and within their bound, the marker log
    within its own, and nothing is stored while the baseline is
    disarmed. *)
Definition plot_ok (g : gui) : Prop :=
  List.length (plot_voltage g) = List.length (plot_times g)
  /\ List.length (plot_current g) = List.length (plot_times g)
  /\ (Z.of_nat (List.length (plot_times g)) <= plot_maxlen)%Z
  /\ (Z.of_nat (List.length (marker_events g)) <= marker_maxlen)%Z
  /\ (plot_start_time g = None ->
      plot_times g = [] /\ marker_events g = []).

(** [_on_f5_press]: [shift] is the shift bit of the key event, the answers
    are what the user replies should [connect_device] or
    [pause_collection] ask. *)
Definition _on_f5_press (shift answer_connect answer_start : bool)
  (g : gui) : gui :=
  if shift then g
  else if negb (device_open g) then
    let g := connect_device answer_connect g in
    if device_open g && is_paused g then pause_collection answer_start g
    else g
  else if is_paused g then pause_collection answer_start g
  else g.

(** [x < y] on numbers. *)
Definition lt_bool (x y : Q) : bool := negb (Qle_bool y x).

(** [_get_item_plot_x]: [parse] stands for [_parse_timestamp_to_seconds]
    and [day_seconds] for the seconds since local midnight of an absolute
    time, read off [time.localtime]. *)
Definition _get_item_plot_x (parse : string -> option Q)
  (day_seconds : Q -> Q) (item : option DataItem) (g : gui) : option Q :=
  match item, plot_start_time g with
  | None, _ => None
  | _, None => None
  | Some item, Some start =>
      match time_sec item with
      | Some t => Some (t - start)
      | None =>
          match parse (timestamp item) with
          | None => None
          | Some ts_sec =>
              let plot_day_sec := day_seconds start in
              let rel := ts_sec - plot_day_sec in
              if lt_bool rel (-43200) then Some (rel + 86400)
              else if lt_bool 43200 rel then Some (rel - 86400)
              else Some rel
          end
      end
  end.

End GuiMore.

(* ------------------------------------------------------------------ *)
(** ** The consumer thread against the main thread

    [_consume_queue_data] runs on a thread of its own
    ([threading.Thread(target=self._consume_queue_data)]); the handlers of
    the buttons and the calls queued with [root.after] run on the main
    thread.  The buffers of the plot are guarded by [_plot_lock]; the log,
    [device_open] and the summary panel are guarded by nothing.  In two
    places the consumer reads the object and acts on what it read in a
    later statement: [add_data_item] computes the index of the row and
    appends the row afterwards, and the telemetry branch tests
    [device_open] and calls [set_iv_info] afterwards.  Here the main thread
    gets to run in between. *)

Module Threads.
Import Gui.

(** The events that run on the main thread: all but the items the
    consumer takes. *)
Definition on_main_thread (e : event) : bool :=
  match e with
  | TakePd _ _ | TakeIv _ => false
  | _ => true
  end.

(** [add_data_item] down to the row it builds: the test of the pause, the
    timestamp, [index = len(self.data_list) + 1] and [DataItem(...)].
    [None] is the early return. *)
Definition add_data_item_row (clock : string)
  (sop rev ppr pdr msg_type : pyval) (data : metadata)
  (timestamp : option string) (time_sec : option Q) (force : bool)
  (g : gui) : option DataItem :=
  if negb force && is_paused g then None
  else
    let timestamp := timestamp_or timestamp clock in
    let index := (List.length (data_list g) + 1)%nat in
    Some (mkItem index timestamp time_sec sop rev ppr pdr msg_type data).

(** [add_data_item] from [self.data_list.append(item)] on. *)
Definition add_data_item_append (item : DataItem) (g : gui) : gui :=
  let g1 := set_data_list (data_list g ++ [item]) g in
  set_status (StReadRows (List.length (data_list g1))) busy g1.

(** [add_data_item] called by the consumer, with the main thread running
    [between] after the row was built and before it is appended. *)
Definition add_data_item_across (between : list event) (clock : string)
  (sop rev ppr pdr msg_type : pyval) (data : metadata)
  (timestamp : option string) (time_sec : option Q) (force : bool)
  (g : gui) : gui :=
  match
    add_data_item_row clock sop rev ppr pdr msg_type data timestamp
      time_sec force g
  with
  | None => run between g
  | Some item => add_data_item_append item (run between g)
  end.

(** One item of [iv_queue], with the main thread running [between] after
    the test of [self.device_open] and before the call of
    [set_iv_info]. *)
Definition consume_iv_across (between : list event) (m : iv_record)
  (g : gui) : gui :=
  let g := acknowledge g in
  let g :=
    if update_plot m then
      _append_plot_point (iv_timestamp m) (iv_voltage m) (iv_current m) g
    else g in
  if update_iv_info m then
    if device_open g then set_iv_info (Some m) (run between g)
    else run between g
  else run between g.

(** A collecting object with a log of two rows. *)
Definition two_rows : gui :=
  run [TakePd "12:00:01.000" (PdData Sample.pd_sample);
       TakePd "12:00:02.000" (PdData Sample.pd_sample)]
    Sample.connecting_autostart.

(** What the closing calls leave: the device closed, the collection
    paused, no worker, no pause flag, nothing asked of the connection and
    an empty summary panel. *)
Definition closed_down (g : gui) : Prop :=
  device_open g = false
  /\ is_paused g = true
  /\ pause_flag g = None
  /\ data_thread_started g = false
  /\ awaiting_connection_ack g = false
  /\ autostart_after_connect g = false
  /\ iv_info g = None.

End Threads.

(* ------------------------------------------------------------------ *)
(** ** The list view of the event log: [update_treeview] *)

From Stdlib Require Import DecimalString.

Module Tree.
Import Gui.

(** The keys of the colour table [MT], in the order of the source. *)
Definition MT_keys : list string :=
  ["GoodCRC"; "GotoMin"; "Accept"; "Reject"; "Ping"; "PS_RDY";
   "Get_Source_Cap"; "Get_Sink_Cap"; "DR_Swap"; "PR_Swap"; "VCONN_Swap";
   "Wait"; "Soft_Reset"; "Data_Reset"; "Data_Reset_Complete";
   "Not_Supported"; "Get_Source_Cap_Extended"; "Get_Status"; "FR_Swap";
   "Get_PPS_Status"; "Get_Country_Codes"; "Get_Sink_Cap_Extended";
   "Get_Source_Info"; "Get_Revision"; "Source_Capabilities"; "Request";
   "BIST"; "Sink_Capabilities"; "Battery_Status"; "Alert";
   "Get_Country_Info"; "Enter_USB"; "EPR_Request"; "EPR_Mode";
   "Source_Info"; "Revision"; "Vendor_Defined";
   "Source_Capabilities_Extended"; "Status"; "Get_Battery_Cap";
   "Get_Battery_Status"; "Battery_Capabilities";
   "Get_Manufacturer_Info"; "Manufacturer_Info"; "Security_Request";
   "Security_Response"; "Firmware_Update_Request";
   "Firmware_Update_Response"; "PPS_Status"; "Country_Info";
   "Country_Codes"; "Sink_Capabilities_Extended"; "Extended_Control";
   "EPR_Source_Capabilities"; "EPR_Sink_Capabilities";
   "Vendor_Defined_Extended"; "Reserved"]%string.

(** A row of the view: the values it was inserted with and its tag. *)
Record row : Type := mkRow {
  r_index : nat;
  r_time : string;
  r_sop : pyval;
  r_rev : pyval;
  r_ppr : pyval;
  r_pdr : pyval;
  r_msg_type : pyval;
  r_tag : option string
}.

(** The view and what the object remembers of its last rendering.  The
    children of the tree are kept with the item ids they were given. *)
Record view : Type := mkView {
  children : list (nat * row);       (* tree.get_children(), oldest first *)
  selection : list nat;              (* tree.selection() *)
  next_id : nat;                     (* the id of the next inserted row *)
  last_rendered_count : nat;
  last_relative_time_mode : bool;
  last_filter_goodcrc_mode : bool;
  filter_goodcrc_var : bool;
  relative_time_var : bool;
  current_selection : option DataItem;
  export_enabled : bool
}.

(** The view after [__init__] and [create_widgets]. *)
Definition init : view :=
  mkView [] [] 1 0 false false false false None false.

(** [round(x)] on a number: to the nearest integer, halves to the even
    one. *)
Definition py_round (q : Q) : Z :=
  let f := Qfloor q in
  match Qcompare (q - inject_Z f) (1 # 2) with
  | Lt => f
  | Gt => (f + 1)%Z
  | Eq => if Z.even f then f else (f + 1)%Z
  end.

(** [f"{n:0{width}d}"] for a number that is not negative. *)
Definition pad_decimal (width : nat) (n : Z) : string :=
  let s := NilZero.string_of_uint (N.to_uint (Z.to_N n)) in
  (string_of_list_ascii (repeat "0"%char (width - String.length s)) ++ s)
  %string.

(** [_format_relative_time]. *)
Definition _format_relative_time (seconds : Q) : string :=
  let seconds := if GuiMore.lt_bool seconds 0 then 0 else seconds in
  let total_ms := py_round (seconds * 1000) in
  let mins := (total_ms / 60000)%Z in
  let ms_rem := (total_ms mod 60000)%Z in
  let secs := (ms_rem / 1000)%Z in
  let ms := (ms_rem mod 1000)%Z in
  (pad_decimal 2 mins ++ ":" ++ pad_decimal 2 secs ++ "."
   ++ pad_decimal 3 ms)%string.

(** The tag of a row: the message type if it is a key of [MT], else the
    first key that equals it up to case. *)
Definition tag_of (msg_type : pyval) : option string :=
  match msg_type with
  | PStr s =>
      if existsb (String.eqb s) MT_keys then Some s
      else find (fun k => String.eqb (lower k) (lower s)) MT_keys
  | _ => None
  end.

(** The test of the filter: a row is left out when the filter is on and
    its message type is a text that contains "goodcrc" in lower case. *)
Definition is_goodcrc (msg_type : pyval) : bool :=
  match msg_type with
  | PStr s => contains "goodcrc" (lower s)
  | _ => false
  end.

Definition shown (hide_goodcrc : bool) (item : DataItem) : bool :=
  negb (hide_goodcrc && is_goodcrc (msg_type item)).

Section WithParse.

(** [_parse_timestamp_to_seconds]. *)
Variable parse : string -> option Q.

(** The time a row displays. *)
Definition display_time (relative_mode : bool) (base_seconds : option Q)
  (item : DataItem) : string :=
  if relative_mode then
    match base_seconds with
    | Some base =>
        match parse (timestamp item) with
        | Some cur_sec =>
            let dt := cur_sec - base in
            let dt := if GuiMore.lt_bool dt 0 then 0 else dt in
            _format_relative_time dt
        | None => timestamp item
        end
    | None => timestamp item
    end
  else timestamp item.

(** The row [_insert_tree_item] inserts for an entry of the log. *)
Definition render (relative_mode : bool) (base_seconds : option Q)
  (item : DataItem) : row :=
  mkRow (index item) (display_time relative_mode base_seconds item)
        (sop item) (rev item) (ppr item) (pdr item) (msg_type item)
        (tag_of (msg_type item)).

(** [_insert_tree_item]. *)
Definition _insert_tree_item (relative_mode : bool)
  (base_seconds : option Q) (v : view) (item : DataItem) : view :=
  mkView (children v ++ [(next_id v, render relative_mode base_seconds item)])
         (selection v) (S (next_id v)) (last_rendered_count v)
         (last_relative_time_mode v) (last_filter_goodcrc_mode v)
         (filter_goodcrc_var v) (relative_time_var v)
         (current_selection v) (export_enabled v).

(** Deleting every child of the tree; the selection goes with them. *)
Definition delete_children (v : view) : view :=
  mkView [] [] (next_id v) (last_rendered_count v)
         (last_relative_time_mode v) (last_filter_goodcrc_mode v)
         (filter_goodcrc_var v) (relative_time_var v)
         (current_selection v) (export_enabled v).

Definition set_selection (ids : list nat) (v : view) : view :=
  mkView (children v) ids (next_id v) (last_rendered_count v)
         (last_relative_time_mode v) (last_filter_goodcrc_mode v)
         (filter_goodcrc_var v) (relative_time_var v)
         (current_selection v) (export_enabled v).

(** [tree.item(id)['values']] of a child. *)
Definition row_of (id : nat) (v : view) : option row :=
  option_map snd (find (fun c => Nat.eqb (fst c) id) (children v)).

(** [int(values[0]) - 1] of the first selected row. *)
Definition selected_index (v : view) : option Z :=
  match selection v with
  | [] => None
  | id :: _ =>
      match row_of id v with
      | Some r => Some (Z.of_nat (r_index r) - 1)%Z
      | None => None
      end
  end.

(** What a call reads of [self.data_list], one field for each place
    where the call reads it.  The consumer thread appends to the log while
    the main thread runs the call, so the reads need not agree: each field
    is the log as it is at that place. *)
Record reads : Type := mkReads {
  at_count : list DataItem;    (* len(self.data_list), the first statement
                                  of update_treeview *)
  at_base : list DataItem;     (* self.data_list and self.data_list[0],
                                  where base_seconds is computed *)
  at_draw : list DataItem;     (* the entries the loop of the rendering
                                  visits: for item in self.data_list, or
                                  range(existing_count, len(self.data_list))
                                  and self.data_list[i] *)
  at_restore : list DataItem;  (* len(self.data_list), where the full
                                  rebuild restores the selection *)
  at_export : list DataItem    (* self.data_list, for the export button *)
}.

(** The reads of a call during which the log stands still. *)
Definition still (data_list : list DataItem) : reads :=
  mkReads data_list data_list data_list data_list data_list.

(** [_full_rebuild_treeview]. *)
Definition _full_rebuild_treeview (hide_goodcrc relative_mode : bool)
  (base_seconds : option Q) (draw restore : list DataItem) (v : view)
  : view :=
  let selected := selected_index v in
  let v := delete_children v in
  let v :=
    fold_left
      (fun acc item =>
         if hide_goodcrc && is_goodcrc (msg_type item) then acc
         else _insert_tree_item relative_mode base_seconds acc item)
      draw v in
  match selected with
  | Some si =>
      if (0 <=? si)%Z && (si <? Z.of_nat (List.length restore))%Z then
        match
          find (fun c => (Z.of_nat (r_index (snd c)) =? si + 1)%Z)
               (children v)
        with
        | Some target => set_selection [fst target] v
        | None => v
        end
      else v
  | None => v
  end.

(** [_incremental_update_treeview]. *)
Definition _incremental_update_treeview (hide_goodcrc relative_mode : bool)
  (base_seconds : option Q) (draw restore : list DataItem) (v : view)
  : view :=
  let existing_count := List.length (children v) in
  if hide_goodcrc then
    _full_rebuild_treeview hide_goodcrc relative_mode base_seconds
      draw restore v
  else
    fold_left (_insert_tree_item relative_mode base_seconds)
      (skipn existing_count draw) v.

(** [update_treeview]. *)
Definition update_treeview (r : reads) (v : view) : view :=
  let current_data_count := List.length (at_count r) in
  let hide_goodcrc := filter_goodcrc_var v in
  let relative_mode := relative_time_var v in
  if (current_data_count =? 0)%nat then
    let v := delete_children v in
    mkView (children v) (selection v) (next_id v) 0 relative_mode
           hide_goodcrc (filter_goodcrc_var v) (relative_time_var v)
           (current_selection v) (export_enabled v)
  else
    let mode_changed :=
      negb (Bool.eqb relative_mode (last_relative_time_mode v))
      || negb (Bool.eqb hide_goodcrc (last_filter_goodcrc_mode v)) in
    let existing_count := List.length (children v) in
    let need_full_rebuild :=
      (current_data_count <? last_rendered_count v)%nat
      || (existing_count =? 0)%nat || mode_changed in
    let base_seconds :=
      if relative_mode then
        match at_base r with
        | first :: _ => parse (timestamp first)
        | [] => None
        end
      else None in
    let v :=
      if need_full_rebuild then
        _full_rebuild_treeview hide_goodcrc relative_mode base_seconds
          (at_draw r) (at_restore r) v
      else
        _incremental_update_treeview hide_goodcrc relative_mode
          base_seconds (at_draw r) (at_restore r) v in
    mkView (children v) (selection v) (next_id v) current_data_count
           relative_mode hide_goodcrc (filter_goodcrc_var v)
           (relative_time_var v) (current_selection v)
           (match at_export r with [] => false | _ :: _ => true end).

(** [on_item_select]: the entry of the selected row becomes the current
    selection; [displayed] tells whether [display_data] then returned, in
    which case the selection line is locked on the entry.  [at_len] is the
    log where [len(self.data_list)] is read and [at_get] the log where
    [self.data_list[index]] is; the log is not cleared in between, both
    being on the main thread, so the index that passed the test is never
    out of range. *)
Definition on_item_select (displayed : bool)
  (at_len at_get : list DataItem) (g : gui) (v : view) : gui * view :=
  match selected_index v with
  | None => (g, v)
  | Some idx =>
      if (0 <=? idx)%Z && (idx <? Z.of_nat (List.length at_len))%Z
      then
        match nth_error at_get (Z.to_nat idx) with
        | Some item =>
            (if displayed
             then set_hover_last_item_index (Some (Z.to_nat idx))
                    (set_is_vline_locked true g)
             else g,
             mkView (children v) (selection v) (next_id v)
                    (last_rendered_count v) (last_relative_time_mode v)
                    (last_filter_goodcrc_mode v) (filter_goodcrc_var v)
                    (relative_time_var v) (Some item) (export_enabled v))
        | None => (g, v)
        end
      else (g, v)
  end.

(** [on_item_click] on the row with item id [id]; a click beside the rows
    does nothing. *)
Definition on_item_click (id : nat) (displayed : bool)
  (at_len at_get : list DataItem) (g : gui) (v : view) : gui * view :=
  if existsb (fun c => Nat.eqb (fst c) id) (children v) then
    on_item_select displayed at_len at_get g (set_selection [id] v)
  else (g, v).

(** The two checkboxes, as the user leaves them before a redraw. *)
Definition set_vars (hide_goodcrc relative_mode : bool) (v : view) : view :=
  mkView (children v) (selection v) (next_id v) (last_rendered_count v)
         (last_relative_time_mode v) (last_filter_goodcrc_mode v)
         hide_goodcrc relative_mode (current_selection v)
         (export_enabled v).

(** The log [b] is the log [a] with entries appended. *)
Definition extends (a b : list DataItem) : Prop := exists e, b = a ++ e.

(** The reads of a call made when the log was [dl] at the least: the log
    only grows from one place to the next. *)
Definition grown (dl : list DataItem) (r : reads) : Prop :=
  extends dl (at_count r)
  /\ extends (at_count r) (at_base r)
  /\ extends (at_base r) (at_draw r)
  /\ extends (at_draw r) (at_restore r)
  /\ extends (at_restore r) (at_export r).

(** The entries a call draws: none when it counted none, else those its
    loop visits. *)
Definition drawn_log (r : reads) : list DataItem :=
  match at_count r with
  | [] => []
  | _ :: _ => at_draw r
  end.

(** A log numbered 1, 2, 3, ... *)
Definition numbered (data_list : list DataItem) : Prop :=
  map index data_list = seq 1 (List.length data_list).

(** The rows the view should show for a log under a filter and a time
    mode. *)
Definition base_of (relative_mode : bool) (data_list : list DataItem)
  : option Q :=
  if relative_mode then
    match data_list with
    | first :: _ => parse (timestamp first)
    | [] => None
    end
  else None.

Definition rows_for (hide_goodcrc relative_mode : bool)
  (data_list : list DataItem) : list row :=
  map (render relative_mode (base_of relative_mode data_list))
      (filter (shown hide_goodcrc) data_list).

(** The view holds, each once and in the order of the log, the rows of
    the first [k] entries of the log [dl] under the filter and the time
    mode it was last drawn with, and what is selected is among them. *)
Definition shows (dl : list DataItem) (k : nat) (v : view) : Prop :=
  (k <= List.length dl)%nat
  /\ map snd (children v)
     = map (render (last_relative_time_mode v)
              (base_of (last_relative_time_mode v) dl))
           (filter (shown (last_filter_goodcrc_mode v)) (firstn k dl))
  /\ NoDup (map fst (children v))
  /\ (forall id, In id (map fst (children v)) -> (id < next_id v)%nat)
  /\ (forall id, In id (selection v) -> In id (map fst (children v))).

(** The view [v], drawn from [v0], holds the rows of [dl] under [hide],
    [rel] and the baseline [base], with ids never used before. *)
Definition drawn (hide rel : bool) (base : option Q) (dl : list DataItem)
  (v0 v : view) : Prop :=
  map snd (children v) = map (render rel base) (filter (shown hide) dl)
  /\ NoDup (map fst (children v))
  /\ (forall id, In id (map fst (children v)) -> (id < next_id v)%nat)
  /\ (forall id, In id (selection v) -> In id (map fst (children v)))
  /\ (next_id v0 <= next_id v)%nat
  /\ filter_goodcrc_var v = filter_goodcrc_var v0
  /\ relative_time_var v = relative_time_var v0
  /\ current_selection v = current_selection v0.

(** The entry that stays selected when the view is drawn again, hiding
    GoodCRC or not. *)
Definition kept_entry (hide : bool) (dl : list DataItem)
  (selected : option nat) : option nat :=
  match selected with
  | None => None
  | Some n =>
      match nth_error dl (n - 1) with
      | Some item => if shown hide item then Some n else None
      | None => None
      end
  end.

(** The sequence number of the selected row, if a row is selected. *)
Definition selected_entry (v : view) : option nat :=
  match selection v with
  | [] => None
  | id :: _ => option_map r_index (row_of id v)
  end.

End WithParse.

(** Two entries for the examples: a GoodCRC and a capability
    advertisement, numbered 1 and 2. *)
Definition first_entry : DataItem :=
  mkItem 1 "12:00:00.000" None (PStr "SOP") (PStr "3.0") (PStr "Source")
         (PStr "DFP") (PStr "goodcrc") Sample.pd_source_cap.

Definition second_entry : DataItem :=
  mkItem 2 "12:00:00.250" None (PStr "SOP") (PStr "3.0") (PStr "Source")
         (PStr "DFP") (PStr "Source_Capabilities") Sample.pd_source_cap.

(** A reader of timestamps that reads nothing. *)
Definition no_parse (t : string) : option Q := None.

(** The view after a redraw of the log of the first entry alone. *)
Definition one_row : view :=
  update_treeview no_parse (still [first_entry]) init.

End Tree.

(* ================================================================== *)
(** * Properties *)

(* ------------------------------------------------------------------ *)
(** ** Channels *)

Module ChanFacts.

Section Laws.
Context {A : Type}.
Implicit Types (q : queue A) (x : A) (xs : list A).

Lemma full_spec q :
  full q = true <->
  (0 < maxsize q)%Z /\ (maxsize q <= Z.of_nat (List.length (items q)))%Z.
Proof.
  unfold full, qsize. rewrite andb_true_iff, Z.ltb_lt, Z.leb_le. tauto.
Qed.

Lemma offer_full q x : full q = true -> offer x q = q.
Proof. intros H. unfold offer, put_nowait. now rewrite H. Qed.

Lemma offer_room q x :
  full q = false -> offer x q = mkQueue (maxsize q) (items q ++ [x]).
Proof. intros H. unfold offer, put_nowait. now rewrite H. Qed.

Lemma offer_maxsize q x : maxsize (offer x q) = maxsize q.
Proof.
  unfold offer, put_nowait. destruct (full q); reflexivity.
Qed.

(** An offer changes the queue by at most one item at its tail. *)
Lemma offer_cases q x :
  items (offer x q) = items q \/ items (offer x q) = items q ++ [x].
Proof.
  unfold offer, put_nowait. destruct (full q); simpl; auto.
Qed.

Lemma offer_all_maxsize xs : forall q, maxsize (offer_all xs q) = maxsize q.
Proof.
  induction xs as [|x xs IH]; intros q; simpl; [reflexivity|].
  unfold offer_all in *. simpl. rewrite IH. apply offer_maxsize.
Qed.

(** A burst into a bounded channel nobody reads keeps what fits, in the
    order offered, and nothing after that. *)
Lemma offer_all_items xs : forall q,
  (0 < maxsize q)%Z ->
  items (offer_all xs q)
  = items q ++ firstn (Z.to_nat (maxsize q) - List.length (items q)) xs.
Proof.
  induction xs as [|x xs IH]; intros q Hpos.
  - simpl. rewrite firstn_nil, app_nil_r. reflexivity.
  - change (offer_all (x :: xs) q) with (offer_all xs (offer x q)).
    destruct (full q) eqn:Hf.
    + rewrite (offer_full q x Hf), (IH q Hpos).
      apply full_spec in Hf. destruct Hf as [_ Hle].
      replace (Z.to_nat (maxsize q) - List.length (items q))%nat with 0%nat
        by lia.
      reflexivity.
    + rewrite (offer_room q x Hf).
      rewrite IH by exact Hpos. simpl.
      assert (Hlt : (Z.of_nat (List.length (items q)) < maxsize q)%Z).
      { unfold full, qsize in Hf. apply andb_false_iff in Hf.
        destruct Hf as [Hf|Hf];
          [apply Z.ltb_ge in Hf | apply Z.leb_gt in Hf]; lia. }
      rewrite length_app. simpl.
      replace (Z.to_nat (maxsize q) - List.length (items q))%nat
        with (S (Z.to_nat (maxsize q) - (List.length (items q) + 1)))%nat
        by lia.
      simpl. rewrite <- app_assoc. reflexivity.
Qed.

Lemma deque_append_last (maxlen : Z) x (d : list A) (dflt : A) :
  (0 < maxlen)%Z -> last (deque_append maxlen x d) dflt = x.
Proof.
  intros Hpos. unfold deque_append.
  destruct (Z.eqb_spec maxlen 0); [lia|].
  destruct (maxlen <=? Z.of_nat (List.length d))%Z; apply last_last.
Qed.

Lemma deque_append_fresh (maxlen : Z) x :
  (0 < maxlen)%Z -> deque_append maxlen x (@nil A) = [x].
Proof.
  intros Hpos. unfold deque_append.
  destruct (Z.eqb_spec maxlen 0); [lia|].
  destruct (Z.leb_spec maxlen (Z.of_nat (List.length (@nil A))));
    simpl in *; [lia | reflexivity].
Qed.

End Laws.

End ChanFacts.

(* ------------------------------------------------------------------ *)
(** ** The acquisition worker *)

Module WorkerFacts.
Import Worker.

Lemma summary_due_spec (now last : Q) :
  summary_due now last = true <-> 1 # 10 <= now - last.
Proof. unfold summary_due. apply Qle_bool_iff. Qed.

Lemma spaced_after (l : list Q) : forall last t,
  spaced last l -> In t l -> 1 # 10 <= t - last.
Proof.
  induction l as [|a l IH]; intros last t Hs Hin; [destruct Hin|].
  destruct Hs as [Ha Hl]. destruct Hin as [->|Hin]; [exact Ha|].
  specialize (IH a t Hl Hin). lra.
Qed.

Lemma spaced_tail (l1 : list Q) : forall last a l2,
  spaced last (l1 ++ a :: l2) -> spaced a l2.
Proof.
  induction l1 as [|x l1 IH]; intros last a l2 Hs.
  - exact (proj2 Hs).
  - exact (IH x a l2 (proj2 Hs)).
Qed.

(** In a spaced list any two entries are at least 100 ms apart. *)
Lemma spaced_pairwise (l1 l2 l3 : list Q) (last a b : Q) :
  spaced last (l1 ++ a :: l2 ++ b :: l3) -> 1 # 10 <= b - a.
Proof.
  intros Hs. apply spaced_tail in Hs.
  apply (spaced_after (l2 ++ b :: l3)); [exact Hs|].
  apply in_or_app. right. left. reflexivity.
Qed.

Section WithFloat.
Variable float_of_str : string -> res Q.

Local Abbreviation worker_iter := (worker_iter float_of_str).
Local Abbreviation on_general := (on_general float_of_str).
Local Abbreviation make_iv := (make_iv float_of_str).
Local Abbreviation read_float := (read_float float_of_str).
Local Abbreviation decode_float := (decode_float float_of_str).
Local Abbreviation worker_loop := (worker_loop float_of_str).
Local Abbreviation summary_times := (summary_times float_of_str).

Lemma iter_general r w timestamp_str pkg :
  rd_unpack r = Ret (timestamp_str, pkg) ->
  md_field pkg = "general"%string ->
  worker_iter r w
  = (on_general pkg (rd_current_time r) (rd_now r) w, Continue).
Proof.
  intros Hu Hf. unfold Worker.worker_iter. rewrite Hu, Hf. reflexivity.
Qed.

Lemma iter_pd r w timestamp_str pkg :
  rd_unpack r = Ret (timestamp_str, pkg) ->
  md_field pkg = "pd"%string ->
  worker_iter r w
  = match on_pd timestamp_str pkg (rd_current_time r) (rd_pause r) w with
    | Ret w' => (w', Continue)
    | Exc msg => on_error msg w
    end.
Proof.
  intros Hu Hf. unfold Worker.worker_iter. rewrite Hu, Hf. reflexivity.
Qed.

Lemma iter_raise r w msg :
  rd_unpack r = Exc msg -> worker_iter r w = on_error msg w.
Proof. intros Hu. unfold Worker.worker_iter. now rewrite Hu. Qed.

Lemma on_error_fatal msg w :
  contains "read error" (lower msg) = true ->
  on_error msg w
  = (mkW (last_pdo w) (last_rdo w) (last_general_timestamp w)
         (offer sentinel (data_queue w)) (iv_queue w), Exit).
Proof. intros H. unfold on_error. now rewrite H. Qed.

Lemma on_error_transient msg w :
  contains "read error" (lower msg) = false -> on_error msg w = (w, Retry).
Proof. intros H. unfold on_error. now rewrite H. Qed.

(** The handler touches nothing but [data_queue], and that by one offer. *)
Lemma on_error_frame msg w :
  let w' := fst (on_error msg w) in
  last_pdo w' = last_pdo w /\ last_rdo w' = last_rdo w
  /\ last_general_timestamp w' = last_general_timestamp w
  /\ iv_queue w' = iv_queue w
  /\ (data_queue w' = data_queue w
      \/ data_queue w' = offer sentinel (data_queue w)).
Proof.
  unfold on_error. destruct (contains _ _); simpl; auto 10.
Qed.

Lemma on_pd_frame timestamp_str pkg ct pause w w' :
  on_pd timestamp_str pkg ct pause w = Ret w' ->
  last_general_timestamp w' = last_general_timestamp w
  /\ iv_queue w' = iv_queue w
  /\ (data_queue w' = data_queue w
      \/ exists m, data_queue w' = offer m (data_queue w)).
Proof.
  unfold on_pd. destruct (pause =? 1)%Z.
  - intros [= <-]. auto.
  - destruct (md_value pkg "SOP*"); simpl; [|discriminate].
    destruct (md_is_pdo pkg); simpl; [|discriminate].
    destruct (md_is_rdo pkg); simpl; [|discriminate].
    intros [= <-]. simpl. eauto.
Qed.

(** Whatever an iteration does, each channel is either untouched or has
    been offered exactly one item. *)
Lemma iter_channels r w :
  let w' := fst (worker_iter r w) in
  (data_queue w' = data_queue w
   \/ exists m, data_queue w' = offer m (data_queue w))
  /\ (iv_queue w' = iv_queue w
      \/ exists m, iv_queue w' = offer m (iv_queue w)).
Proof.
  unfold Worker.worker_iter.
  destruct (rd_unpack r) as [[timestamp_str pkg]|msg].
  - destruct (String.eqb (md_field pkg) "general").
    + simpl. eauto.
    + destruct (String.eqb (md_field pkg) "pd"); [|simpl; auto].
      destruct (on_pd _ _ _ _ _) as [w1|msg] eqn:E.
      * apply on_pd_frame in E. simpl. intuition auto.
      * pose proof (on_error_frame msg w) as F. simpl in F.
        intuition eauto.
  - pose proof (on_error_frame msg w) as F. simpl in F. intuition eauto.
Qed.

Lemma iter_data_queue_full r w :
  full (data_queue w) = true ->
  data_queue (fst (worker_iter r w)) = data_queue w.
Proof.
  intros Hf. destruct (iter_channels r w) as [[H|[m H]] _]; [exact H|].
  rewrite H. apply ChanFacts.offer_full, Hf.
Qed.

Lemma iter_iv_queue_full r w :
  full (iv_queue w) = true ->
  iv_queue (fst (worker_iter r w)) = iv_queue w.
Proof.
  intros Hf. destruct (iter_channels r w) as [_ [H|[m H]]]; [exact H|].
  rewrite H. apply ChanFacts.offer_full, Hf.
Qed.

(** The summary timestamp after an iteration. *)
Lemma iter_last_general_timestamp r w :
  last_general_timestamp (fst (worker_iter r w))
  = if is_general r
       && summary_due (rd_now r) (last_general_timestamp w)
    then rd_now r else last_general_timestamp w.
Proof.
  unfold Worker.worker_iter, is_general.
  destruct (rd_unpack r) as [[timestamp_str pkg]|msg].
  - destruct (String.eqb (md_field pkg) "general"); [reflexivity|].
    destruct (String.eqb (md_field pkg) "pd"); [|reflexivity].
    destruct (on_pd _ _ _ _ _) as [w1|msg] eqn:E.
    + apply on_pd_frame in E. simpl. tauto.
    + pose proof (on_error_frame msg w) as F. simpl in F. tauto.
  - pose proof (on_error_frame msg w) as F. simpl in F. tauto.
Qed.

Lemma summary_times_spaced ts : forall w,
  spaced (last_general_timestamp w) (summary_times ts w).
Proof.
  induction ts as [|t ts IH]; intros w; simpl; [exact I|].
  destruct (t_stop t); [exact I|].
  pose proof (iter_last_general_timestamp (t_reading t) (taken t w)) as Hl.
  destruct (Worker.worker_iter float_of_str (t_reading t) (taken t w))
    as [w1 c].
  simpl fst in Hl.
  change (last_general_timestamp (taken t w))
    with (last_general_timestamp w) in *.
  specialize (IH w1). rewrite Hl in IH.
  destruct (is_general (t_reading t)
            && summary_due (rd_now (t_reading t))
                 (last_general_timestamp w)) eqn:Hd.
  - apply andb_true_iff in Hd. destruct Hd as [_ Hd].
    apply summary_due_spec in Hd.
    destruct c; simpl; auto.
  - destruct c; simpl; auto.
Qed.

End WithFloat.

End WorkerFacts.

(* ------------------------------------------------------------------ *)
(** ** The owning process *)

Module GuiFacts.
Import Gui.

(** *** [add_data_item] *)

Lemma add_data_item_data_list clock sop rev ppr pdr msg_type data
      timestamp time_sec force g :
  data_list
    (add_data_item clock sop rev ppr pdr msg_type data timestamp time_sec
       force g)
  = if negb force && is_paused g then data_list g
    else data_list g
         ++ [mkItem (List.length (data_list g) + 1)
               (timestamp_or timestamp clock) time_sec sop rev ppr pdr
               msg_type data].
Proof. unfold add_data_item. destruct (negb force && is_paused g); reflexivity. Qed.

Lemma add_data_item_moves clock sop rev ppr pdr msg_type data timestamp
      time_sec force g :
  log_moves (data_list g)
    (data_list (add_data_item clock sop rev ppr pdr msg_type data timestamp
                  time_sec force g)).
Proof.
  rewrite add_data_item_data_list. unfold log_moves.
  destruct (negb force && is_paused g); [now left|].
  right. right. eexists. split; reflexivity.
Qed.

Lemma acknowledge_data_list g : data_list (acknowledge g) = data_list g.
Proof. unfold acknowledge. frame. Qed.

Lemma append_marker_data_list t kind g :
  data_list (_append_marker_event t kind g) = data_list g.
Proof. unfold _append_marker_event. frame. Qed.

Lemma append_plot_data_list t v i g :
  data_list (_append_plot_point t v i g) = data_list g.
Proof. unfold _append_plot_point. frame. Qed.

Lemma consume_pd_moves clock m g :
  log_moves (data_list g) (data_list (consume_pd clock m g)).
Proof.
  destruct m as [d|err]; simpl.
  - pose proof (add_data_item_moves clock (pd_sop d) (pd_rev d) (pd_ppr d)
                  (pd_pdr d) (pd_msg_type d) (pd_data d)
                  (Some (pd_timestamp d)) (Some (pd_time_sec d)) false
                  (acknowledge g)) as H.
    rewrite acknowledge_data_list in H.
    destruct (pd_is_pdo d), (pd_is_rdo d);
      rewrite ?append_marker_data_list; simpl;
      rewrite ?append_marker_data_list; exact H.
  - left. frame.
Qed.

Lemma consume_iv_data_list m g :
  data_list (consume_iv m g) = data_list g.
Proof. unfold consume_iv, _append_plot_point, acknowledge. frame. Qed.

Lemma run_after_data_list g : data_list (run_after g) = data_list g.
Proof. unfold run_after. destruct (after_calls g) as [|[|err] rest]; reflexivity. Qed.

Lemma clear_list_moves ask_user answer g :
  log_moves (data_list g) (data_list (clear_list ask_user answer g)).
Proof.
  unfold clear_list, log_moves.
  destruct (negb ask_user || answer); [|now left].
  right. left. frame.
Qed.

Lemma clear_list_forced g : data_list (clear_list false true g) = [].
Proof. unfold clear_list. frame. Qed.

Lemma reset_plot_data_list g : data_list (_reset_plot g) = data_list g.
Proof. reflexivity. Qed.

Lemma connect_device_moves answer g :
  log_moves (data_list g) (data_list (connect_device answer g)).
Proof.
  unfold connect_device, log_moves.
  destruct (negb (device_open g)); [|now left].
  destruct ((0 <? List.length (data_list g))%nat) eqn:Hlen; simpl andb.
  - destruct (negb answer); [now left|]. right. left.
    pose proof (clear_list_forced g) as Hc. revert Hc.
    generalize (clear_list false true g). intros g' Hc.
    unfold start_data_thread_if_needed. frame.
  - left. unfold start_data_thread_if_needed. frame.
Qed.

Lemma pause_collection_moves answer g :
  log_moves (data_list g) (data_list (pause_collection answer g)).
Proof.
  unfold pause_collection, log_moves.
  destruct (is_paused g); [|left; frame].
  destruct (awaiting_connection_ack g); [now left|].
  destruct (import_mode g); simpl andb.
  - destruct ((0 <? List.length (data_list g))%nat) eqn:Hlen; simpl andb.
    + destruct (negb answer); [now left|]. right. left.
      pose proof (clear_list_forced g) as Hc. revert Hc.
      generalize (clear_list false true g). intros g' Hc. frame.
    + left. frame.
  - left. frame.
Qed.

Lemma step_moves e g : log_moves (data_list g) (data_list (step e g)).
Proof.
  destruct e; cbn [step].
  - apply consume_pd_moves.
  - left. apply consume_iv_data_list.
  - left. apply run_after_data_list.
  - apply clear_list_moves.
  - apply connect_device_moves.
  - apply pause_collection_moves.
  - apply add_data_item_moves.
  - left. apply reset_plot_data_list.
Qed.

Lemma seq_snoc (start n : nat) : seq start (S n) = seq start n ++ [(start + n)%nat].
Proof. rewrite seq_S. reflexivity. Qed.

(** The log reads 1, 2, 3, ... *)
Lemma moves_keep_numbering (before after : list DataItem) :
  log_moves before after ->
  map index before = seq 1 (List.length before) ->
  map index after = seq 1 (List.length after).
Proof.
  intros [->|[->|[item [-> Hi]]]] Hb; [exact Hb|reflexivity|].
  rewrite map_app, length_app, Hb. simpl.
  rewrite Nat.add_1_r, seq_snoc, Hi. f_equal. f_equal. lia.
Qed.

Lemma run_keeps_numbering es : forall g,
  map index (data_list g) = seq 1 (List.length (data_list g)) ->
  map index (data_list (run es g))
  = seq 1 (List.length (data_list (run es g))).
Proof.
  induction es as [|e es IH]; intros g Hg; [exact Hg|].
  apply (IH (step e g)).
  exact (moves_keep_numbering (step_moves e g) Hg).
Qed.

(** *** The consumer with the main thread standing still *)

Lemma add_data_item_across_nil clock sop rev ppr pdr msg_type data
      timestamp time_sec force g :
  Threads.add_data_item_across [] clock sop rev ppr pdr msg_type data
    timestamp time_sec force g
  = add_data_item clock sop rev ppr pdr msg_type data timestamp time_sec
      force g.
Proof.
  unfold Threads.add_data_item_across, Threads.add_data_item_row,
    add_data_item.
  destruct (negb force && is_paused g); reflexivity.
Qed.

Lemma consume_iv_across_nil m g :
  Threads.consume_iv_across [] m g = consume_iv m g.
Proof.
  unfold Threads.consume_iv_across, consume_iv. simpl.
  destruct (update_iv_info m); [|reflexivity].
  destruct (device_open _); reflexivity.
Qed.

End GuiFacts.

Module AckFacts.
Import Gui GuiFacts.

Lemma acks_log_app g extra :
  List.length (filter is_connected_notice (status_log g ++ extra))
  = (acks g + List.length (filter is_connected_notice extra))%nat.
Proof. unfold acks. rewrite filter_app, length_app. reflexivity. Qed.

Lemma acknowledge_idle g : ack_due g = false -> acknowledge g = g.
Proof. intros H. unfold acknowledge. now rewrite H. Qed.

(** What the block changes when it is entered. *)
Lemma acknowledge_fires g :
  ack_due g = true ->
  let g' := acknowledge g in
  awaiting_connection_ack g' = false
  /\ device_open g' = true
  /\ acks g' = S (acks g)
  /\ autostart_after_connect g' = false
  /\ is_paused g' = (if autostart_after_connect g then false else is_paused g)
  /\ pause_flag g'
     = (if autostart_after_connect g
        then match pause_flag g with Some _ => Some 0%Z | None => None end
        else pause_flag g).
Proof.
  intros H. unfold acknowledge. rewrite H.
  unfold ack_due in H. apply andb_true_iff in H. destruct H as [Ho _].
  destruct g as [dl pa op aw au lp lr pf ts pr im eg sl ivi pt pv pc ps me
                 vl hv ac].
  simpl in *. subst op.
  destruct au; [destruct pf|]; simpl; repeat split; count_acks.
Qed.

Lemma same_connection_refl g : same_connection g g.
Proof. unfold same_connection. auto 10. Qed.

Lemma same_connection_trans g1 g2 g3 :
  same_connection g1 g2 -> same_connection g2 g3 -> same_connection g1 g3.
Proof.
  unfold same_connection. intros H1 H2.
  decompose [and] H1. decompose [and] H2. repeat split; congruence.
Qed.

Lemma add_data_item_connection clock sop rev ppr pdr msg_type data
      timestamp time_sec force g :
  same_connection g
    (add_data_item clock sop rev ppr pdr msg_type data timestamp time_sec
       force g).
Proof.
  unfold add_data_item, same_connection.
  destruct (negb force && is_paused g); simpl; repeat split; auto.
  count_acks.
Qed.

Lemma append_marker_connection t kind g :
  same_connection g (_append_marker_event t kind g).
Proof.
  unfold _append_marker_event, same_connection.
  destruct (negb _); [auto 10|].
  destruct (plot_start_time g); simpl; auto 10.
Qed.

Lemma append_plot_connection t v i g :
  same_connection g (_append_plot_point t v i g).
Proof.
  unfold _append_plot_point, same_connection.
  destruct (plot_start_time g); simpl; auto 10.
Qed.

Lemma consume_pd_data_after_ack clock d g :
  same_connection (acknowledge g) (consume_pd clock (PdData d) g).
Proof.
  cbn [consume_pd].
  set (g1 := add_data_item _ _ _ _ _ _ _ _ _ _ _).
  assert (H1 : same_connection (acknowledge g) g1)
    by apply add_data_item_connection.
  clearbody g1.
  assert (H2 : same_connection (acknowledge g)
                 (if pd_is_pdo d
                  then _append_marker_event (pd_time_sec d) "pdo"
                         (set_last_pdo (pd_last_pdo d) g1)
                  else g1)).
  { destruct (pd_is_pdo d); [|exact H1].
    eapply same_connection_trans; [exact H1|].
    eapply same_connection_trans; [|apply append_marker_connection].
    unfold same_connection. simpl. auto 10. }
  revert H2. generalize (if pd_is_pdo d
                  then _append_marker_event (pd_time_sec d) "pdo"
                         (set_last_pdo (pd_last_pdo d) g1)
                  else g1). intros g2 H2.
  destruct (pd_is_rdo d); [|exact H2].
  eapply same_connection_trans; [exact H2|].
  eapply same_connection_trans; [|apply append_marker_connection].
  unfold same_connection. simpl. auto 10.
Qed.

Lemma consume_iv_after_ack m g :
  same_connection (acknowledge g) (consume_iv m g).
Proof.
  unfold consume_iv. cbn zeta.
  generalize (acknowledge g). intros g0.
  assert (H1 : same_connection g0
                 (if update_plot m
                  then _append_plot_point (iv_timestamp m) (iv_voltage m)
                         (iv_current m) g0
                  else g0)).
  { destruct (update_plot m);
      [apply append_plot_connection | apply same_connection_refl]. }
  revert H1. generalize (if update_plot m
                  then _append_plot_point (iv_timestamp m) (iv_voltage m)
                         (iv_current m) g0
                  else g0). intros g1 H1.
  destruct (update_iv_info m); [|exact H1].
  destruct (device_open g1); [|exact H1].
  eapply same_connection_trans; [exact H1|].
  unfold same_connection. simpl. auto 10.
Qed.

(** An item taken while the guard holds. *)
Lemma item_after_ack e g :
  is_item e = true -> same_connection (acknowledge g) (step e g).
Proof.
  destruct e as [clock [d|err]|m| | | | | |]; try discriminate; intros _.
  - apply consume_pd_data_after_ack.
  - apply consume_iv_after_ack.
Qed.

(** The calls the consumer queues never open the connection, never wait
    for an acknowledgement and never announce a connected device. *)
Lemma run_after_quiet g :
  ack_due g = false ->
  ack_due (run_after g) = false /\ acks (run_after g) = acks g.
Proof.
  intros H. unfold run_after.
  destruct (after_calls g) as [|[|err] rest]; [auto| |];
    (split; [reflexivity | count_acks]).
Qed.

Lemma error_item_quiet clock err g :
  ack_due (consume_pd clock (PdError err) g) = ack_due g
  /\ acks (consume_pd clock (PdError err) g) = acks g.
Proof.
  cbn [consume_pd].
  destruct (String.eqb err "device_disconnected"); [auto|].
  destruct (startswith err "connection_failed"); auto.
Qed.

Lemma consumer_step_quiet e g :
  from_channel e = true -> ack_due g = false ->
  ack_due (step e g) = false /\ acks (step e g) = acks g.
Proof.
  intros Hc Hq.
  destruct e as [clock [d|err]|m| | | | | |]; try discriminate.
  - pose proof (item_after_ack (TakePd clock (PdData d)) g eq_refl) as H.
    rewrite (acknowledge_idle g Hq) in H.
    unfold same_connection in H. decompose [and] H.
    unfold ack_due in *. split; congruence.
  - destruct (error_item_quiet clock err g) as [H1 H2].
    cbn [step]. split; congruence.
  - pose proof (item_after_ack (TakeIv m) g eq_refl) as H.
    rewrite (acknowledge_idle g Hq) in H.
    unfold same_connection in H. decompose [and] H.
    unfold ack_due in *. split; congruence.
  - apply run_after_quiet, Hq.
Qed.

Lemma consumer_run_quiet es : forall g,
  forallb from_channel es = true -> ack_due g = false ->
  ack_due (run es g) = false /\ acks (run es g) = acks g.
Proof.
  induction es as [|e es IH]; intros g Hc Hq; [auto|].
  simpl in Hc. apply andb_true_iff in Hc. destruct Hc as [He Hes].
  destruct (consumer_step_quiet e g He Hq) as [H1 H2].
  destruct (IH (step e g) Hes H1) as [H3 H4].
  change (run (e :: es) g) with (run es (step e g)).
  split; congruence.
Qed.

(** Pressing connect on a closed device, with an empty log or the user's
    consent to clear it, leaves the object waiting for the
    acknowledgement. *)
Lemma connect_device_awaits answer g :
  device_open g = false ->
  data_list g = [] \/ answer = true ->
  ack_due (connect_device answer g) = true
  /\ is_paused (connect_device answer g) = true
  /\ autostart_after_connect (connect_device answer g) = false.
Proof.
  intros Ho Hc. unfold connect_device. rewrite Ho. cbn [negb].
  assert (Hg : ((0 <? List.length (data_list g))%nat && negb answer) = false).
  { destruct Hc as [-> | ->]; [reflexivity | apply andb_false_r]. }
  rewrite Hg. unfold start_data_thread_if_needed, clear_list, ack_due.
  frame.
Qed.

Lemma ack_due_unawaited g :
  awaiting_connection_ack g = false -> ack_due g = false.
Proof. intros H. unfold ack_due. rewrite H. apply andb_false_r. Qed.

(** Nothing on the consumer side raises the flag again. *)
Lemma consumer_step_unawaited e g :
  from_channel e = true -> awaiting_connection_ack g = false ->
  awaiting_connection_ack (step e g) = false.
Proof.
  intros Hc Hw.
  destruct e as [clock [d|err]|m| | | | | |]; try discriminate.
  - pose proof (item_after_ack (TakePd clock (PdData d)) g eq_refl) as H.
    rewrite (acknowledge_idle g (ack_due_unawaited g Hw)) in H.
    destruct H as [H _]. congruence.
  - cbn [step consume_pd].
    destruct (String.eqb err "device_disconnected"); [exact Hw|].
    destruct (startswith err "connection_failed"); exact Hw.
  - pose proof (item_after_ack (TakeIv m) g eq_refl) as H.
    rewrite (acknowledge_idle g (ack_due_unawaited g Hw)) in H.
    destruct H as [H _]. congruence.
  - cbn [step]. unfold run_after.
    destruct (after_calls g) as [|[|err] rest];
      [exact Hw | reflexivity | reflexivity].
Qed.

Lemma consumer_run_unawaited es : forall g,
  forallb from_channel es = true -> awaiting_connection_ack g = false ->
  awaiting_connection_ack (run es g) = false.
Proof.
  induction es as [|e es IH]; intros g Hc Hw; [exact Hw|].
  simpl in Hc. apply andb_true_iff in Hc. destruct Hc as [He Hes].
  apply (IH (step e g) Hes). apply consumer_step_unawaited; assumption.
Qed.

End AckFacts.

Module PlotFacts.
Import Gui GuiFacts.

Lemma plot_maxlen_pos : (0 < plot_maxlen)%Z.
Proof. reflexivity. Qed.

Lemma reset_plot_clears g :
  plot_times (_reset_plot g) = []
  /\ plot_voltage (_reset_plot g) = []
  /\ plot_current (_reset_plot g) = []
  /\ marker_events (_reset_plot g) = []
  /\ plot_start_time (_reset_plot g) = None.
Proof. repeat split. Qed.

(** The first sample after a reset sets the baseline. *)
Lemma append_plot_unarmed t v i g :
  plot_start_time g = None ->
  plot_start_time (_append_plot_point t v i g) = Some t
  /\ plot_times (_append_plot_point t v i g)
     = deque_append plot_maxlen (t - t) (plot_times g)
  /\ plot_voltage (_append_plot_point t v i g)
     = deque_append plot_maxlen v (plot_voltage g)
  /\ plot_current (_append_plot_point t v i g)
     = deque_append plot_maxlen i (plot_current g).
Proof. intros H. unfold _append_plot_point. rewrite H. repeat split. Qed.

(** Every later sample is measured against it and leaves it alone. *)
Lemma append_plot_armed t v i g start :
  plot_start_time g = Some start ->
  plot_start_time (_append_plot_point t v i g) = Some start
  /\ plot_times (_append_plot_point t v i g)
     = deque_append plot_maxlen (t - start) (plot_times g)
  /\ plot_voltage (_append_plot_point t v i g)
     = deque_append plot_maxlen v (plot_voltage g)
  /\ plot_current (_append_plot_point t v i g)
     = deque_append plot_maxlen i (plot_current g).
Proof.
  intros H. unfold _append_plot_point. rewrite H. cbn zeta.
  rewrite H. simpl. rewrite H. repeat split.
Qed.

Lemma append_marker_unarmed t kind g :
  plot_start_time g = None -> _append_marker_event t kind g = g.
Proof.
  intros H. unfold _append_marker_event. rewrite H.
  destruct (negb _); reflexivity.
Qed.

Lemma acknowledge_plot g : same_plot g (acknowledge g).
Proof. unfold same_plot, acknowledge. split; frame. Qed.

Lemma add_data_item_plot clock sop rev ppr pdr msg_type data timestamp
      time_sec force g :
  same_plot g
    (add_data_item clock sop rev ppr pdr msg_type data timestamp time_sec
       force g).
Proof. unfold same_plot, add_data_item. split; frame. Qed.

Lemma append_marker_start t kind g :
  plot_start_time (_append_marker_event t kind g) = plot_start_time g.
Proof. unfold _append_marker_event. frame. Qed.

Lemma consume_pd_start clock m g :
  plot_start_time (consume_pd clock m g) = plot_start_time g.
Proof.
  destruct m as [d|err]; cbn [consume_pd]; [|frame].
  destruct (pd_is_pdo d), (pd_is_rdo d);
    rewrite ?append_marker_start; simpl;
    rewrite ?append_marker_start; simpl;
    rewrite (proj1 (add_data_item_plot _ _ _ _ _ _ _ _ _ _ _));
    apply acknowledge_plot.
Qed.

(** A PD item taken before any sample leaves the marker log as it was. *)
Lemma consume_pd_unarmed clock m g :
  plot_start_time g = None ->
  marker_events (consume_pd clock m g) = marker_events g.
Proof.
  intros H. destruct m as [d|err]; cbn [consume_pd]; [|frame].
  set (g1 := add_data_item _ _ _ _ _ _ _ _ _ _ _).
  assert (H1 : same_plot g g1).
  { destruct (acknowledge_plot g) as [A1 A2].
    destruct (add_data_item_plot clock (pd_sop d) (pd_rev d) (pd_ppr d)
                (pd_pdr d) (pd_msg_type d) (pd_data d)
                (Some (pd_timestamp d)) (Some (pd_time_sec d)) false
                (acknowledge g)) as [B1 B2].
    split; fold g1 in B1, B2; congruence. }
  clearbody g1. destruct H1 as [S1 M1]. rewrite H in S1.
  destruct (pd_is_pdo d), (pd_is_rdo d);
    rewrite ?append_marker_unarmed; simpl; auto;
    rewrite ?append_marker_unarmed; simpl; auto.
Qed.

Lemma step_keeps_baseline e g start :
  keeps_baseline e = true ->
  plot_start_time g = Some start ->
  plot_start_time (step e g) = Some start.
Proof.
  intros He Hs. destruct e; try discriminate; cbn [step].
  - rewrite consume_pd_start. exact Hs.
  - unfold consume_iv. cbn zeta.
    assert (Ha : plot_start_time (acknowledge g) = Some start)
      by (rewrite (proj1 (acknowledge_plot g)); exact Hs).
    revert Ha. generalize (acknowledge g). intros g0 Ha.
    destruct (update_plot m).
    + destruct (append_plot_armed (iv_timestamp m) (iv_voltage m)
                  (iv_current m) g0 Ha) as [Hp _].
      destruct (update_iv_info m); [|exact Hp].
      destruct (device_open _); exact Hp.
    + destruct (update_iv_info m); [|exact Ha].
      destruct (device_open _); exact Ha.
  - unfold run_after.
    destruct (after_calls g) as [|[|err] rest]; exact Hs.
  - unfold clear_list. revert Hs. frame.
  - unfold pause_collection, clear_list. revert Hs. frame.
  - rewrite (proj1 (add_data_item_plot _ _ _ _ _ _ _ _ _ _ _)). exact Hs.
Qed.

Lemma run_keeps_baseline es : forall g start,
  forallb keeps_baseline es = true ->
  plot_start_time g = Some start ->
  plot_start_time (run es g) = Some start.
Proof.
  induction es as [|e es IH]; intros g start He Hs; [exact Hs|].
  simpl in He. apply andb_true_iff in He. destruct He as [He Hes].
  apply (IH (step e g) start Hes).
  apply step_keeps_baseline; assumption.
Qed.

(** *** Loss of the device *)

Lemma consume_sentinel clock g :
  consume_pd clock Worker.sentinel g
  = set_after_calls (after_calls g ++ [HandleDeviceDisconnect]) g.
Proof. reflexivity. Qed.

Lemma handle_device_disconnect_closes g :
  let g' := _handle_device_disconnect g in
  device_open g' = false /\ awaiting_connection_ack g' = false
  /\ is_paused g' = true
  /\ last_pdo g' = None /\ last_rdo g' = None.
Proof. repeat split. Qed.

End PlotFacts.

(* ------------------------------------------------------------------ *)
(** ** The presentation scheduler *)

Module SchedFacts.
Import Sched.

Lemma min_interval_ms c : min_interval c * 1000 == inject_Z (interval_ms c).
Proof.
  unfold min_interval, interval_ms.
  destruct (c <? 1000)%Z; [reflexivity|].
  destruct (c <? 5000)%Z; [reflexivity|].
  destruct (c <? 10000)%Z; [reflexivity|].
  destruct (c <? 20000)%Z; reflexivity.
Qed.

Lemma interval_ms_bands c :
  ((c < 1000)%Z -> interval_ms c = 100%Z)
  /\ ((1000 <= c < 5000)%Z -> interval_ms c = 300%Z)
  /\ ((5000 <= c < 10000)%Z -> interval_ms c = 500%Z)
  /\ ((10000 <= c < 20000)%Z -> interval_ms c = 1000%Z)
  /\ ((20000 <= c)%Z -> interval_ms c = 2000%Z).
Proof.
  unfold interval_ms.
  destruct (Z.ltb_spec c 1000), (Z.ltb_spec c 5000),
    (Z.ltb_spec c 10000), (Z.ltb_spec c 20000);
    repeat split; intros; try reflexivity; lia.
Qed.

(** On a positive number [int] rounds down. *)
Lemma int_of_floor (q : Q) : 0 <= q -> int_of q = Qfloor q.
Proof.
  destruct q as [n d]. unfold Qle, int_of, Qfloor. simpl. intros H.
  apply Z.quot_div_nonneg; lia.
Qed.

(** The delay is the remaining wait in whole milliseconds, rounded down. *)
Lemma delay_ms_bounds (mi tslu : Q) :
  tslu < mi ->
  (0 <= delay_ms mi tslu)%Z
  /\ inject_Z (delay_ms mi tslu) <= (mi - tslu) * 1000
  /\ (mi - tslu) * 1000 < inject_Z (delay_ms mi tslu + 1).
Proof.
  intros H. unfold delay_ms.
  assert (Hpos : 0 <= (mi - tslu) * 1000) by nra.
  rewrite (int_of_floor Hpos). repeat split.
  - change 0%Z with (Qfloor 0). apply Qfloor_resp_le, Hpos.
  - apply Qfloor_le.
  - apply Qlt_floor.
Qed.

Lemma init_coalesced : coalesced init.
Proof. left. split; reflexivity. Qed.

Lemma refresh_tick_coalesced c now s :
  coalesced s -> coalesced (refresh_tick c now s).
Proof.
  intros H. unfold refresh_tick.
  destruct (c =? last_data_count s)%Z; [exact H|].
  destruct (Qle_bool _ _); [exact H|].
  destruct (pending_treeview_update s) eqn:Hp; [exact H|].
  destruct H as [[Hd _]|[d [_ Ht]]]; [|congruence].
  right. simpl. rewrite Hd. eexists. split; reflexivity.
Qed.

Lemma fire_coalesced now s : coalesced s -> coalesced (fire now s).
Proof.
  intros H. unfold fire.
  destruct H as [[Hd Hp]|[d [Hd Hp]]]; rewrite Hd.
  - left. auto.
  - unfold _delayed_update_treeview. simpl. rewrite Hp. left. auto.
Qed.

Lemma run_coalesced es : forall s, coalesced s -> coalesced (run es s).
Proof.
  induction es as [|e es IH]; intros s H; [exact H|].
  apply (IH (step e s)). destruct e; simpl.
  - apply refresh_tick_coalesced, H.
  - apply fire_coalesced, H.
Qed.

Lemma coalesced_at_most_one s :
  coalesced s -> (List.length (deferred s) <= 1)%nat.
Proof. intros [[-> _]|[d [-> _]]]; simpl; lia. Qed.

(** A changed count seen before the interval is over. *)
Lemma refresh_tick_early c now s :
  c <> last_data_count s ->
  now - last_treeview_update_time s < min_interval c ->
  refresh_tick c now s
  = if pending_treeview_update s then s
    else mkSched (last_treeview_update_time s) true (last_data_count s)
           (deferred s
            ++ [delay_ms (min_interval c)
                  (now - last_treeview_update_time s)])
           (immediate s) (delayed_runs s).
Proof.
  intros Hc Ht. unfold refresh_tick.
  destruct (Z.eqb_spec c (last_data_count s)); [contradiction|].
  destruct (Qle_bool _ _) eqn:Hq; [|reflexivity].
  apply Qle_bool_iff in Hq. lra.
Qed.

(** A changed count seen once the interval is over. *)
Lemma refresh_tick_due c now s :
  c <> last_data_count s ->
  min_interval c <= now - last_treeview_update_time s ->
  refresh_tick c now s
  = mkSched now (pending_treeview_update s) c (deferred s)
      (S (immediate s)) (delayed_runs s).
Proof.
  intros Hc Ht. unfold refresh_tick.
  destruct (Z.eqb_spec c (last_data_count s)); [contradiction|].
  apply Qle_bool_iff in Ht. rewrite Ht. reflexivity.
Qed.

(** The flag is up exactly when one deferred call is outstanding. *)
Lemma coalesced_flag s :
  coalesced s ->
  (pending_treeview_update s = true <-> exists d, deferred s = [d])
  /\ (pending_treeview_update s = false <-> deferred s = []).
Proof.
  intros [[Hd Hp]|[d [Hd Hp]]]; rewrite Hd, Hp; split; split;
    try reflexivity; try discriminate.
  - intros [d H]. discriminate H.
  - intros _. exists d. reflexivity.
Qed.

(** The expiry of the one outstanding timer. *)
Lemma fire_pending later s d :
  deferred s = [d] -> pending_treeview_update s = true ->
  fire later s
  = mkSched later false (last_data_count s) [] (immediate s)
      (S (delayed_runs s)).
Proof.
  intros Hd Hp. unfold fire, _delayed_update_treeview. rewrite Hd. simpl.
  rewrite Hp. reflexivity.
Qed.

(** While the flag is up a pass of the loop arms nothing. *)
Lemma refresh_tick_pending c now s :
  pending_treeview_update s = true ->
  deferred (refresh_tick c now s) = deferred s
  /\ pending_treeview_update (refresh_tick c now s) = true
  /\ delayed_runs (refresh_tick c now s) = delayed_runs s.
Proof.
  intros Hp. unfold refresh_tick.
  destruct (c =? last_data_count s)%Z; [auto|].
  destruct (Qle_bool _ _); [simpl; auto|].
  rewrite Hp. auto.
Qed.

Lemma ticks_keep_pending ts :
  forall s,
    forallb is_tick ts = true ->
    pending_treeview_update s = true ->
    deferred (run ts s) = deferred s
    /\ pending_treeview_update (run ts s) = true
    /\ delayed_runs (run ts s) = delayed_runs s.
Proof.
  induction ts as [|e ts IH]; intros s Ht Hp; [simpl; auto|].
  simpl in Ht. apply andb_prop in Ht. destruct Ht as [He Ht].
  destruct e as [c now|]; [|discriminate He].
  destruct (@refresh_tick_pending c now s Hp) as (D & P & R).
  change (run (Tick c now :: ts) s) with (run ts (refresh_tick c now s)).
  destruct (IH (refresh_tick c now s) Ht P) as (D' & P' & R').
  rewrite D', P', R', D, R. auto.
Qed.

End SchedFacts.

(* ------------------------------------------------------------------ *)
(** ** The definitions on small inputs *)

Module Examples.

Example lower_mixed : lower "HID Read Error" = "hid read error"%string.
Proof. reflexivity. Qed.

Example read_error_is_found :
  contains "read error" (lower "HID Read Error: device unplugged") = true.
Proof. reflexivity. Qed.

Example timeout_is_transient : contains "read error" (lower "Timeout") = false.
Proof. reflexivity. Qed.

Example drop_unit : drop_last_char "5.04V" = "5.04"%string.
Proof. reflexivity. Qed.

Example int_of_truncates : int_of (799 # 10) = 79%Z /\ int_of (- (3 # 2)) = (-1)%Z.
Proof. split; reflexivity. Qed.

Example dec_float_reads : Sample.dec_float "5.04" = Ret (504 # 100).
Proof. reflexivity. Qed.

Example dec_float_rejects :
  raised (Sample.dec_float "1.x5") = true
  /\ raised (Sample.dec_float "") = true.
Proof. split; reflexivity. Qed.

Example offer_into_room : offer 3%Z (mkQueue 3 [1; 2]%Z) = mkQueue 3 [1; 2; 3]%Z.
Proof. reflexivity. Qed.

Example offer_into_full : offer 4%Z (mkQueue 3 [1; 2; 3]%Z) = mkQueue 3 [1; 2; 3]%Z.
Proof. reflexivity. Qed.

Example deque_evicts_oldest : deque_append 2 3%Z [1; 2]%Z = [2; 3]%Z.
Proof. reflexivity. Qed.

(** A telemetry sample with every field readable, taken at 10 s by a
    worker that never published a summary. *)
Example telemetry_record :
  Worker.make_iv Sample.dec_float Sample.general_ok 10 10 0
  = mkIv 10 (50 # 10) (15 # 10) (Qabs ((15 # 10) * (50 # 10)))
         (1 # 10) (17 # 10) (60 # 100) (59 # 100) true true.
Proof. reflexivity. Qed.

(** The same with a malformed current and no [CC2]: both read 0, and so
    does the power. *)
Example telemetry_record_degraded :
  Worker.make_iv Sample.dec_float Sample.general_bad 10 10 0
  = mkIv 10 (50 # 10) 0 (Qabs (0 * (50 # 10)))
         (1 # 10) 0 (60 # 100) (59 # 100) true true.
Proof. reflexivity. Qed.

(** A capability record read while collecting: revision ["Rev 3.0"] is
    cut to ["3.0"], the record is queued and remembered as the last
    capability. *)
Example capability_is_published :
  let r := Sample.reading_of Sample.pd_source_cap 10 0 in
  let out := Worker.worker_iter Sample.dec_float r Sample.fresh_worker in
  snd out = Worker.Continue
  /\ items (Worker.data_queue (fst out))
     = [PdData (mkPd "12:00:00.000" 10 (PStr "SOP") (PStr "3.0")
                  (PStr "Source") (PStr "DFP") (PStr "Source_Capabilities")
                  Sample.pd_source_cap true false
                  (Some Sample.pd_source_cap) None)]
  /\ Worker.last_pdo (fst out) = Some Sample.pd_source_cap.
Proof. repeat split. Qed.

(** The read of [SOP*] stands outside every [try] of the branch: on a
    packet for which it raises, the iteration ends in its handler, which
    sleeps and retries, and nothing is queued. *)
Example unguarded_sop_read :
  let r := Sample.reading_of Sample.pd_no_sop 10 0 in
  let out := Worker.worker_iter Sample.dec_float r Sample.fresh_worker in
  snd out = Worker.Retry /\ items (Worker.data_queue (fst out)) = [].
Proof. repeat split. Qed.

Example interval_bands :
  Sched.min_interval 999 = 1 # 10
  /\ Sched.min_interval 1000 = 3 # 10
  /\ Sched.min_interval 4999 = 3 # 10
  /\ Sched.min_interval 5000 = 1 # 2
  /\ Sched.min_interval 10000 = 1
  /\ Sched.min_interval 19999 = 1
  /\ Sched.min_interval 20000 = 2.
Proof. repeat split. Qed.

(** Pressing connect on a fresh object: the device is marked open, the
    object waits for the acknowledgement and stays paused. *)
Example connect_awaits :
  Gui.ack_due Sample.connecting = true
  /\ Gui.is_paused Sample.connecting = true
  /\ Gui.pause_flag Sample.connecting = Some 1%Z.
Proof. repeat split. Qed.

(** A capability record taken while paused is acknowledged but not
    logged. *)
Example paused_item_is_not_logged :
  let g :=
    Gui.consume_pd "12:00:00.001" (PdData Sample.pd_sample)
      Sample.connecting in
  Gui.data_list g = [] /\ Gui.awaiting_connection_ack g = false.
Proof. repeat split. Qed.

(** With the start requested meanwhile it is logged with index 1. *)
Example first_item_is_logged :
  let g :=
    Gui.consume_pd "12:00:00.001" (PdData Sample.pd_sample)
      Sample.connecting_autostart in
  map Gui.index (Gui.data_list g) = [1%nat]
  /\ Gui.is_paused g = false
  /\ Gui.pause_flag g = Some 0%Z.
Proof. repeat split. Qed.

End Examples.

(* ================================================================== *)
(** * The claims of the specification *)

Module Claims.

(* ------------------------------------------------------------------ *)
(** ** Event log *)

(** C1 on the schedule that breaks it.  The object collects and its log
    holds rows 1 and 2.  The consumer calls [add_data_item] for a third
    record and has computed the index 3 when the user confirms a clear of
    the list; the list is emptied, and the consumer appends its row.  The
    log then holds one row, and its index is 3, not 1.  With the main
    thread standing still the same call leaves the rows 1, 2, 3. *)
Theorem C1_clear_between_index_and_append :
  let g := Threads.two_rows in
  let add between :=
    Threads.add_data_item_across between "12:00:03.000" (PStr "SOP")
      PNone PNone PNone PNone Sample.pd_source_cap None (Some 3) false g in
  Gui.is_paused g = false
  /\ map Gui.index (Gui.data_list g) = [1; 2]%nat
  /\ forallb Threads.on_main_thread [Gui.Clear true true] = true
  /\ map Gui.index (Gui.data_list (add [Gui.Clear true true])) = [3]%nat
  /\ map Gui.index (Gui.data_list (add [Gui.Clear true true]))
     <> seq 1 (List.length (Gui.data_list (add [Gui.Clear true true])))
  /\ map Gui.index (Gui.data_list (add [])) = [1; 2; 3]%nat.
Proof.
  intros g add.
  split; [reflexivity|]. split; [reflexivity|]. split; [reflexivity|].
  split; [reflexivity|]. split; [|reflexivity].
  intros H. discriminate H.
Qed.

(* ------------------------------------------------------------------ *)
(** ** Connection acknowledgement *)

(** C3. While the object waits for the acknowledgement (the device marked
    open and [awaiting_connection_ack] set), an error item leaves it
    waiting, and the first item that is not an error, from either channel,
    clears the flag and announces the connected device once; if the start
    was requested meanwhile it also leaves the pause and lowers the shared
    pause flag, otherwise both stay as they were.  Nothing the consumer
    does afterwards announces the device again. *)
Theorem C3_first_item_acknowledges_once (e : Gui.event) (g : Gui.gui) :
  Gui.is_item e = true ->
  Gui.ack_due g = true ->
  let g' := Gui.step e g in
  Gui.awaiting_connection_ack g' = false
  /\ Gui.device_open g' = true
  /\ Gui.acks g' = S (Gui.acks g)
  /\ (Gui.autostart_after_connect g = true ->
      Gui.is_paused g' = false
      /\ Gui.autostart_after_connect g' = false
      /\ Gui.pause_flag g'
         = match Gui.pause_flag g with
           | Some _ => Some 0%Z
           | None => None
           end)
  /\ (Gui.autostart_after_connect g = false ->
      Gui.is_paused g' = Gui.is_paused g
      /\ Gui.pause_flag g' = Gui.pause_flag g)
  /\ (forall clock err,
         Gui.ack_due (Gui.consume_pd clock (PdError err) g) = true
         /\ Gui.acks (Gui.consume_pd clock (PdError err) g) = Gui.acks g)
  /\ (forall es,
         forallb Gui.from_channel es = true ->
         Gui.acks (Gui.run es g') = Gui.acks g'
         /\ Gui.awaiting_connection_ack (Gui.run es g') = false).
Proof.
  intros He Hg g'.
  destruct (AckFacts.acknowledge_fires g Hg)
    as (A1 & A2 & A3 & A4 & A5 & A6).
  destruct (AckFacts.item_after_ack e g He)
    as (S1 & S2 & S3 & S4 & S5 & S6).
  fold g' in S1, S2, S3, S4, S5, S6.
  assert (Hw : Gui.awaiting_connection_ack g' = false) by congruence.
  split; [exact Hw|].
  split; [congruence|].
  split; [congruence|].
  split; [intros Ha; rewrite Ha in A5, A6; repeat split; congruence|].
  split; [intros Ha; rewrite Ha in A5, A6; split; congruence|].
  split.
  - intros clock err.
    destruct (AckFacts.error_item_quiet clock err g) as [E1 E2].
    split; congruence.
  - intros es Hes. split.
    + apply AckFacts.consumer_run_quiet;
        [exact Hes | apply AckFacts.ack_due_unawaited, Hw].
    + apply AckFacts.consumer_run_unawaited; assumption.
Qed.

(** C3 at the first telemetry sample after the user pressed connect and
    then start. *)
Lemma C3_witness :
  let g := Sample.connecting_autostart in
  let g' := Gui.step (Gui.TakeIv (Sample.iv_sample 10)) g in
  Gui.awaiting_connection_ack g' = false
  /\ Gui.acks g' = S (Gui.acks g)
  /\ Gui.is_paused g' = false
  /\ Gui.acks
       (Gui.run [Gui.TakePd "12:00:00.001" (PdData Sample.pd_sample);
                 Gui.TakeIv (Sample.iv_sample 11)] g')
     = Gui.acks g'.
Proof.
  intros g g'.
  pose proof (C3_first_item_acknowledges_once
                (Gui.TakeIv (Sample.iv_sample 10)) g eq_refl eq_refl)
    as (H1 & _ & H3 & H4 & _ & _ & H7).
  split; [exact H1|]. split; [exact H3|].
  split; [exact (proj1 (H4 eq_refl))|].
  exact (proj1 (H7 [Gui.TakePd "12:00:00.001" (PdData Sample.pd_sample);
                    Gui.TakeIv (Sample.iv_sample 11)] eq_refl)).
Defined.

(* ------------------------------------------------------------------ *)
(** ** Acquisition worker *)

Section WorkerClaims.
Import Worker.
Variable float_of_str : string -> res Q.

Local Abbreviation worker_iter := (worker_iter float_of_str).
Local Abbreviation make_iv := (make_iv float_of_str).
Local Abbreviation read_float := (read_float float_of_str).
Local Abbreviation decode_float := (decode_float float_of_str).
Local Abbreviation worker_loop := (worker_loop float_of_str).
Local Abbreviation summary_times := (summary_times float_of_str).

(** C4. Every telemetry record the worker builds carries
    [update_plot = True]; it carries [update_iv_info = True] exactly when
    the clock reads at least 100 ms more than the summary timestamp, which
    is then moved to that reading and is otherwise left alone.  Along any
    run of the loop, any two samples flagged for the summary are therefore
    at least 100 ms apart on that clock, however fast samples arrive. *)
Theorem C4_summary_is_rate_limited :
  (forall pkg current_time now w,
      let m := make_iv pkg current_time now (last_general_timestamp w) in
      let w' := on_general float_of_str pkg current_time now w in
      update_plot m = true
      /\ (update_iv_info m = true
          <-> 1 # 10 <= now - last_general_timestamp w)
      /\ iv_queue w' = offer m (iv_queue w)
      /\ last_general_timestamp w'
         = if update_iv_info m then now else last_general_timestamp w)
  /\ (forall ts w l1 a l2 b l3,
         summary_times ts w = l1 ++ a :: l2 ++ b :: l3 ->
         1 # 10 <= b - a).
Proof.
  split.
  - intros pkg current_time now w m w'. repeat split.
    + apply WorkerFacts.summary_due_spec.
    + apply WorkerFacts.summary_due_spec.
  - intros ts w l1 a l2 b l3 H.
    pose proof (WorkerFacts.summary_times_spaced float_of_str ts w) as Hs.
    rewrite H in Hs. exact (WorkerFacts.spaced_pairwise _ _ _ _ _ _ Hs).
Qed.


(** C6, as the code has it.  A failure whose text, in lower case, contains
    "read error" makes the worker offer the [device_disconnected] item to
    the protocol channel without blocking and leave its loop; the item is
    queued when the channel has room.  Any other failure leaves the state
    of the worker as it was and the loop goes on after a short sleep.  The
    consumer hands that item to the main thread, whose handler marks the
    device closed and forgets the last capability and the last request. *)
Theorem C6_read_error_ends_the_worker r w msg :
  rd_unpack r = Exc msg ->
  (contains "read error" (lower msg) = true ->
   snd (worker_iter r w) = Exit
   /\ data_queue (fst (worker_iter r w)) = offer sentinel (data_queue w)
   /\ (full (data_queue w) = false ->
       items (data_queue (fst (worker_iter r w)))
       = items (data_queue w) ++ [sentinel])
   /\ (forall t rest w0,
          t_stop t = false -> t_reading t = r -> taken t w0 = w ->
          worker_loop (t :: rest) w0 = fst (worker_iter r w)))
  /\ (contains "read error" (lower msg) = false ->
      worker_iter r w = (w, Retry))
  /\ (forall clock g,
         let g1 := Gui.consume_pd clock sentinel g in
         let g2 := Gui.run_callback Gui.HandleDeviceDisconnect g1 in
         Gui.after_calls g1
         = Gui.after_calls g ++ [Gui.HandleDeviceDisconnect]
         /\ Gui.device_open g2 = false
         /\ Gui.last_pdo g2 = None
         /\ Gui.last_rdo g2 = None).
Proof.
  intros Hu. rewrite (WorkerFacts.iter_raise float_of_str r w Hu).
  split; [|split].
  - intros Hc. rewrite (WorkerFacts.on_error_fatal msg w Hc). simpl.
    split; [reflexivity|]. split; [reflexivity|]. split.
    + intros Hf. rewrite (ChanFacts.offer_room _ _ Hf). reflexivity.
    + intros t rest w0 Hstop Hr Ht. simpl. rewrite Hstop, Hr, Ht.
      rewrite (WorkerFacts.iter_raise float_of_str r w Hu).
      rewrite (WorkerFacts.on_error_fatal msg w Hc). reflexivity.
  - intros Hc. apply WorkerFacts.on_error_transient, Hc.
  - intros clock g g1 g2. repeat split.
Qed.

(** C9. With the pause flag set, a protocol record is dropped at once:
    nothing is published and the last capability and last request of the
    worker stay as they were.  A telemetry record is handled the same way
    whatever the pause flag reads, and its sample is offered to the
    telemetry channel. *)
Theorem C9_pause_gates_protocol_only r w timestamp_str pkg :
  rd_unpack r = Ret (timestamp_str, pkg) ->
  (md_field pkg = "pd"%string -> rd_pause r = 1%Z ->
   worker_iter r w = (w, Continue))
  /\ (md_field pkg = "general"%string ->
      forall p,
        worker_iter (with_pause p r) w = worker_iter r w
        /\ iv_queue (fst (worker_iter (with_pause p r) w))
           = offer (make_iv pkg (rd_current_time r) (rd_now r)
                      (last_general_timestamp w))
               (iv_queue w)).
Proof.
  intros Hu. split.
  - intros Hf Hp. rewrite (WorkerFacts.iter_pd float_of_str r w Hu Hf).
    unfold on_pd. rewrite Hp. reflexivity.
  - intros Hf p.
    assert (Hu' : rd_unpack (with_pause p r) = Ret (timestamp_str, pkg))
      by exact Hu.
    rewrite (WorkerFacts.iter_general float_of_str _ w Hu' Hf).
    rewrite (WorkerFacts.iter_general float_of_str r w Hu Hf).
    split; reflexivity.
Qed.

End WorkerClaims.

(** C2 on the burst that breaks it.  Of 10,000 items offered to an empty
    channel of capacity 100 that nobody reads, every offer returns and the
    channel ends with a hundred items; they are the first hundred offered,
    not the most recent hundred, and the item offered last is not among
    them. *)
Theorem C2_burst_keeps_the_oldest :
  let q : queue Z := offer_all (Sample.zseq 1 10000) (Chan.new 100) in
  items q = Sample.zseq 1 100
  /\ items q <> skipn (Z.to_nat 9900) (Sample.zseq 1 10000)
  /\ existsb (Z.eqb 10000) (items q) = false.
Proof.
  intros q. subst q.
  rewrite ChanFacts.offer_all_items by reflexivity.
  vm_compute. split; [reflexivity|]. split; [|reflexivity].
  intros H. discriminate H.
Qed.

(** C4 on three samples at 10 s, 10.05 s and 10.2 s: the first and the
    third are flagged. *)
Lemma C4_witness :
  Worker.summary_times Sample.dec_float Sample.three_samples
    Sample.fresh_worker
  = [] ++ 10 :: [] ++ (51 # 5) :: []
  /\ 1 # 10 <= (51 # 5) - 10.
Proof.
  split; [reflexivity|].
  exact (proj2 (C4_summary_is_rate_limited Sample.dec_float)
           Sample.three_samples Sample.fresh_worker
           [] 10 [] (51 # 5) [] eq_refl).
Defined.



(** The claim C6 as it is written fails on the code: after a thousand
    capability records that nobody took, the protocol channel is full and
    a failure classified as a read error publishes nothing; the worker
    leaves its loop all the same, before the sample that follows. *)
Lemma C6_counterexample :
  let out :=
    Worker.worker_iter Sample.dec_float Sample.read_error
      Sample.jammed_worker in
  let final :=
    Worker.data_collection_worker Sample.dec_float (Ret tt)
      (Sample.jam
       ++ [Worker.mkTurn false 0 0 Sample.read_error; Sample.sample_turn 11])
      (Chan.new 1000) (Chan.new 500) in
  contains "read error" (lower "HID Read Error: device unplugged") = true
  /\ snd out = Worker.Exit
  /\ existsb Worker.is_sentinel (items (Worker.data_queue (fst out)))
     = false
  /\ existsb Worker.is_sentinel (items (Worker.data_queue final)) = false
  /\ qsize (Worker.data_queue final) = 1000%Z
  /\ items (Worker.iv_queue final) = [].
Proof. repeat split; vm_compute; reflexivity. Qed.

(** C6 on a lost device with room in the channel, and on a failure of
    another kind. *)
Lemma C6_witness :
  (let out :=
     Worker.worker_iter Sample.dec_float Sample.read_error
       Sample.fresh_worker in
   snd out = Worker.Exit
   /\ items (Worker.data_queue (fst out)) = [] ++ [Worker.sentinel]
   /\ Worker.worker_loop Sample.dec_float
        [Worker.mkTurn false 0 0 Sample.read_error;
         Sample.sample_turn 11]
        Sample.fresh_worker
      = fst out)
  /\ (let r := Worker.mkReading (Exc "timeout") 10 10 0 in
      Worker.worker_iter Sample.dec_float r Sample.fresh_worker
      = (Sample.fresh_worker, Worker.Retry)).
Proof.
  split.
  - intros out.
    destruct (C6_read_error_ends_the_worker Sample.dec_float
                Sample.read_error Sample.fresh_worker eq_refl)
      as [Hf _].
    destruct (Hf eq_refl) as (H1 & _ & H3 & H4).
    split; [exact H1|]. split; [exact (H3 eq_refl)|].
    exact (H4 (Worker.mkTurn false 0 0 Sample.read_error)
              [Sample.sample_turn 11] Sample.fresh_worker
              eq_refl eq_refl eq_refl).
  - intros r.
    destruct (C6_read_error_ends_the_worker Sample.dec_float
                r Sample.fresh_worker eq_refl)
      as (_ & Ht & _).
    exact (Ht eq_refl).
Defined.

(** C9 on a capability record and on a telemetry sample, both read while
    paused. *)
Lemma C9_witness :
  (let r := Sample.reading_of Sample.pd_source_cap 10 1 in
   Worker.worker_iter Sample.dec_float r Sample.fresh_worker
   = (Sample.fresh_worker, Worker.Continue))
  /\ (let r := Sample.reading_of Sample.general_ok 10 1 in
      Worker.worker_iter Sample.dec_float (Worker.with_pause 0 r)
        Sample.fresh_worker
      = Worker.worker_iter Sample.dec_float r Sample.fresh_worker).
Proof.
  split.
  - intros r.
    exact (proj1 (C9_pause_gates_protocol_only Sample.dec_float r
                    Sample.fresh_worker eq_refl) eq_refl eq_refl).
  - intros r.
    exact (proj1 (proj2 (C9_pause_gates_protocol_only Sample.dec_float r
                           Sample.fresh_worker eq_refl) eq_refl 0%Z)).
Defined.

(* ------------------------------------------------------------------ *)
(** ** Rolling buffer and marker log *)

(** C7. A reset empties the three buffers and the marker log and disarms
    the baseline.  The first sample appended after it sets the baseline to
    its own capture time and is stored at relative time 0.  From then on,
    whatever else happens short of another reset, the baseline stays where
    it is and every sample appended is stored at its capture time minus
    the baseline. *)
Theorem C7_reset_rearms_the_baseline (g : Gui.gui) (t0 v0 i0 : Q) :
  let g0 := Gui._reset_plot g in
  let g1 := Gui._append_plot_point t0 v0 i0 g0 in
  (Gui.plot_times g0 = [] /\ Gui.plot_voltage g0 = []
   /\ Gui.plot_current g0 = [] /\ Gui.marker_events g0 = []
   /\ Gui.plot_start_time g0 = None)
  /\ Gui.plot_start_time g1 = Some t0
  /\ (exists rel, Gui.plot_times g1 = [rel] /\ rel == 0)
  /\ Gui.plot_voltage g1 = [v0]
  /\ Gui.plot_current g1 = [i0]
  /\ (forall es t v i,
         forallb Gui.keeps_baseline es = true ->
         let g2 := Gui.run es g1 in
         let g3 := Gui._append_plot_point t v i g2 in
         Gui.plot_start_time g2 = Some t0
         /\ Gui.plot_start_time g3 = Some t0
         /\ last (Gui.plot_times g3) 0 = t - t0).
Proof.
  intros g0 g1.
  split; [apply PlotFacts.reset_plot_clears|].
  destruct (PlotFacts.append_plot_unarmed t0 v0 i0 g0 eq_refl)
    as (H1 & H2 & H3 & H4).
  fold g1 in H1, H2, H3, H4.
  split; [exact H1|].
  split; [exists (t0 - t0); split; [exact H2 | ring]|].
  split; [exact H3|]. split; [exact H4|].
  intros es t v i Hes g2 g3.
  assert (Hb : Gui.plot_start_time g2 = Some t0)
    by (apply PlotFacts.run_keeps_baseline; assumption).
  destruct (PlotFacts.append_plot_armed t v i g2 Hb) as (A1 & A2 & _).
  fold g3 in A1, A2.
  split; [exact Hb|]. split; [exact A1|].
  rewrite A2. apply ChanFacts.deque_append_last, PlotFacts.plot_maxlen_pos.
Qed.

(** C7 on the points of the specification: two points, a reset, a first
    sample at 100 s, a capability record, then a sample at 103 s. *)
Lemma C7_witness :
  let g :=
    Gui._append_plot_point 8 6 1
      (Gui._append_plot_point 7 5 1 Sample.connecting) in
  let g1 := Gui._append_plot_point 100 5 1 (Gui._reset_plot g) in
  let g2 :=
    Gui.run [Gui.TakePd "12:00:00.001" (PdData Sample.pd_sample)] g1 in
  Gui.plot_times (Gui._reset_plot g) = []
  /\ Gui.plot_start_time g1 = Some 100
  /\ last (Gui.plot_times (Gui._append_plot_point 103 5 1 g2)) 0
     = 103 - 100.
Proof.
  intros g g1 g2.
  destruct (C7_reset_rearms_the_baseline g 100 5 1)
    as ((H1 & _) & H2 & _ & _ & _ & H6).
  split; [exact H1|]. split; [exact H2|].
  exact (proj2 (proj2 (H6 [Gui.TakePd "12:00:00.001"
                             (PdData Sample.pd_sample)] 103 5 1 eq_refl))).
Defined.

(** C10. While the baseline is disarmed, recording a marker of either kind
    changes nothing at all, and taking a protocol item, capability or
    request included, leaves the marker log as it was. *)
Theorem C10_no_marker_before_first_sample (g : Gui.gui) :
  Gui.plot_start_time g = None ->
  (forall t_sec kind, Gui._append_marker_event t_sec kind g = g)
  /\ (forall clock m,
         Gui.marker_events (Gui.consume_pd clock m g) = Gui.marker_events g
         /\ Gui.plot_start_time (Gui.consume_pd clock m g) = None).
Proof.
  intros H. split.
  - intros t_sec kind. apply PlotFacts.append_marker_unarmed, H.
  - intros clock m.
    split; [apply PlotFacts.consume_pd_unarmed, H|].
    rewrite PlotFacts.consume_pd_start. exact H.
Qed.

(** C10 on a capability record taken right after connecting. *)
Lemma C10_witness :
  Gui._append_marker_event 10 "pdo" Sample.connecting = Sample.connecting
  /\ Gui.marker_events
       (Gui.consume_pd "12:00:00.001" (PdData Sample.pd_sample)
          Sample.connecting)
     = Gui.marker_events Sample.connecting.
Proof.
  destruct (C10_no_marker_before_first_sample Sample.connecting eq_refl)
    as [H1 H2].
  split; [apply H1 | apply H2].
Defined.

(* ------------------------------------------------------------------ *)
(** ** Presentation scheduler *)

(** C8. The refresh interval is 100 ms below 1,000 events, 300 ms below
    5,000, 500 ms below 10,000, 1,000 ms below 20,000 and 2,000 ms from
    20,000 on.  At every moment of the life of the loop at most one
    deferred refresh is waiting, and the flag is up exactly when one is.
    When a changed count is seen before the interval is over and none is
    waiting, exactly one is set up, for the remaining wait in whole
    milliseconds; when one is waiting already, the pass changes nothing.
    Either way exactly one is waiting after the pass; the passes that
    follow arm no other and run none; and when its timer expires the
    refresh runs once, the flag comes down, the time of the last refresh
    is the time of the expiry and nothing is left waiting. *)
Theorem C8_refresh_is_banded_and_coalesced :
  (forall c,
      Sched.min_interval c * 1000 == inject_Z (Sched.interval_ms c)
      /\ ((c < 1000)%Z -> Sched.interval_ms c = 100%Z)
      /\ ((1000 <= c < 5000)%Z -> Sched.interval_ms c = 300%Z)
      /\ ((5000 <= c < 10000)%Z -> Sched.interval_ms c = 500%Z)
      /\ ((10000 <= c < 20000)%Z -> Sched.interval_ms c = 1000%Z)
      /\ ((20000 <= c)%Z -> Sched.interval_ms c = 2000%Z))
  /\ (forall es c now,
         let s := Sched.run es Sched.init in
         let s' := Sched.refresh_tick c now s in
         let wait :=
           Sched.min_interval c - (now - Sched.last_treeview_update_time s) in
         (List.length (Sched.deferred s) <= 1)%nat
         /\ (Sched.pending_treeview_update s = true
             <-> exists d, Sched.deferred s = [d])
         /\ (c <> Sched.last_data_count s ->
             now - Sched.last_treeview_update_time s < Sched.min_interval c ->
             (Sched.pending_treeview_update s = false ->
              exists d,
                Sched.deferred s = [] /\ Sched.deferred s' = [d]
                /\ Sched.pending_treeview_update s' = true
                /\ (0 <= d)%Z
                /\ inject_Z d <= wait * 1000 < inject_Z (d + 1))
             /\ (Sched.pending_treeview_update s = true -> s' = s)
             /\ (exists d, Sched.deferred s' = [d]
                           /\ Sched.pending_treeview_update s' = true)
             /\ (forall ts later,
                    forallb Sched.is_tick ts = true ->
                    let s1 := Sched.run ts s' in
                    let s2 := Sched.fire later s1 in
                    Sched.deferred s1 = Sched.deferred s'
                    /\ Sched.pending_treeview_update s1 = true
                    /\ Sched.delayed_runs s1 = Sched.delayed_runs s
                    /\ Sched.deferred s2 = []
                    /\ Sched.pending_treeview_update s2 = false
                    /\ Sched.last_treeview_update_time s2 = later
                    /\ Sched.delayed_runs s2 = S (Sched.delayed_runs s)))).
Proof.
  split.
  - intros c. split; [apply SchedFacts.min_interval_ms|].
    apply SchedFacts.interval_ms_bands.
  - intros es c now s s' wait.
    assert (Hco : Sched.coalesced s)
      by (apply SchedFacts.run_coalesced, SchedFacts.init_coalesced).
    split; [apply SchedFacts.coalesced_at_most_one, Hco|].
    split; [apply SchedFacts.coalesced_flag, Hco|].
    intros Hc Ht.
    pose proof (@SchedFacts.refresh_tick_early c now s Hc Ht) as He.
    fold s' in He.
    assert (Hco' : Sched.coalesced s')
      by apply SchedFacts.refresh_tick_coalesced, Hco.
    assert (Hp' : Sched.pending_treeview_update s' = true).
    { rewrite He. destruct (Sched.pending_treeview_update s) eqn:Hp;
        [exact Hp | reflexivity]. }
    assert (Hr' : Sched.delayed_runs s' = Sched.delayed_runs s).
    { rewrite He. destruct (Sched.pending_treeview_update s); reflexivity. }
    assert (Hd' : exists d, Sched.deferred s' = [d])
      by (apply (SchedFacts.coalesced_flag Hco'), Hp').
    split; [|split; [|split]].
    + intros Hp. rewrite Hp in He.
      destruct Hco as [[Hd _]|[d [_ Hd]]]; [|congruence].
      destruct (@SchedFacts.delay_ms_bounds _ _ Ht) as (B1 & B2 & B3).
      eexists. rewrite He. simpl. rewrite Hd.
      split; [reflexivity|]. split; [reflexivity|].
      split; [reflexivity|]. split; [exact B1|]. split; [exact B2|exact B3].
    + intros Hp. rewrite Hp in He. exact He.
    + destruct Hd' as [d Hd]. exists d. split; [exact Hd | exact Hp'].
    + intros ts later Hts s1 s2.
      destruct (@SchedFacts.ticks_keep_pending ts s' Hts Hp')
        as (D1 & P1 & R1).
      fold s1 in D1, P1, R1.
      destruct Hd' as [d Hd].
      assert (E2 : s2 = Sched.mkSched later false (Sched.last_data_count s1)
                          [] (Sched.immediate s1)
                          (S (Sched.delayed_runs s1))).
      { unfold s2. apply (@SchedFacts.fire_pending later s1 d);
          [rewrite D1; exact Hd | exact P1]. }
      split; [exact D1|]. split; [exact P1|].
      split; [rewrite R1; exact Hr'|].
      rewrite E2. simpl. rewrite R1, Hr'. repeat split.
Qed.

(** C8 at 50 events: a first change seen 20 ms after the last refresh sets
    up one deferred refresh 80 ms ahead, a second pass 20 ms later adds
    none, and the expiry at 100 ms runs the one refresh and leaves nothing
    waiting. *)
Lemma C8_witness :
  Sched.interval_ms 50 = 100%Z
  /\ (let s' := Sched.refresh_tick 50 (2 # 100) (Sched.run [] Sched.init) in
      exists d, Sched.deferred s' = [d]
                /\ inject_Z d <= ((1 # 10) - ((2 # 100) - 0)) * 1000)
  /\ (let s := Sched.run [Sched.Tick 50 (2 # 100)] Sched.init in
      Sched.refresh_tick 50 (4 # 100) s = s)
  /\ (let s' := Sched.refresh_tick 50 (2 # 100) (Sched.run [] Sched.init) in
      let s2 :=
        Sched.fire (1 # 10) (Sched.run [Sched.Tick 50 (4 # 100)] s') in
      Sched.deferred s2 = []
      /\ Sched.pending_treeview_update s2 = false
      /\ Sched.delayed_runs s2 = 1%nat).
Proof.
  destruct C8_refresh_is_banded_and_coalesced as [Hb Hs].
  split; [apply (Hb 50%Z); lia|]. split; [|split].
  - intros s'.
    destruct (Hs [] 50%Z (2 # 100)) as (_ & _ & H).
    assert (Hc : 50%Z <> Sched.last_data_count (Sched.run [] Sched.init))
      by (simpl; lia).
    destruct (H Hc eq_refl) as [Hn _].
    destruct (Hn eq_refl) as (d & _ & D2 & _ & _ & D5 & _).
    exists d. split; [exact D2 | exact D5].
  - intros s.
    destruct (Hs [Sched.Tick 50 (2 # 100)] 50%Z (4 # 100)) as (_ & _ & H).
    assert (Hc : 50%Z <> Sched.last_data_count s) by (simpl; lia).
    destruct (H Hc eq_refl) as (_ & Hp & _).
    exact (Hp eq_refl).
  - intros s' s2.
    destruct (Hs [] 50%Z (2 # 100)) as (_ & _ & H).
    assert (Hc : 50%Z <> Sched.last_data_count (Sched.run [] Sched.init))
      by (simpl; lia).
    destruct (H Hc eq_refl) as (_ & _ & _ & Hf).
    destruct (Hf [Sched.Tick 50 (4 # 100)] (1 # 10) eq_refl)
      as (_ & _ & _ & F1 & F2 & _ & F4).
    split; [exact F1|]. split; [exact F2 | exact F4].
Defined.

End Claims.

(* ================================================================== *)
(** * Further properties of the code *)

(* ------------------------------------------------------------------ *)
(** ** The worker and its channels *)

Module WorkerExtra.
Import Worker WorkerMore.

Lemma offer_within_capacity {A} (x : A) (q : queue A) :
  within_capacity q -> within_capacity (offer x q).
Proof.
  unfold within_capacity. intros H. rewrite ChanFacts.offer_maxsize.
  intros Hpos. destruct (full q) eqn:Hf.
  - rewrite (ChanFacts.offer_full q x Hf). exact (H Hpos).
  - rewrite (ChanFacts.offer_room q x Hf). unfold qsize. simpl.
    rewrite length_app. simpl.
    unfold full, qsize in Hf. apply andb_false_iff in Hf.
    destruct Hf as [Hf|Hf];
      [apply Z.ltb_ge in Hf | apply Z.leb_gt in Hf]; lia.
Qed.

Lemma drain_within_capacity {A} (n : nat) (q : queue A) :
  within_capacity q -> within_capacity (drain n q).
Proof.
  unfold within_capacity, drain, qsize. simpl. intros H Hpos.
  specialize (H Hpos). rewrite length_skipn. lia.
Qed.

(** Recording a marker leaves the tracked capability and request alone. *)
Lemma append_marker_refs t kind g :
  Gui.last_pdo (Gui._append_marker_event t kind g) = Gui.last_pdo g
  /\ Gui.last_rdo (Gui._append_marker_event t kind g) = Gui.last_rdo g.
Proof.
  unfold Gui._append_marker_event.
  destruct (negb _); [auto|]. destruct (Gui.plot_start_time g); auto.
Qed.

Section WithFloat.
Variable float_of_str : string -> res Q.

Local Abbreviation worker_iter := (worker_iter float_of_str).
Local Abbreviation worker_loop := (worker_loop float_of_str).

Lemma iter_within_capacity r w :
  within_capacity (data_queue w) ->
  within_capacity (iv_queue w) ->
  within_capacity (data_queue (fst (worker_iter r w)))
  /\ within_capacity (iv_queue (fst (worker_iter r w)))
  /\ maxsize (data_queue (fst (worker_iter r w))) = maxsize (data_queue w)
  /\ maxsize (iv_queue (fst (worker_iter r w))) = maxsize (iv_queue w).
Proof.
  intros Hd Hi.
  destruct (WorkerFacts.iter_channels float_of_str r w)
    as [[Ed|[m Ed]] [Ei|[m' Ei]]];
    rewrite Ed, Ei, ?ChanFacts.offer_maxsize;
    repeat split; auto using offer_within_capacity.
Qed.

(** X1. Whatever the worker reads and however the other side takes items,
    a bounded channel that starts within its capacity never holds more
    than its capacity, and its capacity never changes. *)
Theorem worker_keeps_channels_within_capacity ts : forall w,
  within_capacity (data_queue w) ->
  within_capacity (iv_queue w) ->
  let w' := worker_loop ts w in
  within_capacity (data_queue w')
  /\ within_capacity (iv_queue w')
  /\ maxsize (data_queue w') = maxsize (data_queue w)
  /\ maxsize (iv_queue w') = maxsize (iv_queue w).
Proof.
  induction ts as [|t ts IH]; intros w Hd Hi; [simpl; auto|].
  cbn [Worker.worker_loop].
  assert (Hd0 : within_capacity (data_queue (taken t w)))
    by (apply drain_within_capacity, Hd).
  assert (Hi0 : within_capacity (iv_queue (taken t w)))
    by (apply drain_within_capacity, Hi).
  destruct (t_stop t); [simpl; auto|].
  destruct (iter_within_capacity (t_reading t) (taken t w) Hd0 Hi0)
    as (H1 & H2 & H3 & H4).
  destruct (Worker.worker_iter float_of_str (t_reading t) (taken t w))
    as [w1 c].
  simpl in H1, H2, H3, H4.
  destruct c; try (simpl; auto; fail);
    destruct (IH w1 H1 H2) as (I1 & I2 & I3 & I4);
    cbv zeta; repeat split; auto; congruence.
Qed.

(** How an iteration ends does not depend on the state of the worker. *)
Lemma iter_ctl r w1 w2 : snd (worker_iter r w1) = snd (worker_iter r w2).
Proof.
  unfold Worker.worker_iter, on_error, on_pd.
  destruct (rd_unpack r) as [[timestamp_str pkg]|msg].
  - destruct (String.eqb (md_field pkg) "general"); [reflexivity|].
    destruct (String.eqb (md_field pkg) "pd"); [|reflexivity].
    destruct (rd_pause r =? 1)%Z; [reflexivity|].
    destruct (md_value pkg "SOP*") as [sop|msg]; simpl;
      [|destruct (contains _ _); reflexivity].
    destruct (md_is_pdo pkg) as [p|msg]; simpl;
      [|destruct (contains _ _); reflexivity].
    destruct (md_is_rdo pkg) as [q|msg]; simpl;
      [reflexivity|destruct (contains _ _); reflexivity].
  - destruct (contains _ _); reflexivity.
Qed.

Lemma iter_telemetry_side r w1 w2 :
  telemetry_side w1 = telemetry_side w2 ->
  telemetry_side (fst (worker_iter r w1))
  = telemetry_side (fst (worker_iter r w2)).
Proof.
  unfold telemetry_side. intros [= Hl Hq].
  unfold Worker.worker_iter, on_error, on_pd, on_general.
  destruct (rd_unpack r) as [[timestamp_str pkg]|msg].
  - destruct (String.eqb (md_field pkg) "general");
      [simpl; rewrite Hl, Hq; reflexivity|].
    destruct (String.eqb (md_field pkg) "pd"); [|simpl; congruence].
    destruct (rd_pause r =? 1)%Z; [simpl; congruence|].
    destruct (md_value pkg "SOP*") as [sop|msg]; simpl;
      [|destruct (contains _ _); simpl; congruence].
    destruct (md_is_pdo pkg) as [p|msg]; simpl;
      [|destruct (contains _ _); simpl; congruence].
    destruct (md_is_rdo pkg) as [q|msg]; simpl;
      [congruence|destruct (contains _ _); simpl; congruence].
  - destruct (contains _ _); simpl; congruence.
Qed.

Lemma iter_protocol_side r w1 w2 :
  protocol_side w1 = protocol_side w2 ->
  protocol_side (fst (worker_iter r w1))
  = protocol_side (fst (worker_iter r w2)).
Proof.
  unfold protocol_side. intros [= Hp Hr Hq].
  unfold Worker.worker_iter, on_error, on_pd, on_general.
  destruct (rd_unpack r) as [[timestamp_str pkg]|msg].
  - destruct (String.eqb (md_field pkg) "general");
      [simpl; congruence|].
    destruct (String.eqb (md_field pkg) "pd"); [|simpl; congruence].
    destruct (rd_pause r =? 1)%Z; [simpl; congruence|].
    destruct (md_value pkg "SOP*") as [sop|msg]; simpl;
      [|destruct (contains _ _); simpl; congruence].
    destruct (md_is_pdo pkg) as [p|msg]; simpl;
      [|destruct (contains _ _); simpl; congruence].
    destruct (md_is_rdo pkg) as [q|msg]; simpl;
      [rewrite Hp, Hr, Hq; reflexivity
      |destruct (contains _ _); simpl; congruence].
  - destruct (contains _ _); simpl; congruence.
Qed.

(** X2. The two channels do not interfere.  Two runs of the worker over the
    same readings that start with the same summary timestamp and the same
    telemetry channel end with the same, whatever the protocol channel
    holds or drops; and two runs that start with the same last capability,
    last request and protocol channel end with the same, whatever the
    telemetry channel holds or drops. *)
Theorem channels_do_not_interfere ts : forall w1 w2,
  (telemetry_side w1 = telemetry_side w2 ->
   telemetry_side (worker_loop ts w1) = telemetry_side (worker_loop ts w2))
  /\ (protocol_side w1 = protocol_side w2 ->
      protocol_side (worker_loop ts w1) = protocol_side (worker_loop ts w2)).
Proof.
  induction ts as [|t ts IH]; intros w1 w2; [simpl; auto|].
  cbn [Worker.worker_loop].
  assert (Tt : telemetry_side w1 = telemetry_side w2 ->
               telemetry_side (taken t w1) = telemetry_side (taken t w2)).
  { unfold telemetry_side, taken. simpl. intros [= -> ->]. reflexivity. }
  assert (Tp : protocol_side w1 = protocol_side w2 ->
               protocol_side (taken t w1) = protocol_side (taken t w2)).
  { unfold protocol_side, taken. simpl. intros [= -> -> ->]. reflexivity. }
  destruct (t_stop t); [auto|].
  pose proof (iter_ctl (t_reading t) (taken t w1) (taken t w2)) as Hc.
  pose proof (@iter_telemetry_side (t_reading t) (taken t w1) (taken t w2))
    as Hs.
  pose proof (@iter_protocol_side (t_reading t) (taken t w1) (taken t w2))
    as Hp.
  destruct (Worker.worker_iter float_of_str (t_reading t) (taken t w1))
    as [v1 c1].
  destruct (Worker.worker_iter float_of_str (t_reading t) (taken t w2))
    as [v2 c2].
  simpl in Hc, Hs, Hp. subst c2.
  destruct (IH v1 v2) as [I1 I2].
  destruct c1; auto.
Qed.

Lemma on_pd_own_refs timestamp_str pkg ct pause w w' :
  on_pd timestamp_str pkg ct pause w = Ret w' ->
  data_queue w' = data_queue w
  \/ exists d, own_refs (PdData d)
               /\ data_queue w' = offer (PdData d) (data_queue w).
Proof.
  unfold on_pd. destruct (pause =? 1)%Z.
  - intros [= <-]. auto.
  - destruct (md_value pkg "SOP*"); simpl; [|discriminate].
    destruct (md_is_pdo pkg) as [p|]; simpl; [|discriminate].
    destruct (md_is_rdo pkg) as [q|]; simpl; [|discriminate].
    intros [= <-]. right. eexists. split; [|reflexivity].
    simpl. split; intros ->; reflexivity.
Qed.

Lemma offer_own_refs m q :
  own_refs m -> Forall own_refs (items q) ->
  Forall own_refs (items (offer m q)).
Proof.
  intros Hm Hq.
  destruct (ChanFacts.offer_cases q m) as [-> | ->]; [exact Hq|].
  apply Forall_app. split; [exact Hq | constructor; [exact Hm|constructor]].
Qed.

Lemma iter_own_refs r w :
  Forall own_refs (items (data_queue w)) ->
  Forall own_refs (items (data_queue (fst (worker_iter r w)))).
Proof.
  intros H. unfold Worker.worker_iter.
  assert (He : forall msg,
             Forall own_refs (items (data_queue (fst (on_error msg w))))).
  { intros msg. unfold on_error. destruct (contains _ _); simpl; [|exact H].
    apply offer_own_refs; [exact I | exact H]. }
  destruct (rd_unpack r) as [[timestamp_str pkg]|msg]; [|apply He].
  destruct (String.eqb (md_field pkg) "general"); [exact H|].
  destruct (String.eqb (md_field pkg) "pd"); [|exact H].
  destruct (on_pd _ _ _ _ _) as [w1|msg] eqn:E; [|apply He].
  cbn [fst].
  destruct (on_pd_own_refs _ _ _ _ _ E) as [-> | (d & Hd & ->)];
    [exact H | apply offer_own_refs; assumption].
Qed.

Lemma loop_own_refs ts : forall w,
  Forall own_refs (items (data_queue w)) ->
  Forall own_refs (items (data_queue (worker_loop ts w))).
Proof.
  induction ts as [|t ts IH]; intros w H; [exact H|].
  cbn [Worker.worker_loop].
  assert (H0 : Forall own_refs (items (data_queue (taken t w)))).
  { simpl. rewrite <- (firstn_skipn (t_taken_pd t) (items (data_queue w)))
      in H.
    apply Forall_app in H. exact (proj2 H). }
  destruct (t_stop t); [exact H0|].
  pose proof (iter_own_refs (t_reading t) (taken t w) H0) as H1.
  destruct (Worker.worker_iter float_of_str (t_reading t) (taken t w))
    as [w1 c].
  simpl in H1. destruct c; auto.
Qed.

(** X3. Every capability record the worker publishes names its own packet
    as the last capability, and every request record its own packet as the
    last request; so when the consumer takes a capability (request) record
    from a channel the worker filled, the capability (request) it tracks
    afterwards is the packet of that very record. *)
Theorem published_records_carry_their_own_packet open_result ts n m :
  let w :=
    data_collection_worker float_of_str open_result ts
      (Chan.new n) (Chan.new m) in
  Forall own_refs (items (data_queue w))
  /\ (forall d clock g,
         In (PdData d) (items (data_queue w)) ->
         (pd_is_pdo d = true ->
          Gui.last_pdo (Gui.consume_pd clock (PdData d) g)
          = Some (pd_data d))
         /\ (pd_is_rdo d = true ->
             Gui.last_rdo (Gui.consume_pd clock (PdData d) g)
             = Some (pd_data d))).
Proof.
  intros w.
  assert (Hall : Forall own_refs (items (data_queue w))).
  { unfold w, data_collection_worker. destruct open_result as [u|e].
    - apply loop_own_refs. constructor.
    - simpl. apply offer_own_refs; [exact I | constructor]. }
  split; [exact Hall|].
  intros d clock g Hin.
  rewrite Forall_forall in Hall. destruct (Hall _ Hin) as [Hp Hr].
  cbn [Gui.consume_pd].
  set (g1 := Gui.add_data_item _ _ _ _ _ _ _ _ _ _ _).
  clearbody g1. split.
  - intros Hpdo. rewrite Hpdo, <- (Hp Hpdo).
    destruct (pd_is_rdo d).
    + rewrite (proj1 (append_marker_refs _ _ _)).
      change (Gui.last_pdo (Gui.set_last_rdo ?x ?h)) with (Gui.last_pdo h).
      rewrite (proj1 (append_marker_refs _ _ _)). reflexivity.
    + rewrite (proj1 (append_marker_refs _ _ _)). reflexivity.
  - intros Hrdo. rewrite Hrdo, <- (Hr Hrdo).
    rewrite (proj2 (append_marker_refs _ _ _)). reflexivity.
Qed.

(** X4. A device that cannot be opened is reported and nothing else
    happens: the worker offers the single item [connection_failed: ...] to
    the protocol channel and never reads or publishes a sample; the
    consumer hands that item to the connection-failure handler without
    acknowledging anything, and the handler leaves the device closed,
    paused, not waiting, without a pause flag and without ever having
    announced a connected device. *)
Theorem failed_open_is_reported e ts dq ivq clock g :
  let err := ("connection_failed: " ++ e)%string in
  let w := data_collection_worker float_of_str (Exc e) ts dq ivq in
  let g1 := Gui.consume_pd clock (PdError err) g in
  let g2 := Gui.run_callback (Gui.HandleConnectionFailed err) g1 in
  data_queue w = offer (PdError err) dq
  /\ iv_queue w = ivq
  /\ Gui.after_calls g1
     = Gui.after_calls g ++ [Gui.HandleConnectionFailed err]
  /\ Gui.data_list g1 = Gui.data_list g
  /\ Gui.awaiting_connection_ack g1 = Gui.awaiting_connection_ack g
  /\ Gui.device_open g2 = false
  /\ Gui.awaiting_connection_ack g2 = false
  /\ Gui.autostart_after_connect g2 = false
  /\ Gui.is_paused g2 = true
  /\ Gui.pause_flag g2 = None
  /\ Gui.acks g2 = Gui.acks g.
Proof.
  intros err w g1 g2. repeat split.
  unfold g2, g1, err. cbn. count_acks.
Qed.

(** X5. An iteration that ends in a retry has changed nothing at all, and
    one that ends the loop has changed nothing but the protocol channel,
    to which it offered the [device_disconnected] item. *)
Theorem failed_iteration_leaves_the_state r w :
  (snd (worker_iter r w) = Retry -> fst (worker_iter r w) = w)
  /\ (snd (worker_iter r w) = Exit ->
      fst (worker_iter r w)
      = mkW (last_pdo w) (last_rdo w) (last_general_timestamp w)
          (offer sentinel (data_queue w)) (iv_queue w)).
Proof.
  assert (He : forall msg,
             (snd (on_error msg w) = Retry -> fst (on_error msg w) = w)
             /\ (snd (on_error msg w) = Exit ->
                 fst (on_error msg w)
                 = mkW (last_pdo w) (last_rdo w) (last_general_timestamp w)
                     (offer sentinel (data_queue w)) (iv_queue w))).
  { intros msg. unfold on_error. destruct (contains _ _); simpl;
      split; intros H; try discriminate; reflexivity. }
  unfold Worker.worker_iter.
  destruct (rd_unpack r) as [[timestamp_str pkg]|msg]; [|apply He].
  destruct (String.eqb (md_field pkg) "general");
    [split; discriminate|].
  destruct (String.eqb (md_field pkg) "pd"); [|split; discriminate].
  destruct (on_pd _ _ _ _ _) as [w1|msg]; [split; discriminate|apply He].
Qed.

(** X6. The summary timestamp of the worker never goes back, even if the
    clock it reads does. *)
Theorem summary_timestamp_never_goes_back ts : forall w,
  last_general_timestamp w <= last_general_timestamp (worker_loop ts w).
Proof.
  induction ts as [|t ts IH]; intros w; [apply Qle_refl|].
  cbn [Worker.worker_loop].
  destruct (t_stop t); [apply Qle_refl|].
  pose proof (WorkerFacts.iter_last_general_timestamp float_of_str
                (t_reading t) (taken t w)) as Hl.
  destruct (Worker.worker_iter float_of_str (t_reading t) (taken t w))
    as [w1 c].
  cbn [fst] in Hl.
  change (last_general_timestamp (taken t w))
    with (last_general_timestamp w) in Hl.
  assert (Hle : last_general_timestamp w <= last_general_timestamp w1).
  { rewrite Hl.
    destruct (is_general (t_reading t)
              && summary_due (rd_now (t_reading t))
                   (last_general_timestamp w)) eqn:Hd;
      [|apply Qle_refl].
    apply andb_true_iff in Hd. destruct Hd as [_ Hd].
    apply WorkerFacts.summary_due_spec in Hd. lra. }
  destruct c; try exact Hle;
    (eapply Qle_trans; [exact Hle | apply IH]).
Qed.

End WithFloat.

(** X1 on the thousand capability records nobody takes. *)
Lemma worker_keeps_channels_within_capacity_witness :
  within_capacity (data_queue Sample.jammed_worker)
  /\ maxsize (data_queue Sample.jammed_worker) = 1000%Z.
Proof.
  assert (H0 : forall A (k : Z), within_capacity (@Chan.new A k)).
  { intros A k. unfold within_capacity, qsize. simpl. lia. }
  destruct (@worker_keeps_channels_within_capacity Sample.dec_float
              Sample.jam Sample.fresh_worker (H0 _ _) (H0 _ _))
    as (H1 & _ & H3 & _).
  split; [exact H1 | exact H3].
Defined.

(** X2 on three samples read by a worker whose protocol channel is empty
    and by one whose protocol channel is full. *)
Lemma channels_do_not_interfere_witness :
  telemetry_side
    (Worker.worker_loop Sample.dec_float Sample.three_samples
       Sample.fresh_worker)
  = telemetry_side
      (Worker.worker_loop Sample.dec_float Sample.three_samples
         Sample.jammed_worker).
Proof.
  apply (proj1 (channels_do_not_interfere Sample.dec_float
                  Sample.three_samples Sample.fresh_worker
                  Sample.jammed_worker)).
  vm_compute. reflexivity.
Defined.

(** X3 on the capability record of a one-record run. *)
Lemma published_records_carry_their_own_packet_witness :
  let d :=
    make_pd "12:00:00.000" 1 Sample.pd_source_cap (PStr "SOP")
      true false (Some Sample.pd_source_cap) None in
  Gui.last_pdo
    (Gui.consume_pd "12:00:00.001" (PdData d) Sample.connecting)
  = Some (pd_data d).
Proof.
  intros d.
  destruct (published_records_carry_their_own_packet
              Sample.dec_float (Ret tt) [Sample.pd_turn 1] 1000 500)
    as [_ H].
  destruct (H d "12:00:00.001"%string Sample.connecting
              (or_introl eq_refl)) as [Hp _].
  exact (Hp eq_refl).
Defined.

(** X5 on a failure that is not a read error. *)
Lemma failed_iteration_leaves_the_state_witness :
  let r := Worker.mkReading (Exc "timeout") 10 10 0 in
  fst (Worker.worker_iter Sample.dec_float r Sample.fresh_worker)
  = Sample.fresh_worker.
Proof.
  intros r.
  exact (proj1 (failed_iteration_leaves_the_state Sample.dec_float r
                  Sample.fresh_worker) eq_refl).
Defined.

End WorkerExtra.

(* ------------------------------------------------------------------ *)
(** ** The connection fields of the owning process *)

Module GuiExtra.
Import Gui GuiMore.

Lemma consistent_core g g' : core g' = core g -> consistent g -> consistent g'.
Proof.
  unfold core, consistent. intros [= -> -> -> -> -> -> -> ->]. tauto.
Qed.

Lemma core_add_data_item clock sop rev ppr pdr msg_type data timestamp
      time_sec force g :
  core (add_data_item clock sop rev ppr pdr msg_type data timestamp time_sec
          force g) = core g.
Proof. unfold add_data_item. destruct (negb force && is_paused g); reflexivity. Qed.

Lemma core_append_marker t kind g : core (_append_marker_event t kind g) = core g.
Proof.
  unfold _append_marker_event. destruct (negb _); [reflexivity|].
  destruct (plot_start_time g); reflexivity.
Qed.

Lemma core_append_plot t v i g : core (_append_plot_point t v i g) = core g.
Proof. unfold _append_plot_point. destruct (plot_start_time g); reflexivity. Qed.

Lemma core_clear_list ask_user answer g :
  core (clear_list ask_user answer g) = core g.
Proof.
  unfold clear_list. destruct (negb ask_user || answer); [|reflexivity].
  cbn zeta.
  repeat match goal with
         | |- context [if ?b then _ else _] => destruct b
         end; reflexivity.
Qed.

Lemma core_set_import_mode b g : core (set_import_mode b g) = core g.
Proof. reflexivity. Qed.

Lemma core_set_last_rdo x g : core (set_last_rdo x g) = core g.
Proof. reflexivity. Qed.

Lemma core_set_last_pdo x g : core (set_last_pdo x g) = core g.
Proof. reflexivity. Qed.

Lemma core_consume_pd_data clock d g :
  core (consume_pd clock (PdData d) g) = core (acknowledge g).
Proof.
  cbn [consume_pd].
  set (g1 := add_data_item _ _ _ _ _ _ _ _ _ _ _).
  assert (H1 : core g1 = core (acknowledge g)) by apply core_add_data_item.
  clearbody g1.
  destruct (pd_is_pdo d), (pd_is_rdo d);
    rewrite ?core_append_marker; try exact H1.
  - rewrite core_set_last_rdo, core_append_marker. exact H1.
Qed.

Lemma acknowledge_consistent g : consistent g -> consistent (acknowledge g).
Proof.
  unfold acknowledge, ack_due, consistent.
  destruct g as [dl pa op aw au lp lr pf ts pr im eg sl ivi pt pv pc ps me
                 vl hv ac].
  simpl. intros (H1 & H2 & H3 & H4 & H5).
  destruct op, aw; simpl; try tauto.
  destruct au; simpl.
  - destruct pf; simpl; repeat split; auto; intros; try discriminate; tauto.
  - destruct (H3 eq_refl) as [_ ->]. repeat split; auto; intros; try discriminate; tauto.
Qed.

Lemma consume_pd_consistent clock m g :
  consistent g -> consistent (consume_pd clock m g).
Proof.
  intros H. destruct m as [d|err].
  - apply (consistent_core (core_consume_pd_data clock d g)).
    apply acknowledge_consistent, H.
  - cbn [consume_pd].
    destruct (String.eqb err "device_disconnected"); [exact H|].
    destruct (startswith err "connection_failed"); exact H.
Qed.

Lemma consume_iv_consistent m g : consistent g -> consistent (consume_iv m g).
Proof.
  intros H. apply acknowledge_consistent in H. unfold consume_iv.
  cbn zeta. revert H. generalize (acknowledge g). intros g0 H.
  assert (H1 : consistent
                 (if update_plot m
                  then _append_plot_point (iv_timestamp m) (iv_voltage m)
                         (iv_current m) g0
                  else g0)).
  { destruct (update_plot m); [|exact H].
    exact (consistent_core (core_append_plot _ _ _ g0) H). }
  revert H1. generalize (if update_plot m
                  then _append_plot_point (iv_timestamp m) (iv_voltage m)
                         (iv_current m) g0
                  else g0). intros g1 H1.
  destruct (update_iv_info m); [|exact H1].
  destruct (device_open g1) eqn:Ho; [|exact H1].
  unfold consistent in *. simpl. rewrite Ho.
  destruct H1 as (A1 & A2 & A3 & A4 & A5).
  repeat split; auto; intros; try discriminate; tauto.
Qed.

Lemma run_after_consistent g : consistent g -> consistent (run_after g).
Proof.
  unfold run_after, consistent.
  destruct (after_calls g) as [|[|err] rest]; [tauto| |];
    simpl; intros (H1 & _); repeat split; auto; intros; try discriminate; tauto.
Qed.

Lemma connect_device_consistent answer g :
  consistent g -> consistent (connect_device answer g).
Proof.
  intros H. unfold connect_device.
  destruct (device_open g) eqn:Ho; cbn [negb].
  - unfold consistent in *. simpl. destruct H as (H1 & _).
    repeat split; auto; intros; try discriminate; tauto.
  - destruct ((0 <? List.length (data_list g))%nat && negb answer);
      [exact H|].
    assert (H0 : consistent
                   (if (0 <? List.length (data_list g))%nat
                    then clear_list false true g else g)).
    { destruct (0 <? List.length (data_list g))%nat; [|exact H].
      exact (consistent_core (core_clear_list false true g) H). }
    assert (Ho0 : device_open
                    (if (0 <? List.length (data_list g))%nat
                     then clear_list false true g else g) = false).
    { destruct (0 <? List.length (data_list g))%nat; [|exact Ho].
      pose proof (core_clear_list false true g) as E.
      unfold core in E. congruence. }
    revert H0 Ho0. generalize (if (0 <? List.length (data_list g))%nat
                    then clear_list false true g else g).
    intros g0 H0 Ho0. cbn zeta.
    unfold consistent in H0. destruct H0 as (A1 & A2 & A3 & A4 & A5).
    destruct (A5 Ho0) as (B1 & B2 & B3).
    unfold start_data_thread_if_needed. simpl.
    rewrite A1, B3. simpl.
    destruct (egg_activated g0); unfold consistent; simpl;
      rewrite ?A1; repeat split; auto; intros; discriminate.
Qed.

Lemma pause_collection_consistent answer g :
  consistent g -> consistent (pause_collection answer g).
Proof.
  intros H. unfold pause_collection.
  destruct (is_paused g) eqn:Hp.
  - destruct (awaiting_connection_ack g) eqn:Hw.
    + unfold consistent in *. simpl. solve [intuition congruence].
    + destruct (import_mode g && (0 <? List.length (data_list g))%nat
                && negb answer); [exact H|].
      set (g0 := if import_mode g then _ else g).
      assert (H0 : core g0 = core g).
      { unfold g0. destruct (import_mode g); [|reflexivity].
        destruct (0 <? List.length (data_list g))%nat; [|reflexivity].
        rewrite core_set_import_mode. apply core_clear_list. }
      clearbody g0. cbn zeta.
      pose proof (consistent_core H0 H) as Hc.
      unfold core in H0. injection H0 as E1 E2 E3 E4 E5 E6 E7 E8.
      unfold consistent in *. simpl.
      destruct (pause_flag g0) eqn:Hf; simpl; rewrite ?Hf;
        solve [intuition congruence].
  - unfold consistent in *. simpl.
    destruct (pause_flag g) eqn:Hf; simpl; rewrite ?Hf;
      solve [intuition congruence].
Qed.

Lemma step_consistent e g : consistent g -> consistent (step e g).
Proof.
  intros H. destruct e; cbn [step].
  - apply consume_pd_consistent, H.
  - apply consume_iv_consistent, H.
  - apply run_after_consistent, H.
  - exact (consistent_core (core_clear_list _ _ g) H).
  - apply connect_device_consistent, H.
  - apply pause_collection_consistent, H.
  - exact (consistent_core (core_add_data_item _ _ _ _ _ _ _ _ _ _ g) H).
  - exact H.
Qed.

Lemma init_consistent : consistent init.
Proof. unfold consistent. simpl. repeat split; auto; intros; try discriminate; tauto. Qed.

Lemma run_consistent es : forall g, consistent g -> consistent (run es g).
Proof.
  induction es as [|e es IH]; intros g H; [exact H|].
  apply (IH (step e g)), step_consistent, H.
Qed.




Lemma open_after_the_plot_point m g :
  device_open
    (if update_plot m then
       _append_plot_point (iv_timestamp m) (iv_voltage m) (iv_current m)
         (acknowledge g)
     else acknowledge g)
  = device_open g.
Proof.
  assert (Ha : device_open (acknowledge g) = device_open g)
    by (unfold acknowledge; frame).
  destruct (update_plot m); [|exact Ha].
  rewrite <- Ha. unfold _append_plot_point. frame.
Qed.

(** X9. Each of the three calls that close the device (the handler of a
    lost device, the handler of a failed connection, the connect button
    pressed on an open device) leaves, whatever the object was before, the
    device closed, the collection paused, no pause flag, no worker marked
    as started, nothing asked of the connection and an empty summary
    panel; and a handler that was queued and runs once the device is
    closed already leaves all that as it is. *)
Theorem closing_calls_leave_nothing_behind (g : gui) (err : string)
  (answer : bool) :
  Threads.closed_down (_handle_device_disconnect g)
  /\ Threads.closed_down (_handle_connection_failed err g)
  /\ (device_open g = true -> Threads.closed_down (connect_device answer g))
  /\ (Threads.closed_down g -> Threads.closed_down (run_after g)).
Proof.
  split; [repeat split|]. split; [repeat split|]. split.
  - intros Ho. unfold connect_device. rewrite Ho. simpl. repeat split.
  - intros Hc. unfold run_after.
    destruct (after_calls g) as [|c rest]; [exact Hc|].
    destruct c; repeat split.
Qed.

(** X9 on an open device with a reading on display: the connect button
    closes the device and empties the panel, and a handler queued before
    leaves it so. *)
Lemma closing_calls_leave_nothing_behind_witness :
  let g := run [Connect true; TakeIv (Sample.iv_sample 10)] init in
  iv_info g = Some (Sample.iv_sample 10)
  /\ Threads.closed_down (connect_device true g)
  /\ Threads.closed_down (run_after (connect_device true g)).
Proof.
  intros g. split; [reflexivity|].
  destruct (closing_calls_leave_nothing_behind g "connection_failed: busy"
              true) as (_ & _ & Hc & _).
  destruct (closing_calls_leave_nothing_behind (connect_device true g)
              "connection_failed: busy" true) as (_ & _ & _ & Hr).
  split; [exact (Hc eq_refl) | exact (Hr (Hc eq_refl))].
Defined.

(** The panel is emptied by the closing call and by nothing after it.  A
    consumer that tested [device_open] on the open device before the
    connect button was pressed, and sets the panel after it, leaves its
    reading on display over the closed device: with the two threads
    running, a closed device with an empty panel is not a state the object
    keeps. *)
Lemma reading_put_back_over_a_closed_device (g : gui) (answer : bool)
  (m : iv_record) :
  device_open g = true ->
  update_iv_info m = true ->
  let g' := Threads.consume_iv_across [Connect answer] m g in
  device_open g' = false /\ iv_info g' = Some m.
Proof.
  intros Ho Hm g'. unfold g', Threads.consume_iv_across. rewrite Hm.
  rewrite open_after_the_plot_point, Ho.
  set (g2 := if update_plot m then _ else _).
  assert (H2 : device_open g2 = true)
    by (unfold g2; rewrite open_after_the_plot_point; exact Ho).
  change (run [Connect answer] g2) with (connect_device answer g2).
  unfold connect_device. rewrite H2. simpl. split; reflexivity.
Qed.

Lemma connect_device_starts_paused answer g :
  consistent g -> device_open g = false ->
  data_list g = [] \/ answer = true ->
  pause_flag (connect_device answer g) = Some 1%Z.
Proof.
  intros (A1 & _ & _ & _ & A5) Ho Hc. destruct (A5 Ho) as (_ & _ & B3).
  unfold connect_device. rewrite Ho. cbn [negb].
  assert (Hg : ((0 <? List.length (data_list g))%nat && negb answer) = false).
  { destruct Hc as [-> | ->]; [reflexivity | apply andb_false_r]. }
  rewrite Hg.
  assert (H0 : core (if (0 <? List.length (data_list g))%nat
                     then clear_list false true g else g) = core g).
  { destruct (0 <? List.length (data_list g))%nat;
      [apply core_clear_list | reflexivity]. }
  revert H0. generalize (if (0 <? List.length (data_list g))%nat
                     then clear_list false true g else g).
  intros g0 H0. unfold core in H0. injection H0 as E1 E2 E3 E4 E5 E6 E7 E8.
  cbn zeta. unfold start_data_thread_if_needed. simpl.
  rewrite E7, A1, E6, B3. simpl.
  destruct (egg_activated g0); reflexivity.
Qed.

(** X10. F5 on a closed device, with an empty log or the consent to clear
    it, connects and asks for the start in one go: the first item that
    then arrives from either channel finds the object waiting, announces
    the device once and leaves it collecting, with the pause flag of the
    worker lowered. *)
Theorem f5_connects_and_starts (es : list event) (answer_connect
  answer_start : bool) (e : event) :
  let g := run es init in
  let g1 := _on_f5_press false answer_connect answer_start g in
  let g2 := step e g1 in
  device_open g = false ->
  data_list g = [] \/ answer_connect = true ->
  is_item e = true ->
  (ack_due g1 = true /\ autostart_after_connect g1 = true
   /\ is_paused g1 = true /\ pause_flag g1 = Some 1%Z)
  /\ device_open g2 = true
  /\ awaiting_connection_ack g2 = false
  /\ is_paused g2 = false
  /\ pause_flag g2 = Some 0%Z
  /\ acks g2 = S (acks g1).
Proof.
  intros g g1 g2 Ho Hc He.
  pose proof (run_consistent es init_consistent) as Hg. fold g in Hg.
  destruct (@AckFacts.connect_device_awaits answer_connect g Ho Hc)
    as (C1 & C2 & C3).
  pose proof (@connect_device_starts_paused answer_connect g Hg Ho Hc) as C4.
  assert (Hw : awaiting_connection_ack (connect_device answer_connect g)
               = true).
  { unfold ack_due in C1. apply andb_true_iff in C1. apply C1. }
  assert (Hd : device_open (connect_device answer_connect g) = true).
  { unfold ack_due in C1. apply andb_true_iff in C1. apply C1. }
  assert (E1 : g1 = set_autostart_after_connect true
                      (connect_device answer_connect g)).
  { unfold g1, _on_f5_press. rewrite Ho. cbn [negb]. cbn zeta.
    rewrite Hd, C2. cbn [andb].
    unfold pause_collection. rewrite C2, Hw. reflexivity. }
  assert (F : ack_due g1 = true /\ autostart_after_connect g1 = true
              /\ is_paused g1 = true /\ pause_flag g1 = Some 1%Z).
  { rewrite E1. repeat split; assumption. }
  split; [exact F|]. destruct F as (F1 & F2 & F3 & F4).
  destruct (AckFacts.acknowledge_fires g1 F1)
    as (A1 & A2 & A3 & A4 & A5 & A6).
  destruct (AckFacts.item_after_ack e g1 He)
    as (S1 & S2 & S3 & S4 & S5 & S6).
  fold g2 in S1, S2, S3, S4, S5, S6.
  rewrite F2 in A5, A6. rewrite F4 in A6.
  repeat split; congruence.
Qed.

(** X10 on a fresh object and a first telemetry sample. *)
Lemma f5_connects_and_starts_witness :
  let g1 := _on_f5_press false true true (run [] init) in
  let g2 := step (TakeIv (Sample.iv_sample 10)) g1 in
  is_paused g2 = false /\ pause_flag g2 = Some 0%Z.
Proof.
  intros g1 g2.
  destruct (@f5_connects_and_starts [] true true
              (TakeIv (Sample.iv_sample 10)) eq_refl
              (or_introl eq_refl) eq_refl)
    as (_ & _ & _ & H3 & H4 & _).
  split; assumption.
Defined.

End GuiExtra.

(* ------------------------------------------------------------------ *)
(** ** The rolling buffer, the marker log and the selection line *)

Module PlotExtra.
Import Gui GuiMore.

Lemma deque_append_length {A} (maxlen : Z) (x : A) (d : list A) :
  (0 < maxlen)%Z ->
  (Z.of_nat (List.length d) <= maxlen)%Z ->
  List.length (deque_append maxlen x d)
  = (if (maxlen <=? Z.of_nat (List.length d))%Z
     then List.length d else S (List.length d))
  /\ (Z.of_nat (List.length (deque_append maxlen x d)) <= maxlen)%Z.
Proof.
  intros Hpos Hle. unfold deque_append.
  destruct (Z.eqb_spec maxlen 0); [lia|].
  destruct (Z.leb_spec maxlen (Z.of_nat (List.length d))).
  - destruct d as [|a d]; [simpl in *; lia|].
    cbn [tl]. rewrite length_app.
    change (List.length (a :: d)) with (S (List.length d)) in *.
    cbn [List.length]. split; lia.
  - rewrite length_app. cbn [List.length]. split; lia.
Qed.

Lemma plot_ok_fields g g' :
  plot_fields g' = plot_fields g -> plot_ok g -> plot_ok g'.
Proof.
  unfold plot_fields, plot_ok. intros [= -> -> -> -> ->]. tauto.
Qed.

Lemma fields_acknowledge g : plot_fields (acknowledge g) = plot_fields g.
Proof.
  unfold acknowledge. destruct (ack_due g); [|reflexivity].
  cbn zeta.
  destruct (autostart_after_connect _); [|reflexivity].
  destruct (pause_flag _); reflexivity.
Qed.

Lemma fields_add_data_item clock sop rev ppr pdr msg_type data timestamp
      time_sec force g :
  plot_fields
    (add_data_item clock sop rev ppr pdr msg_type data timestamp time_sec
       force g) = plot_fields g.
Proof.
  unfold add_data_item. destruct (negb force && is_paused g); reflexivity.
Qed.

Lemma fields_clear_list ask_user answer g :
  plot_fields (clear_list ask_user answer g) = plot_fields g.
Proof.
  unfold clear_list. destruct (negb ask_user || answer); [|reflexivity].
  cbn zeta.
  repeat match goal with
         | |- context [if ?b then _ else _] => destruct b
         end; reflexivity.
Qed.

Lemma fields_run_after g : plot_fields (run_after g) = plot_fields g.
Proof.
  unfold run_after. destruct (after_calls g) as [|[|err] rest]; reflexivity.
Qed.

Lemma fields_set_import_mode b g :
  plot_fields (set_import_mode b g) = plot_fields g.
Proof. reflexivity. Qed.

Lemma fields_pause_collection answer g :
  plot_fields (pause_collection answer g) = plot_fields g.
Proof.
  unfold pause_collection.
  destruct (is_paused g).
  - destruct (awaiting_connection_ack g); [reflexivity|].
    destruct (import_mode g && (0 <? List.length (data_list g))%nat
              && negb answer); [reflexivity|].
    assert (H0 : plot_fields
                   (if import_mode g
                    then set_import_mode false
                           (if (0 <? List.length (data_list g))%nat
                            then clear_list false true g else g)
                    else g) = plot_fields g).
    { destruct (import_mode g); [|reflexivity].
      rewrite fields_set_import_mode.
      destruct (0 <? List.length (data_list g))%nat;
        [apply fields_clear_list | reflexivity]. }
    revert H0.
    generalize (if import_mode g
                then set_import_mode false
                       (if (0 <? List.length (data_list g))%nat
                        then clear_list false true g else g)
                else g).
    intros g0 H0. cbn zeta. rewrite <- H0.
    destruct (pause_flag _); reflexivity.
  - cbn zeta. destruct (pause_flag _); reflexivity.
Qed.

Lemma reset_plot_ok g : plot_ok (_reset_plot g).
Proof.
  unfold plot_ok, plot_maxlen, marker_maxlen. simpl.
  repeat split; lia.
Qed.

Lemma append_marker_ok t kind g :
  plot_ok g -> plot_ok (_append_marker_event t kind g).
Proof.
  intros H. unfold _append_marker_event.
  destruct (negb _); [exact H|].
  destruct (plot_start_time g) as [start|] eqn:Hs; [|exact H].
  unfold plot_ok in *. simpl. rewrite Hs.
  destruct H as (A1 & A2 & A3 & A4 & _).
  split; [exact A1|]. split; [exact A2|]. split; [exact A3|].
  split; [|discriminate].
  apply deque_append_length; [reflexivity | exact A4].
Qed.

Lemma append_plot_ok t v i g :
  plot_ok g -> plot_ok (_append_plot_point t v i g).
Proof.
  intros (A1 & A2 & A3 & A4 & A5).
  assert (Hpos : (0 < plot_maxlen)%Z) by reflexivity.
  assert (B1 : (Z.of_nat (List.length (plot_voltage g)) <= plot_maxlen)%Z)
    by (rewrite A1; exact A3).
  assert (B2 : (Z.of_nat (List.length (plot_current g)) <= plot_maxlen)%Z)
    by (rewrite A2; exact A3).
  assert (G : forall rel,
             List.length (deque_append plot_maxlen v (plot_voltage g))
             = List.length (deque_append plot_maxlen rel (plot_times g))
             /\ List.length (deque_append plot_maxlen i (plot_current g))
                = List.length (deque_append plot_maxlen rel (plot_times g))
             /\ (Z.of_nat
                   (List.length
                      (deque_append plot_maxlen rel (plot_times g)))
                 <= plot_maxlen)%Z).
  { intros rel.
    destruct (deque_append_length rel (plot_times g) Hpos A3) as [L1 L1'].
    destruct (deque_append_length v (plot_voltage g) Hpos B1) as [L2 _].
    destruct (deque_append_length i (plot_current g) Hpos B2) as [L3 _].
    rewrite L2, L3, A1, A2, <- L1. auto. }
  unfold _append_plot_point.
  destruct (plot_start_time g) as [start|] eqn:Hs.
  - cbn zeta. rewrite Hs.
    destruct (G (t - start)) as (G1 & G2 & G3).
    unfold plot_ok. simpl. rewrite Hs.
    split; [exact G1|]. split; [exact G2|]. split; [exact G3|].
    split; [exact A4 | discriminate].
  - cbn zeta. simpl plot_start_time.
    destruct (G (t - t)) as (G1 & G2 & G3).
    unfold plot_ok. simpl.
    split; [exact G1|]. split; [exact G2|]. split; [exact G3|].
    split; [exact A4 | discriminate].
Qed.

Lemma consume_pd_plot_ok clock m g : plot_ok g -> plot_ok (consume_pd clock m g).
Proof.
  intros H. destruct m as [d|err]; cbn [consume_pd].
  - set (g1 := add_data_item _ _ _ _ _ _ _ _ _ _ _).
    assert (H1 : plot_ok g1).
    { apply (plot_ok_fields (fields_add_data_item _ _ _ _ _ _ _ _ _ _ _)).
      exact (plot_ok_fields (fields_acknowledge g) H). }
    clearbody g1.
    assert (H2 : plot_ok
                   (if pd_is_pdo d
                    then _append_marker_event (pd_time_sec d) "pdo"
                           (set_last_pdo (pd_last_pdo d) g1)
                    else g1)).
    { destruct (pd_is_pdo d); [|exact H1].
      apply append_marker_ok. exact H1. }
    revert H2.
    generalize (if pd_is_pdo d
                then _append_marker_event (pd_time_sec d) "pdo"
                       (set_last_pdo (pd_last_pdo d) g1)
                else g1).
    intros g2 H2.
    destruct (pd_is_rdo d); [|exact H2].
    apply append_marker_ok. exact H2.
  - destruct (String.eqb err "device_disconnected"); [exact H|].
    destruct (startswith err "connection_failed"); exact H.
Qed.

Lemma consume_iv_plot_ok m g : plot_ok g -> plot_ok (consume_iv m g).
Proof.
  intros H. unfold consume_iv. cbn zeta.
  pose proof (plot_ok_fields (fields_acknowledge g) H) as H0.
  revert H0. generalize (acknowledge g). intros g0 H0.
  assert (H1 : plot_ok
                 (if update_plot m
                  then _append_plot_point (iv_timestamp m) (iv_voltage m)
                         (iv_current m) g0
                  else g0)).
  { destruct (update_plot m); [apply append_plot_ok|]; exact H0. }
  revert H1.
  generalize (if update_plot m
              then _append_plot_point (iv_timestamp m) (iv_voltage m)
                     (iv_current m) g0
              else g0).
  intros g1 H1.
  destruct (update_iv_info m); [|exact H1].
  destruct (device_open g1); exact H1.
Qed.

Lemma connect_device_plot_ok answer g :
  plot_ok g -> plot_ok (connect_device answer g).
Proof.
  intros H. unfold connect_device.
  destruct (negb (device_open g)); [|exact H].
  destruct ((0 <? List.length (data_list g))%nat && negb answer);
    [exact H|].
  assert (H0 : plot_ok (if (0 <? List.length (data_list g))%nat
                        then clear_list false true g else g)).
  { destruct (0 <? List.length (data_list g))%nat; [|exact H].
    exact (plot_ok_fields (fields_clear_list _ _ g) H). }
  revert H0.
  generalize (if (0 <? List.length (data_list g))%nat
              then clear_list false true g else g).
  intros g0 H0. cbn zeta.
  destruct (egg_activated _); [apply reset_plot_ok|].
  unfold start_data_thread_if_needed.
  repeat match goal with
         | |- context [if ?b then _ else _] => destruct b
         end; exact H0.
Qed.

Lemma step_plot_ok e g : plot_ok g -> plot_ok (step e g).
Proof.
  intros H. destruct e; cbn [step].
  - apply consume_pd_plot_ok, H.
  - apply consume_iv_plot_ok, H.
  - exact (plot_ok_fields (fields_run_after g) H).
  - exact (plot_ok_fields (fields_clear_list _ _ g) H).
  - apply connect_device_plot_ok, H.
  - exact (plot_ok_fields (fields_pause_collection _ g) H).
  - exact (plot_ok_fields (fields_add_data_item _ _ _ _ _ _ _ _ _ _ g) H).
  - apply reset_plot_ok.
Qed.

Lemma init_plot_ok : plot_ok init.
Proof.
  unfold plot_ok, plot_maxlen, marker_maxlen. simpl. repeat split; lia.
Qed.

Lemma run_plot_ok es : forall g, plot_ok g -> plot_ok (run es g).
Proof.
  induction es as [|e es IH]; intros g Hg; [exact Hg|].
  apply (IH (step e g)), step_plot_ok, Hg.
Qed.

(** X11. At every moment of the life of the object the three buffers of
    the plot hold the same number of points, at most 60,000, and the
    marker log holds at most 3,600 markers. *)
Theorem rolling_buffers_stay_in_step_and_bounded (es : list event) :
  let g := run es init in
  List.length (plot_voltage g) = List.length (plot_times g)
  /\ List.length (plot_current g) = List.length (plot_times g)
  /\ (Z.of_nat (List.length (plot_times g)) <= 60000)%Z
  /\ (Z.of_nat (List.length (marker_events g)) <= 3600)%Z.
Proof.
  intros g.
  destruct (run_plot_ok es init_plot_ok) as (A1 & A2 & A3 & A4 & _).
  repeat split; assumption.
Qed.

(** X12. At every moment, while the baseline of the relative time is
    disarmed the buffers and the marker log are empty: no point and no
    marker is ever kept without the baseline it is measured against. *)
Theorem nothing_is_stored_without_a_baseline (es : list event) :
  let g := run es init in
  plot_start_time g = None ->
  plot_times g = [] /\ plot_voltage g = [] /\ plot_current g = []
  /\ marker_events g = [].
Proof.
  intros g Hs.
  destruct (run_plot_ok es init_plot_ok) as (A1 & A2 & _ & _ & A5).
  fold g in A1, A2, A5. destruct (A5 Hs) as [Ht Hm].
  rewrite Ht in A1, A2. simpl in A1, A2.
  apply length_zero_iff_nil in A1. apply length_zero_iff_nil in A2.
  repeat split; assumption.
Qed.

(** X12 after a capability record that came before any sample. *)
Lemma nothing_is_stored_without_a_baseline_witness :
  marker_events
    (run [Connect true; Pause true;
          TakePd "12:00:00.001" (PdData Sample.pd_sample)] init) = [].
Proof.
  apply (@nothing_is_stored_without_a_baseline
           [Connect true; Pause true;
            TakePd "12:00:00.001" (PdData Sample.pd_sample)]).
  reflexivity.
Defined.

Section PlotX.
Variable parse : string -> option Q.
Variable day_seconds : Q -> Q.

(** X13. A capability or request record taken while the object collects
    and the baseline is armed is logged and marked at the same place: the
    marker appended for it and the selection line computed for its row lie
    at the same relative time, its capture time minus the baseline. *)
Theorem marker_and_selection_line_coincide clock d g start :
  plot_start_time g = Some start ->
  is_paused (acknowledge g) = false ->
  pd_is_pdo d = true \/ pd_is_rdo d = true ->
  let g' := consume_pd clock (PdData d) g in
  exists item kind older,
    data_list g' = data_list g ++ [item]
    /\ marker_events g' = older ++ [(pd_time_sec d - start, kind)]
    /\ _get_item_plot_x parse day_seconds (Some item) g' = Some (pd_time_sec d - start).
Proof.
  intros Hs Hp Hk g'.
  assert (L : data_list g'
              = data_list g
                ++ [mkItem (List.length (data_list g) + 1)
                      (timestamp_or (Some (pd_timestamp d)) clock)
                      (Some (pd_time_sec d)) (pd_sop d) (pd_rev d)
                      (pd_ppr d) (pd_pdr d) (pd_msg_type d) (pd_data d)]).
  { destruct (GuiFacts.consume_pd_moves clock (PdData d) g) as [E|[E|E]].
    - exfalso. revert E. unfold g'. cbn [consume_pd].
      destruct (pd_is_pdo d), (pd_is_rdo d);
        rewrite ?GuiFacts.append_marker_data_list;
        change (data_list (set_last_rdo ?x ?h)) with (data_list h);
        rewrite ?GuiFacts.append_marker_data_list;
        change (data_list (set_last_pdo ?x ?h)) with (data_list h);
        rewrite GuiFacts.add_data_item_data_list, Hp,
          GuiFacts.acknowledge_data_list;
        cbn [negb andb]; intros E;
        apply (f_equal (@List.length DataItem)) in E;
        rewrite length_app in E; simpl in E; lia.
    - exfalso. revert E. cbn [consume_pd].
      destruct (pd_is_pdo d), (pd_is_rdo d);
        rewrite ?GuiFacts.append_marker_data_list;
        change (data_list (set_last_rdo ?x ?h)) with (data_list h);
        rewrite ?GuiFacts.append_marker_data_list;
        change (data_list (set_last_pdo ?x ?h)) with (data_list h);
        rewrite GuiFacts.add_data_item_data_list, Hp,
          GuiFacts.acknowledge_data_list;
        cbn [negb andb]; intros E;
        apply (f_equal (@List.length DataItem)) in E;
        rewrite length_app in E; simpl in E; lia.
    - unfold g'. cbn [consume_pd].
      destruct (pd_is_pdo d), (pd_is_rdo d);
        rewrite ?GuiFacts.append_marker_data_list;
        change (data_list (set_last_rdo ?x ?h)) with (data_list h);
        rewrite ?GuiFacts.append_marker_data_list;
        change (data_list (set_last_pdo ?x ?h)) with (data_list h);
        rewrite GuiFacts.add_data_item_data_list, Hp,
          GuiFacts.acknowledge_data_list;
        reflexivity. }
  assert (S' : plot_start_time g' = Some start).
  { unfold g'. rewrite PlotFacts.consume_pd_start. exact Hs. }
  assert (M : exists kind older,
             marker_events g' = older ++ [(pd_time_sec d - start, kind)]).
  { unfold g'. cbn [consume_pd].
    set (g1 := add_data_item _ _ _ _ _ _ _ _ _ _ _).
    assert (S1 : plot_start_time g1 = Some start).
    { unfold g1.
      rewrite (proj1 (PlotFacts.add_data_item_plot _ _ _ _ _ _ _ _ _ _ _)).
      rewrite (proj1 (PlotFacts.acknowledge_plot g)). exact Hs. }
    clearbody g1.
    assert (E : forall kind h,
               (kind = "pdo" \/ kind = "rdo")%string ->
               plot_start_time h = Some start ->
               exists older,
                 marker_events (_append_marker_event (pd_time_sec d) kind h)
                 = older ++ [(pd_time_sec d - start, kind)]).
    { intros kind h Hkind Hh. unfold _append_marker_event.
      replace (negb (String.eqb kind "pdo" || String.eqb kind "rdo"))
        with false by (destruct Hkind as [-> | ->]; reflexivity).
      rewrite Hh. simpl. unfold deque_append.
      destruct (marker_maxlen =? 0)%Z eqn:E0; [discriminate E0|].
      destruct (marker_maxlen <=? _)%Z; eexists; reflexivity. }
    destruct (pd_is_rdo d) eqn:Hr.
    - exists "rdo"%string. apply E; [auto|].
      destruct (pd_is_pdo d).
      + change (plot_start_time (set_last_rdo ?x ?h))
          with (plot_start_time h).
        rewrite PlotFacts.append_marker_start. exact S1.
      + exact S1.
    - destruct Hk as [Hk|Hk]; [|discriminate]. rewrite Hk.
      exists "pdo"%string. apply E; [auto | exact S1]. }
  destruct M as (kind & older & M).
  eexists. exists kind, older. split; [exact L|]. split; [exact M|].
  unfold _get_item_plot_x. rewrite S'. reflexivity.
Qed.

(** X14. For a row without a capture time, whose text time and the local
    time of day of the baseline both lie within one day, the selection
    line is placed within twelve hours of the baseline, a whole number of
    days away from the plain difference of the two times of day. *)
Theorem selection_line_wraps_within_half_a_day item g start ts :
  plot_start_time g = Some start ->
  time_sec item = None ->
  parse (timestamp item) = Some ts ->
  0 <= ts < 86400 ->
  0 <= day_seconds start < 86400 ->
  exists x k,
    _get_item_plot_x parse day_seconds (Some item) g = Some x
    /\ -43200 <= x <= 43200
    /\ (k = (-1)%Z \/ k = 0%Z \/ k = 1%Z)
    /\ x == ts - day_seconds start + inject_Z k * 86400.
Proof.
  intros Hs Ht Hp [T1 T2] [D1 D2].
  unfold _get_item_plot_x. rewrite Hs, Ht, Hp. cbn zeta.
  unfold lt_bool.
  destruct (Qle_bool (-43200) (ts - day_seconds start)) eqn:E1;
    cbn [negb].
  - apply Qle_bool_iff in E1.
    destruct (Qle_bool (ts - day_seconds start) 43200) eqn:E2; cbn [negb].
    + apply Qle_bool_iff in E2.
      exists (ts - day_seconds start), 0%Z.
      split; [reflexivity|]. split; [split; assumption|].
      split; [auto|]. ring.
    + assert (H2 : ~ ts - day_seconds start <= 43200)
        by (rewrite <- Qle_bool_iff; congruence).
      apply Qnot_le_lt in H2.
      exists (ts - day_seconds start - 86400), (-1)%Z.
      split; [reflexivity|]. split; [split; lra|]. split; [auto|]. ring.
  - assert (H1 : ~ -43200 <= ts - day_seconds start)
      by (rewrite <- Qle_bool_iff; congruence).
    apply Qnot_le_lt in H1.
    exists (ts - day_seconds start + 86400), 1%Z.
    split; [reflexivity|]. split; [split; lra|]. split; [auto|]. ring.
Qed.

End PlotX.

(** X13 for a capability record captured one second after the
    baseline. *)
Lemma marker_and_selection_line_coincide_witness :
  let g :=
    run [Connect true; Pause true; TakeIv (Sample.iv_sample 9)] init in
  let g' := consume_pd "12:00:00.001" (PdData Sample.pd_sample) g in
  exists item kind older,
    data_list g' = data_list g ++ [item]
    /\ marker_events g'
       = older ++ [(pd_time_sec Sample.pd_sample - 9, kind)]
    /\ _get_item_plot_x (fun _ : string => None) (fun q : Q => q)
         (Some item) g'
       = Some (pd_time_sec Sample.pd_sample - 9).
Proof.
  intros g.
  apply (@marker_and_selection_line_coincide (fun _ : string => None)
           (fun q : Q => q) "12:00:00.001"%string Sample.pd_sample g 9).
  - reflexivity.
  - reflexivity.
  - left. reflexivity.
Defined.

(** X14 for a row stamped 23:53:20 against a baseline nine seconds after
    midnight. *)
Lemma selection_line_wraps_within_half_a_day_witness :
  let g :=
    run [Connect true; Pause true; TakeIv (Sample.iv_sample 9)] init in
  let item :=
    mkItem 1 "23:53:20.000" None PNone PNone PNone PNone PNone
      Sample.pd_source_cap in
  exists x k,
    _get_item_plot_x (fun _ : string => Some 86000) (fun q : Q => q)
      (Some item) g = Some x
    /\ -43200 <= x <= 43200
    /\ (k = (-1)%Z \/ k = 0%Z \/ k = 1%Z)
    /\ x == 86000 - 9 + inject_Z k * 86400.
Proof.
  intros g item.
  apply (@selection_line_wraps_within_half_a_day
           (fun _ : string => Some 86000) (fun q : Q => q) item g 9 86000).
  - reflexivity.
  - reflexivity.
  - reflexivity.
  - unfold Qle, Qlt; simpl; lia.
  - unfold Qle, Qlt; simpl; lia.
Defined.

End PlotExtra.

(* ------------------------------------------------------------------ *)
(** ** The refresh loop and its deferred calls *)

Module SchedExtra.
Import Sched.

Lemma min_interval_cases c :
  min_interval c = 1 # 10 \/ min_interval c = 3 # 10
  \/ min_interval c = 1 # 2 \/ min_interval c = 1 \/ min_interval c = 2.
Proof.
  unfold min_interval.
  destruct (c <? 1000)%Z; [auto|].
  destruct (c <? 5000)%Z; [auto|].
  destruct (c <? 10000)%Z; [auto|].
  destruct (c <? 20000)%Z; auto.
Qed.

(** X15. The cadence follows the size of the log: a longer log is never
    refreshed nor checked more often than a shorter one, and at every size
    the loop checks at least as often as it allows itself to refresh. *)
Theorem cadence_grows_with_the_log (c c' : Z) :
  (c <= c')%Z ->
  min_interval c <= min_interval c'
  /\ check_sleep c <= check_sleep c'
  /\ check_sleep c' <= min_interval c'.
Proof.
  intros H. unfold min_interval, check_sleep.
  destruct (Z.ltb_spec c 1000), (Z.ltb_spec c 5000),
    (Z.ltb_spec c 10000), (Z.ltb_spec c 20000),
    (Z.ltb_spec c' 1000), (Z.ltb_spec c' 5000),
    (Z.ltb_spec c' 10000), (Z.ltb_spec c' 20000);
    try lia; repeat split; unfold Qle; simpl; lia.
Qed.

(** X15 across the boundary at five thousand events. *)
Lemma cadence_grows_with_the_log_witness :
  min_interval 4999 <= min_interval 5000
  /\ check_sleep 4999 <= check_sleep 5000
  /\ check_sleep 5000 <= min_interval 5000.
Proof. apply (@cadence_grows_with_the_log 4999 5000). lia. Defined.

(** X16. A change of the log seen by the loop never goes without a
    refresh: after the pass either a refresh has been asked for at once, or
    the flag is up with exactly one timer armed, and the expiry of that
    timer runs the refresh, lowers the flag and leaves no timer. *)
Theorem no_seen_change_goes_unrefreshed (es : list event)
  (c : Z) (now later : Q) :
  let s := run es init in
  let s' := refresh_tick c now s in
  c <> last_data_count s ->
  (immediate s' = S (immediate s) /\ last_data_count s' = c)
  \/ (pending_treeview_update s' = true
      /\ (exists d, deferred s' = [d])
      /\ delayed_runs (fire later s') = S (delayed_runs s')
      /\ pending_treeview_update (fire later s') = false
      /\ deferred (fire later s') = []).
Proof.
  intros s s' Hc.
  assert (Hco : coalesced s) by apply SchedFacts.run_coalesced,
    SchedFacts.init_coalesced.
  assert (Hco' : coalesced s') by apply SchedFacts.refresh_tick_coalesced, Hco.
  unfold s' in *. unfold refresh_tick in *.
  destruct (Z.eqb_spec c (last_data_count s)); [contradiction|].
  destruct (Qle_bool _ _).
  - left. split; reflexivity.
  - right.
    assert (P : forall t, coalesced t -> pending_treeview_update t = true ->
              pending_treeview_update t = true
              /\ (exists d, deferred t = [d])
              /\ delayed_runs (fire later t) = S (delayed_runs t)
              /\ pending_treeview_update (fire later t) = false
              /\ deferred (fire later t) = []).
    { intros t [[_ Hn]|[d [Hd Hp]]] Ht; [congruence|].
      split; [exact Hp|]. split; [exists d; exact Hd|].
      unfold fire, _delayed_update_treeview. rewrite Hd. simpl.
      rewrite Hp. simpl. repeat split. }
    destruct (pending_treeview_update s) eqn:Hp.
    + apply P; [exact Hco | exact Hp].
    + apply P; [exact Hco' | reflexivity].
Qed.

(** X16 on the first change, seen 20 ms after the start. *)
Lemma no_seen_change_goes_unrefreshed_witness :
  delayed_runs
    (fire (15 # 100) (refresh_tick 50 (2 # 100) (run [] init))) = 1%nat.
Proof.
  destruct (@no_seen_change_goes_unrefreshed [] 50%Z (2 # 100) (15 # 100))
    as [[H _]|(_ & _ & H & _)].
  - simpl; lia.
  - discriminate H.
  - exact H.
Defined.

(** X17. Every timer the loop arms has a delay that is not negative and,
    while the clock read by the loop has not gone back behind the last
    refresh, of at most two seconds. *)
Theorem armed_delay_is_within_the_interval (c : Z) (now : Q) (s : sched) :
  c <> last_data_count s ->
  pending_treeview_update s = false ->
  now - last_treeview_update_time s < min_interval c ->
  exists d,
    deferred (refresh_tick c now s) = deferred s ++ [d]
    /\ (0 <= d)%Z
    /\ (last_treeview_update_time s <= now -> (d <= 2000)%Z).
Proof.
  intros Hc Hp Ht.
  rewrite (@SchedFacts.refresh_tick_early _ _ _ Hc Ht), Hp. simpl.
  eexists. split; [reflexivity|].
  destruct (@SchedFacts.delay_ms_bounds _ _ Ht) as (B1 & B2 & _).
  split; [exact B1|]. intros Hm.
  assert (H2 : min_interval c <= 2).
  { destruct (min_interval_cases c) as [E|[E|[E|[E|E]]]]; rewrite E;
      unfold Qle; simpl; lia. }
  assert (H3 : inject_Z
                 (delay_ms (min_interval c)
                    (now - last_treeview_update_time s))
               <= inject_Z 2000).
  { eapply Qle_trans; [exact B2|].
    change (inject_Z 2000) with 2000. nra. }
  rewrite <- Zle_Qle in H3. exact H3.
Qed.

(** X17 for a change seen 20 ms after the start. *)
Lemma armed_delay_is_within_the_interval_witness :
  exists d,
    deferred (refresh_tick 50 (2 # 100) init) = deferred init ++ [d]
    /\ (0 <= d)%Z
    /\ (last_treeview_update_time init <= 2 # 100 -> (d <= 2000)%Z).
Proof.
  apply (@armed_delay_is_within_the_interval 50 (2 # 100) init).
  - simpl; lia.
  - reflexivity.
  - reflexivity.
Defined.

(** X18. A deferred refresh does not record the size of the log it showed:
    once its timer has run, the next pass of the loop over the same log
    still sees a change and asks for a refresh of its own, at once or by a
    new timer. *)
Theorem deferred_refresh_is_followed_by_another (es : list event)
  (c : Z) (now fired next : Q) :
  let s := run es init in
  c <> last_data_count s ->
  pending_treeview_update s = false ->
  now - last_treeview_update_time s < min_interval c ->
  let s1 := fire fired (refresh_tick c now s) in
  let s2 := refresh_tick c next s1 in
  delayed_runs s1 = S (delayed_runs s)
  /\ last_data_count s1 = last_data_count s
  /\ (immediate s2 = S (immediate s1)
      \/ exists d, deferred s2 = [d] /\ pending_treeview_update s2 = true).
Proof.
  intros s Hc Hp Ht s1 s2.
  assert (Hco : coalesced s) by apply SchedFacts.run_coalesced,
    SchedFacts.init_coalesced.
  assert (Hd : deferred s = []).
  { destruct Hco as [[Hd _]|[d [_ Hq]]]; [exact Hd | congruence]. }
  assert (E1 : s1 = mkSched fired false (last_data_count s) []
                      (immediate s) (S (delayed_runs s))).
  { unfold s1. rewrite (@SchedFacts.refresh_tick_early _ _ _ Hc Ht), Hp.
    unfold fire. simpl. rewrite Hd. reflexivity. }
  split; [rewrite E1; reflexivity|].
  split; [rewrite E1; reflexivity|].
  unfold s2. rewrite E1. unfold refresh_tick. simpl.
  destruct (Z.eqb_spec c (last_data_count s)); [contradiction|].
  destruct (Qle_bool _ _); simpl.
  - left. reflexivity.
  - right. eexists. split; reflexivity.
Qed.

(** X18 for fifty events: deferred at 20 ms, shown at 100 ms, and asked
    for again by the pass at 120 ms. *)
Lemma deferred_refresh_is_followed_by_another_witness :
  let s1 := fire (1 # 10) (refresh_tick 50 (2 # 100) (run [] init)) in
  let s2 := refresh_tick 50 (12 # 100) s1 in
  delayed_runs s1 = S (delayed_runs (run [] init))
  /\ last_data_count s1 = last_data_count (run [] init)
  /\ (immediate s2 = S (immediate s1)
      \/ exists d, deferred s2 = [d] /\ pending_treeview_update s2 = true).
Proof.
  apply (@deferred_refresh_is_followed_by_another [] 50 (2 # 100) (1 # 10)
           (12 # 100)).
  - simpl; lia.
  - reflexivity.
  - reflexivity.
Defined.

End SchedExtra.

(* ------------------------------------------------------------------ *)
(** ** The list view and the log *)

Module TreeExtra.
Import Gui Tree.

Lemma view_eta (v : view) :
  mkView (children v) (selection v) (next_id v) (last_rendered_count v)
         (last_relative_time_mode v) (last_filter_goodcrc_mode v)
         (filter_goodcrc_var v) (relative_time_var v)
         (current_selection v) (export_enabled v) = v.
Proof. destruct v; reflexivity. Qed.

Lemma map_snd_numbered {A B} (f : A -> B) (l : list A) : forall s,
  map snd (combine (seq s (List.length l)) (map f l)) = map f l.
Proof.
  induction l as [|a l IH]; intros s; [reflexivity|].
  simpl. f_equal. apply IH.
Qed.

Lemma map_fst_numbered {A B} (f : A -> B) (l : list A) : forall s,
  map fst (combine (seq s (List.length l)) (map f l))
  = seq s (List.length l).
Proof.
  induction l as [|a l IH]; intros s; [reflexivity|].
  simpl. f_equal. apply IH.
Qed.

Lemma filter_shown_all (l : list DataItem) : filter (shown false) l = l.
Proof.
  induction l as [|a l IH]; [reflexivity|].
  simpl. rewrite IH. reflexivity.
Qed.

Lemma in_firstn {A} (n : nat) (l : list A) (x : A) :
  In x (firstn n l) -> In x l.
Proof.
  intros H. rewrite <- (firstn_skipn n l). apply in_or_app. left. exact H.
Qed.

(** *** A log that grows *)

Lemma extends_refl (a : list DataItem) : extends a a.
Proof. exists []. symmetry. apply app_nil_r. Qed.

Lemma extends_trans (a b c : list DataItem) :
  extends a b -> extends b c -> extends a c.
Proof.
  intros [e ->] [e' ->]. exists (e ++ e'). symmetry. apply app_assoc.
Qed.

Lemma extends_length (a b : list DataItem) :
  extends a b -> (List.length a <= List.length b)%nat.
Proof. intros [e ->]. rewrite length_app. lia. Qed.

Lemma extends_nil (a : list DataItem) : extends a [] -> a = [].
Proof.
  intros [e H]. symmetry in H. apply app_eq_nil in H. apply H.
Qed.

Lemma extends_firstn (a b : list DataItem) (k : nat) :
  extends a b -> (k <= List.length a)%nat -> firstn k b = firstn k a.
Proof.
  intros [e ->] Hk. rewrite firstn_app.
  replace (k - List.length a)%nat with 0%nat by lia.
  cbn [firstn]. apply app_nil_r.
Qed.

Lemma extends_nth (a b : list DataItem) (i : nat) (x : DataItem) :
  extends a b -> nth_error a i = Some x -> nth_error b i = Some x.
Proof.
  intros [e ->] H. rewrite nth_error_app1; [exact H|].
  apply nth_error_Some. congruence.
Qed.

Lemma extends_in (a b : list DataItem) (x : DataItem) :
  extends a b -> In x a -> In x b.
Proof. intros [e ->] H. apply in_or_app. left. exact H. Qed.

Lemma still_grown (dl : list DataItem) : grown dl (still dl).
Proof. repeat split; apply extends_refl. Qed.

(** An entry of a log numbered 1, 2, 3, ... sits at its index. *)
Lemma numbered_nth (l : list DataItem) (item : DataItem) :
  numbered l ->
  In item l ->
  nth_error l (index item - 1) = Some item
  /\ (1 <= index item <= List.length l)%nat.
Proof.
  unfold numbered. intros Hn Hin.
  destruct (In_nth_error _ _ Hin) as [i Hi].
  assert (Hlt : (i < List.length l)%nat).
  { apply nth_error_Some. congruence. }
  assert (Hx : nth_error (map index l) i = Some (index item)).
  { rewrite nth_error_map, Hi. reflexivity. }
  rewrite Hn in Hx.
  assert (Hs : nth_error (seq 1 (List.length l)) i = Some (1 + i)%nat).
  { rewrite nth_error_nth' with (d := 0%nat) by (rewrite length_seq; exact Hlt).
    rewrite seq_nth by exact Hlt. reflexivity. }
  rewrite Hs in Hx. injection Hx as Hx.
  split; [|lia].
  replace (index item - 1)%nat with i by lia. exact Hi.
Qed.

(** Two entries of such a log with the same index are the same entry. *)
Lemma numbered_inj (l : list DataItem) (a b : DataItem) :
  numbered l ->
  In a l -> In b l -> index a = index b -> a = b.
Proof.
  intros Hn Ha Hb E.
  destruct (@numbered_nth l a Hn Ha) as [Na _].
  destruct (@numbered_nth l b Hn Hb) as [Nb _].
  rewrite E in Na. congruence.
Qed.

(** The rows a numbered log had before it grew are numbered. *)
Lemma numbered_prefix (a b : list DataItem) :
  extends a b -> numbered b -> numbered a.
Proof.
  intros [e ->]. unfold numbered.
  rewrite map_app, length_app, seq_app. intros H.
  apply (f_equal (firstn (List.length a))) in H.
  rewrite !firstn_app in H.
  rewrite length_map, length_seq, Nat.sub_diag in H. cbn [firstn] in H.
  rewrite !app_nil_r in H.
  rewrite !firstn_all2 in H
    by (rewrite ?length_map, ?length_seq; apply Nat.le_refl).
  exact H.
Qed.

Section Views.

Variable parse : string -> option Q.

Local Abbreviation render := (Tree.render parse).
Local Abbreviation insert := (Tree._insert_tree_item parse).
Local Abbreviation base_of := (Tree.base_of parse).
Local Abbreviation rows_for := (Tree.rows_for parse).
Local Abbreviation shows := (Tree.shows parse).
Local Abbreviation update_treeview := (Tree.update_treeview parse).
Local Abbreviation drawn := (Tree.drawn parse).

Lemma base_of_extends rel (a b : list DataItem) :
  a <> [] -> extends a b -> base_of rel b = base_of rel a.
Proof.
  intros Ha [e ->]. destruct a; [congruence | reflexivity].
Qed.

(** The log grows behind the view. *)
Lemma shows_grown (dl dl' : list DataItem) (k : nat) (v : view) :
  shows dl k v -> extends dl dl' -> shows dl' k v.
Proof.
  intros (S1 & S2 & S3 & S4 & S5) E. unfold Tree.shows.
  split; [pose proof (extends_length E); lia|].
  split; [|repeat split; assumption].
  rewrite (extends_firstn E S1).
  destruct dl as [|a dl].
  - assert (Hk : k = 0%nat) by (cbn in S1; lia).
    rewrite Hk in *. exact S2.
  - rewrite (@base_of_extends _ (a :: dl) dl') by (discriminate || exact E).
    exact S2.
Qed.

(** *** Insertion *)

Lemma insert_all rel base items : forall v,
  fold_left (insert rel base) items v
  = mkView (children v
            ++ combine (seq (next_id v) (List.length items))
                 (map (render rel base) items))
           (selection v) (next_id v + List.length items)
           (last_rendered_count v) (last_relative_time_mode v)
           (last_filter_goodcrc_mode v) (filter_goodcrc_var v)
           (relative_time_var v) (current_selection v) (export_enabled v).
Proof.
  induction items as [|a items IH]; intros v.
  - simpl. rewrite app_nil_r, Nat.add_0_r. symmetry. apply view_eta.
  - cbn [fold_left]. rewrite IH. unfold _insert_tree_item.
    cbn [children selection next_id last_rendered_count
         last_relative_time_mode last_filter_goodcrc_mode
         filter_goodcrc_var relative_time_var current_selection
         export_enabled List.length map seq combine].
    rewrite <- app_assoc. cbn [app].
    replace (S (next_id v) + List.length items)%nat
      with (next_id v + S (List.length items))%nat by lia.
    reflexivity.
Qed.

Lemma insert_filtered hide rel base items : forall v,
  fold_left
    (fun acc item =>
       if hide && is_goodcrc (msg_type item) then acc
       else insert rel base acc item) items v
  = fold_left (insert rel base) (filter (shown hide) items) v.
Proof.
  induction items as [|a items IH]; intros v; [reflexivity|].
  cbn [fold_left filter]. unfold shown at 1.
  destruct (hide && is_goodcrc (msg_type a)); cbn [negb fold_left];
    apply IH.
Qed.

(** *** What a rendering of the whole log leaves *)

Lemma full_rebuild_children hide rel base draw restore v :
  let v' := _full_rebuild_treeview parse hide rel base draw restore v in
  children v'
  = combine (seq (next_id v) (List.length (filter (shown hide) draw)))
      (map (render rel base) (filter (shown hide) draw))
  /\ next_id v' = (next_id v + List.length (filter (shown hide) draw))%nat
  /\ (selection v' = []
      \/ exists c, In c (children v') /\ selection v' = [fst c]
                   /\ selected_index v
                      = Some (Z.of_nat (r_index (snd c)) - 1)%Z)
  /\ filter_goodcrc_var v' = filter_goodcrc_var v
  /\ relative_time_var v' = relative_time_var v
  /\ current_selection v' = current_selection v.
Proof.
  unfold _full_rebuild_treeview. cbn zeta.
  rewrite insert_filtered, insert_all.
  generalize (filter (shown hide) draw). intros kept.
  cbn [delete_children children selection next_id last_rendered_count
       last_relative_time_mode last_filter_goodcrc_mode
       filter_goodcrc_var relative_time_var current_selection
       export_enabled app].
  destruct (selected_index v) as [si|];
    [|cbn; repeat split; auto].
  destruct ((0 <=? si)%Z && (si <? Z.of_nat (List.length restore))%Z);
    [|cbn; repeat split; auto].
  destruct (find _ _) as [target|] eqn:Hf;
    [|cbn; repeat split; auto].
  apply find_some in Hf. destruct Hf as [Hin Heq].
  cbn. repeat split; auto.
  right. exists target. split; [exact Hin|]. split; [reflexivity|].
  apply Z.eqb_eq in Heq. f_equal. lia.
Qed.

Lemma full_rebuild_drawn hide rel base draw restore v :
  drawn hide rel base draw v
    (_full_rebuild_treeview parse hide rel base draw restore v).
Proof.
  destruct (full_rebuild_children hide rel base draw restore v)
    as (Hc & Hn & Hs & Hf & Hr & Hcs).
  unfold Tree.drawn. rewrite Hc, Hn.
  rewrite map_snd_numbered, map_fst_numbered.
  split; [reflexivity|].
  split; [apply seq_NoDup|].
  split; [intros id Hid; apply in_seq in Hid; lia|].
  split.
  - intros id Hid. destruct Hs as [Hs|(c & Hin & Hs & _)].
    + rewrite Hs in Hid. destruct Hid.
    + rewrite Hs in Hid. destruct Hid as [<-|[]].
      rewrite Hc in Hin.
      rewrite <- (map_fst_numbered (render rel base)
                    (filter (shown hide) draw) (next_id v)).
      apply in_map, Hin.
  - repeat split; auto. lia.
Qed.

Lemma seq_nodup_after (ids : list nat) (n k : nat) :
  NoDup ids -> (forall id, In id ids -> (id < n)%nat) ->
  NoDup (ids ++ seq n k).
Proof.
  intros Hd Hlt. induction ids as [|a ids IH]; simpl.
  - apply seq_NoDup.
  - inversion Hd as [|? ? Hna Hd']; subst. constructor.
    + intros Hin. apply in_app_or in Hin. destruct Hin as [Hin|Hin].
      * contradiction.
      * apply in_seq in Hin. specialize (Hlt a (or_introl eq_refl)). lia.
    + apply IH; [exact Hd'|]. intros id Hid. apply Hlt. right. exact Hid.
Qed.

(** *** [update_treeview] *)

(** The baseline a call computes is that of the entries it draws. *)
Lemma base_of_the_drawn_log rel (dl : list DataItem) (r : reads) :
  grown dl r -> at_count r <> [] ->
  base_of rel (at_base r) = base_of rel (at_draw r)
  /\ (dl <> [] -> base_of rel dl = base_of rel (at_draw r)).
Proof.
  intros (G1 & G2 & G3 & _) Hc.
  assert (Hb : at_base r <> []).
  { intros E. rewrite E in G2. apply extends_nil in G2. contradiction. }
  split.
  - symmetry. apply base_of_extends; assumption.
  - intros Hd. symmetry. apply base_of_extends; [exact Hd|].
    apply (extends_trans G1), (extends_trans G2), G3.
Qed.

Lemma update_treeview_drawn dl k r v :
  shows dl k v -> grown dl r ->
  let v' := update_treeview r v in
  let hide := filter_goodcrc_var v in
  let rel := relative_time_var v in
  drawn hide rel (base_of rel (drawn_log r)) (drawn_log r) v v'
  /\ last_rendered_count v' = List.length (at_count r)
  /\ last_filter_goodcrc_mode v' = hide
  /\ last_relative_time_mode v' = rel.
Proof.
  intros (S1 & S2 & S3 & S4 & S5) G v' hide rel.
  assert (K : forall v1 n e,
             drawn hide rel (base_of rel (drawn_log r)) (drawn_log r) v v1 ->
             let w := mkView (children v1) (selection v1) (next_id v1)
                        n rel hide (filter_goodcrc_var v1)
                        (relative_time_var v1) (current_selection v1) e in
             drawn hide rel (base_of rel (drawn_log r)) (drawn_log r) v w
             /\ last_rendered_count w = n
             /\ last_filter_goodcrc_mode w = hide
             /\ last_relative_time_mode w = rel).
  { intros v1 n e D w. split; [exact D|]. repeat split. }
  unfold v', Tree.update_treeview. cbn zeta. fold hide rel.
  destruct (at_count r) as [|c cs] eqn:Hc.
  - cbn [List.length Nat.eqb].
    apply (K (delete_children v) 0%nat (export_enabled v)).
    unfold Tree.drawn, drawn_log. rewrite Hc. cbn.
    split; [reflexivity|]. split; [constructor|].
    split; [intros id []|]. split; [intros id []|].
    repeat split; auto.
  - cbn [List.length Nat.eqb].
    assert (Hne : at_count r <> []) by (rewrite Hc; discriminate).
    destruct (@base_of_the_drawn_log rel dl r G Hne) as [B1 B2].
    assert (Hdl : drawn_log r = at_draw r)
      by (unfold drawn_log; rewrite Hc; reflexivity).
    change (if rel
            then match at_base r with
                 | [] => None
                 | first :: _ => parse (timestamp first)
                 end
            else None) with (base_of rel (at_base r)).
    rewrite B1, <- Hdl.
    match goal with
    | |- context [if ?b then _full_rebuild_treeview _ _ _ _ _ _ _ else _] =>
        destruct b eqn:Hfull
    end.
    + apply K, full_rebuild_drawn.
    + apply K.
      unfold _incremental_update_treeview. cbn zeta.
      destruct hide eqn:Hh; [apply full_rebuild_drawn|].
      apply orb_false_iff in Hfull. destruct Hfull as [Hfull Hmode].
      apply orb_false_iff in Hfull. destruct Hfull as [_ Hex].
      apply orb_false_iff in Hmode. destruct Hmode as [Hrel Hhide].
      apply negb_false_iff, Bool.eqb_prop in Hrel.
      apply negb_false_iff, Bool.eqb_prop in Hhide.
      apply Nat.eqb_neq in Hex.
      rewrite <- Hrel, <- Hhide in S2.
      rewrite filter_shown_all in S2.
      assert (Hlen : List.length (children v) = k).
      { rewrite <- (length_map snd), S2, length_map, length_firstn.
        lia. }
      assert (Hd : dl <> []).
      { intros E. rewrite E in S1. cbn in S1. lia. }
      assert (Hext : extends dl (drawn_log r)).
      { rewrite Hdl. destruct G as (G1 & G2 & G3 & _).
        apply (extends_trans G1), (extends_trans G2), G3. }
      rewrite (B2 Hd), <- Hdl in S2.
      rewrite <- (extends_firstn Hext S1) in S2.
      rewrite insert_all. unfold Tree.drawn.
      cbn [children selection next_id filter_goodcrc_var relative_time_var
           current_selection].
      rewrite !map_app, map_snd_numbered, map_fst_numbered, S2, Hlen.
      rewrite <- map_app, firstn_skipn.
      split; [rewrite filter_shown_all; reflexivity|].
      split; [apply seq_nodup_after; assumption|].
      split.
      { intros id Hid. apply in_app_or in Hid. destruct Hid as [Hid|Hid].
        - specialize (S4 id Hid). lia.
        - apply in_seq in Hid. lia. }
      split.
      { intros id Hid. apply in_or_app. left. apply S5, Hid. }
      repeat split; auto. lia.
Qed.

(** X19. A call of [update_treeview] that counts no entry empties the
    view, whatever it held.  A call made on a view that holds the rows of
    the first entries of the log, while the log grows under it or stands
    still, leaves the view with the rows of the entries its loop visits,
    each once and in the order of the log, under the filter and the time
    mode then chosen, whether it appends the new rows or rebuilds them
    all; what it records as rendered is the number of entries it counted on
    entry, which is no more than it has drawn; and the view goes on holding
    the rows of the first entries of the log however the log grows
    afterwards. *)
Theorem view_follows_the_log (r : reads) (v : view) :
  let v' := update_treeview r v in
  (at_count r = [] ->
   children v' = [] /\ selection v' = [] /\ last_rendered_count v' = 0%nat)
  /\ (forall dl k,
         shows dl k v -> grown dl r ->
         map snd (children v')
         = rows_for (filter_goodcrc_var v) (relative_time_var v)
             (drawn_log r)
         /\ NoDup (map fst (children v'))
         /\ last_rendered_count v' = List.length (at_count r)
         /\ (last_rendered_count v' <= List.length (drawn_log r))%nat
         /\ last_filter_goodcrc_mode v' = filter_goodcrc_var v
         /\ last_relative_time_mode v' = relative_time_var v
         /\ forall dl',
              extends (drawn_log r) dl' ->
              shows dl' (List.length (drawn_log r)) v').
Proof.
  intros v'. split.
  - intros Hc. unfold v', Tree.update_treeview. rewrite Hc.
    cbn. repeat split.
  - intros dl k Hs G.
    destruct (@update_treeview_drawn dl k r v Hs G)
      as ((D1 & D2 & D3 & D4 & _) & L & Lh & Lr).
    fold v' in D1, D2, D3, D4, L, Lh, Lr.
    assert (Hle : (List.length (at_count r)
                   <= List.length (drawn_log r))%nat).
    { unfold drawn_log. destruct (at_count r) as [|c cs] eqn:Hc;
        [cbn; lia|].
      rewrite <- Hc. destruct G as (_ & G2 & G3 & _).
      apply extends_length, (extends_trans G2), G3. }
    split; [exact D1|]. split; [exact D2|]. split; [exact L|].
    split; [rewrite L; exact Hle|]. split; [exact Lh|].
    split; [exact Lr|].
    intros dl' E. apply (@shows_grown (drawn_log r)); [|exact E].
    unfold Tree.shows. rewrite Lh, Lr, firstn_all.
    split; [apply Nat.le_refl|]. split; [exact D1|].
    repeat split; assumption.
Qed.

(** *** Clicking a row *)

Lemma row_of_in id v r :
  row_of id v = Some r -> In (id, r) (children v).
Proof.
  unfold row_of. destruct (find _ _) as [c|] eqn:Hf; [|discriminate].
  intros [= <-]. apply find_some in Hf. destruct Hf as [Hin Heq].
  apply Nat.eqb_eq in Heq. rewrite <- Heq. destruct c; exact Hin.
Qed.

(** The entry behind a row of the view. *)
Lemma row_entry dl k v id r :
  shows dl k v -> numbered dl -> row_of id v = Some r ->
  exists item,
    In item dl
    /\ nth_error dl (r_index r - 1) = Some item
    /\ (1 <= r_index r <= List.length dl)%nat
    /\ index item = r_index r
    /\ shown (last_filter_goodcrc_mode v) item = true
    /\ r = render (last_relative_time_mode v)
             (base_of (last_relative_time_mode v) dl) item.
Proof.
  intros (_ & S2 & _) Hn Hr.
  apply row_of_in in Hr.
  assert (Hin : In r (map snd (children v)))
    by (apply (in_map snd) in Hr; exact Hr).
  rewrite S2 in Hin. apply in_map_iff in Hin.
  destruct Hin as (item & Hrender & Hin).
  apply filter_In in Hin. destruct Hin as [Hin Hshown].
  apply in_firstn in Hin.
  destruct (@numbered_nth dl item Hn Hin) as [Hnth Hrange].
  exists item. rewrite <- Hrender. cbn [r_index Tree.render].
  repeat split; auto; lia.
Qed.

(** X20. On a view that holds the rows of the first entries of a log
    numbered 1, 2, 3, ..., a click on a row selects that row alone and
    makes the current selection the entry of the log the row was drawn
    from, the entry with the sequence number the row shows, also when the
    log grows under the click. *)
Theorem click_selects_the_entry_of_the_row (dl at_len at_get : list DataItem)
  (k : nat) (g : gui) (v : view) (id : nat) (displayed : bool) (r : row) :
  shows dl k v ->
  numbered dl ->
  extends dl at_len ->
  extends at_len at_get ->
  row_of id v = Some r ->
  let s' := on_item_click id displayed at_len at_get g v in
  exists item,
    current_selection (snd s') = Some item
    /\ selection (snd s') = [id]
    /\ In item dl
    /\ index item = r_index r
    /\ r = render (last_relative_time_mode v)
             (base_of (last_relative_time_mode v) dl) item
    /\ (displayed = true ->
        is_vline_locked (fst s') = true
        /\ option_map (nth_error at_get) (hover_last_item_index (fst s'))
           = Some (Some item)).
Proof.
  intros H Hnum E1 E2 Hr s'.
  destruct (@row_entry dl k v id r H Hnum Hr)
    as (item & Hin & Hnth & Hrange & Hidx & _ & Hrender).
  assert (Hget : nth_error at_get (r_index r - 1) = Some item).
  { apply (@extends_nth dl); [apply (extends_trans E1 E2) | exact Hnth]. }
  pose proof (extends_length E1) as Hlen.
  exists item. unfold s', on_item_click.
  assert (Hex : existsb (fun c => Nat.eqb (fst c) id) (children v) = true).
  { apply existsb_exists. exists (id, r).
    split; [apply row_of_in, Hr | apply Nat.eqb_refl]. }
  rewrite Hex. unfold on_item_select.
  assert (Hsel : selected_index (set_selection [id] v)
                 = Some (Z.of_nat (r_index r) - 1)%Z).
  { unfold selected_index. cbn [set_selection selection].
    change (row_of id (set_selection [id] v)) with (row_of id v).
    rewrite Hr. reflexivity. }
  rewrite Hsel.
  assert (Hcond : ((0 <=? Z.of_nat (r_index r) - 1)%Z
                   && (Z.of_nat (r_index r) - 1
                       <? Z.of_nat (List.length at_len))%Z)
                  = true).
  { apply andb_true_iff. split; [apply Z.leb_le | apply Z.ltb_lt]; lia. }
  rewrite Hcond.
  replace (Z.to_nat (Z.of_nat (r_index r) - 1)) with (r_index r - 1)%nat
    by lia.
  rewrite Hget.
  cbn [fst snd current_selection selection set_selection].
  split; [reflexivity|]. split; [reflexivity|]. split; [exact Hin|].
  split; [exact Hidx|]. split; [exact Hrender|].
  intros ->. split; [reflexivity|].
  cbn [hover_last_item_index set_hover_last_item_index option_map].
  rewrite Hget. reflexivity.
Qed.

(** *** The relative time of a row *)

Lemma py_round_zero (q : Q) : q == 0 -> py_round q = 0%Z.
Proof.
  intros Hq. unfold py_round.
  assert (Hf : Qfloor q = 0%Z) by (rewrite Hq; reflexivity).
  rewrite Hf.
  assert (Hc : (q - inject_Z 0 ?= 1 # 2) = Lt).
  { rewrite Hq. reflexivity. }
  rewrite Hc. reflexivity.
Qed.

Lemma clamp_zero (q : Q) :
  q <= 0 -> (if GuiMore.lt_bool q 0 then 0 else q) == 0.
Proof.
  intros Hq. unfold GuiMore.lt_bool.
  destruct (Qle_bool 0 q) eqn:E; cbn [negb]; [|reflexivity].
  apply Qle_bool_iff in E. apply Qle_antisym; assumption.
Qed.

Lemma format_relative_time_zero (q : Q) :
  q == 0 -> _format_relative_time q = "00:00.000"%string.
Proof.
  intros Hq. unfold _format_relative_time. cbn zeta.
  assert (Hc : (if GuiMore.lt_bool q 0 then 0 else q) * 1000 == 0).
  { rewrite clamp_zero by (rewrite Hq; apply Qle_refl). reflexivity. }
  rewrite (py_round_zero Hc). reflexivity.
Qed.

(** X23. In the relative time mode a row whose time is not later than the
    baseline, the first row of the log among them, reads 00:00.000: no
    row shows a time before the start. *)
Theorem rows_up_to_the_baseline_read_zero (base cur : Q)
  (item : DataItem) :
  parse (timestamp item) = Some cur ->
  cur <= base ->
  display_time parse true (Some base) item = "00:00.000"%string.
Proof.
  intros Hp Hle. unfold display_time. rewrite Hp. cbn zeta.
  apply format_relative_time_zero, clamp_zero. lra.
Qed.

(** *** The selection across a redraw *)

Lemma find_app {A} (f : A -> bool) (l1 l2 : list A) :
  find f (l1 ++ l2)
  = match find f l1 with Some x => Some x | None => find f l2 end.
Proof.
  induction l1 as [|a l1 IH]; [reflexivity|].
  simpl. destruct (f a); [reflexivity | exact IH].
Qed.

Lemma same_id_same_child {A} (l : list (nat * A)) (a b : nat * A) :
  NoDup (map fst l) -> In a l -> In b l -> fst a = fst b -> a = b.
Proof.
  induction l as [|c l IH]; intros Hd Ha Hb E; [destruct Ha|].
  cbn [map] in Hd. inversion Hd as [|? ? Hn Hd']; subst.
  destruct Ha as [->|Ha], Hb as [->|Hb].
  - reflexivity.
  - exfalso. apply Hn. rewrite E. apply in_map, Hb.
  - exfalso. apply Hn. rewrite <- E. apply in_map, Ha.
  - apply IH; assumption.
Qed.

Lemma row_of_child (v : view) (c : nat * row) :
  NoDup (map fst (children v)) -> In c (children v) ->
  row_of (fst c) v = Some (snd c).
Proof.
  intros Hd Hin. unfold row_of.
  destruct (find (fun c0 => Nat.eqb (fst c0) (fst c)) (children v))
    as [c'|] eqn:Hf.
  - apply find_some in Hf. destruct Hf as [Hin' Heq].
    apply Nat.eqb_eq in Heq.
    rewrite (@same_id_same_child row (children v) c' c Hd Hin' Hin Heq).
    reflexivity.
  - exfalso. pose proof (find_none _ _ Hf c Hin) as Hn.
    cbn beta in Hn. rewrite Nat.eqb_refl in Hn. discriminate.
Qed.

Lemma row_of_known (v : view) (id : nat) :
  NoDup (map fst (children v)) -> In id (map fst (children v)) ->
  exists r, row_of id v = Some r /\ In (id, r) (children v).
Proof.
  intros Hd Hin. apply in_map_iff in Hin. destruct Hin as (c & <- & Hin).
  exists (snd c). split; [apply row_of_child; assumption|].
  destruct c; exact Hin.
Qed.

(** What is selected: nothing, or a row of the view. *)
Lemma selected_cases dl k v :
  shows dl k v ->
  (selection v = [] /\ selected_entry v = None /\ selected_index v = None)
  \/ exists id rest r,
       selection v = id :: rest /\ row_of id v = Some r
       /\ selected_entry v = Some (r_index r)
       /\ selected_index v = Some (Z.of_nat (r_index r) - 1)%Z.
Proof.
  intros (_ & _ & S3 & _ & S5).
  unfold selected_entry, selected_index.
  destruct (selection v) as [|id rest] eqn:Hs; [left; auto|].
  right. destruct (@row_of_known v id S3 (S5 id (or_introl eq_refl)))
    as (r & Hr & _).
  exists id, rest, r. rewrite Hr. auto.
Qed.

Lemma full_rebuild_selected dl k v hide rel base draw restore :
  shows dl k v -> numbered draw ->
  extends dl draw -> extends draw restore ->
  selected_entry
    (_full_rebuild_treeview parse hide rel base draw restore v)
  = kept_entry hide draw (selected_entry v).
Proof.
  intros H Hnum E1 E2.
  pose proof (@full_rebuild_drawn hide rel base draw restore v)
    as (D1 & D2 & _).
  pose proof (@full_rebuild_children hide rel base draw restore v)
    as (C1 & _).
  cbn zeta in C1.
  assert (Sel :
    selection (_full_rebuild_treeview parse hide rel base draw restore v)
    = match selected_index v with
      | Some si =>
          if (0 <=? si)%Z && (si <? Z.of_nat (List.length restore))%Z
          then
            match
              find (fun c => (Z.of_nat (r_index (snd c)) =? si + 1)%Z)
                (children
                   (_full_rebuild_treeview parse hide rel base draw
                      restore v))
            with
            | Some target => [fst target]
            | None => []
            end
          else []
      | None => []
      end).
  { rewrite C1. unfold _full_rebuild_treeview. cbn zeta.
    rewrite insert_filtered, insert_all.
    cbn [delete_children children selection next_id app].
    destruct (selected_index v) as [si|]; [|reflexivity].
    destruct (_ && _); [|reflexivity].
    destruct (find _ _); reflexivity. }
  revert Sel D1 D2.
  generalize (_full_rebuild_treeview parse hide rel base draw restore v).
  intros v' Sel D1 D2.
  pose proof (numbered_prefix E1 Hnum) as Hnd.
  destruct (@selected_cases dl k v H)
    as [(_ & He & Hi)|(id & rest & r & _ & Hr & He & Hi)];
    rewrite He; rewrite Hi in Sel.
  - unfold selected_entry. rewrite Sel. reflexivity.
  - destruct (@row_entry dl k v id r H Hnd Hr)
      as (item & Hin0 & Hnth0 & Hrange & Hidx & _ & _).
    pose proof (@extends_nth _ _ _ _ E1 Hnth0) as Hnth.
    pose proof (@extends_in _ _ _ E1 Hin0) as Hin.
    pose proof (extends_length E1) as L1.
    pose proof (extends_length E2) as L2.
    unfold kept_entry. rewrite Hnth.
    replace ((0 <=? Z.of_nat (r_index r) - 1)%Z
             && (Z.of_nat (r_index r) - 1
                 <? Z.of_nat (List.length restore))%Z)
      with true in Sel
      by (symmetry; apply andb_true_iff;
          split; [apply Z.leb_le | apply Z.ltb_lt]; lia).
    destruct (find _ (children v')) as [t|] eqn:Hf.
    + apply find_some in Hf. destruct Hf as [Ht Heq].
      apply Z.eqb_eq in Heq.
      assert (Hn : r_index (snd t) = r_index r) by lia.
      assert (Hshown : shown hide item = true).
      { assert (Hrow : In (snd t) (map snd (children v')))
          by apply in_map, Ht.
        rewrite D1 in Hrow.
        apply in_map_iff in Hrow. destruct Hrow as (item' & Hr' & Hin').
        apply filter_In in Hin'. destruct Hin' as [Hin' Hs'].
        assert (E : item' = item).
        { apply (@numbered_inj draw item' item Hnum Hin' Hin).
          rewrite Hidx, <- Hn, <- Hr'. reflexivity. }
        rewrite <- E. exact Hs'. }
      rewrite Hshown. unfold selected_entry. rewrite Sel.
      rewrite (@row_of_child v' t D2 Ht). cbn [option_map].
      rewrite Hn. reflexivity.
    + assert (Hshown : shown hide item = false).
      { destruct (shown hide item) eqn:Hs; [|reflexivity]. exfalso.
        assert (Hrow : In (render rel base item) (map snd (children v'))).
        { rewrite D1. apply in_map.
          apply filter_In. split; assumption. }
        apply in_map_iff in Hrow. destruct Hrow as (c & Hc & Hcin).
        pose proof (find_none _ _ Hf c Hcin) as Hn. cbn beta in Hn.
        rewrite Hc in Hn. cbn [r_index Tree.render] in Hn.
        apply Z.eqb_neq in Hn. lia. }
      rewrite Hshown. unfold selected_entry. rewrite Sel. reflexivity.
Qed.

Lemma update_treeview_selected dl k r v :
  shows dl k v -> grown dl r -> numbered (at_export r) ->
  selected_entry (update_treeview r v)
  = kept_entry (filter_goodcrc_var v) (drawn_log r) (selected_entry v).
Proof.
  intros H G Hnum.
  assert (W : forall v1 n a b e,
             selected_entry
               (mkView (children v1) (selection v1) (next_id v1) n a b
                  (filter_goodcrc_var v1) (relative_time_var v1)
                  (current_selection v1) e)
             = selected_entry v1) by reflexivity.
  unfold Tree.update_treeview, drawn_log. cbn zeta.
  destruct (at_count r) as [|c cs] eqn:Hc.
  - cbn [List.length Nat.eqb]. unfold kept_entry.
    destruct (selected_entry v) as [n|]; [|reflexivity].
    destruct (n - 1)%nat; reflexivity.
  - cbn [List.length Nat.eqb]. rewrite W.
    destruct G as (G1 & G2 & G3 & G4 & G5).
    assert (Ed : extends dl (at_draw r)).
    { apply (extends_trans G1), (extends_trans G2), G3. }
    assert (Hnd : numbered (at_draw r)).
    { apply (@numbered_prefix _ (at_export r)); [|exact Hnum].
      apply (extends_trans G4), G5. }
    match goal with
    | |- context [if ?b then _full_rebuild_treeview _ _ _ _ _ _ _ else _] =>
        destruct b
    end;
      [apply (@full_rebuild_selected dl k); assumption|].
    unfold _incremental_update_treeview. cbn zeta.
    destruct (filter_goodcrc_var v) eqn:Hh;
      [apply (@full_rebuild_selected dl k); assumption|].
    rewrite insert_all.
    destruct (@selected_cases dl k v H)
      as [(Hs & He & _)|(id & rest & r0 & Hs & Hr & He & _)]; rewrite He.
    + unfold selected_entry. cbn [selection]. rewrite Hs. reflexivity.
    + destruct (@row_entry dl k v id r0 H (numbered_prefix Ed Hnd) Hr)
        as (item & _ & Hnth & _).
      unfold kept_entry. rewrite (@extends_nth _ _ _ _ Ed Hnth).
      unfold selected_entry, row_of. cbn [selection children].
      rewrite Hs, find_app.
      unfold row_of in Hr.
      destruct (find (fun c => Nat.eqb (fst c) id) (children v))
        as [c0|]; [|discriminate].
      cbn [option_map] in *. injection Hr as ->. reflexivity.
Qed.

(** X22. On a view that holds the rows of the first entries of a log
    numbered 1, 2, 3, ..., drawing the view again, with the filter and the
    time mode set anew or left as they were and with the log growing under
    the call or standing still, keeps the selection on the entry of the
    log that was selected; only when that entry is hidden by the filter,
    or the call counts no entry, is nothing selected afterwards. *)
Theorem redraw_keeps_the_selected_entry (dl : list DataItem) (k : nat)
  (r : reads) (v : view) (hide rel : bool) :
  shows dl k v ->
  grown dl r ->
  numbered (at_export r) ->
  let v' := update_treeview r (set_vars hide rel v) in
  selected_entry v'
  = match selected_entry v with
    | None => None
    | Some n =>
        match nth_error (drawn_log r) (n - 1) with
        | Some item => if shown hide item then Some n else None
        | None => None
        end
    end.
Proof.
  intros H G Hnum v'.
  assert (H0 : shows dl k (set_vars hide rel v)) by exact H.
  exact (@update_treeview_selected dl k r (set_vars hide rel v) H0 G Hnum).
Qed.

End Views.

(** The view of the examples holds the one row of its log. *)
Lemma one_row_shows :
  Tree.shows no_parse [first_entry] 1 one_row.
Proof.
  unfold Tree.shows. cbn.
  split; [lia|]. split; [reflexivity|].
  split; [repeat constructor; intros []|].
  split; [intros id [<-|[]]; lia | intros id []].
Qed.

(** X19 for an entry the consumer appends between the count and the loop
    of a redraw: the view gets the rows of both entries and records one as
    rendered. *)
Lemma view_follows_the_log_witness :
  let r :=
    mkReads [first_entry] [first_entry] [first_entry; second_entry]
      [first_entry; second_entry] [first_entry; second_entry] in
  let v' := Tree.update_treeview no_parse r one_row in
  map r_index (map snd (children v')) = [1; 2]%nat
  /\ last_rendered_count v' = 1%nat
  /\ Tree.shows no_parse [first_entry; second_entry] 2 v'.
Proof.
  intros r v'.
  destruct (@view_follows_the_log no_parse r one_row) as [_ H].
  assert (G : grown [first_entry] r).
  { split; [apply extends_refl|]. split; [apply extends_refl|].
    split; [exists [second_entry]; reflexivity|].
    split; apply extends_refl. }
  destruct (H [first_entry] 1%nat one_row_shows G)
    as (R & _ & L & _ & _ & _ & S).
  fold v' in R, L, S.
  split; [rewrite R; reflexivity|]. split; [exact L|].
  apply (S [first_entry; second_entry]). apply extends_refl.
Defined.

(** X20 for the one row of the view of the examples, clicked while the
    second entry is appended. *)
Lemma click_selects_the_entry_of_the_row_witness :
  let r := mkRow 1 "12:00:00.000" (PStr "SOP") (PStr "3.0")
             (PStr "Source") (PStr "DFP") (PStr "goodcrc")
             (Some "GoodCRC"%string) in
  let s' :=
    on_item_click 1 true [first_entry] [first_entry; second_entry]
      Gui.init one_row in
  exists item,
    current_selection (snd s') = Some item
    /\ selection (snd s') = [1%nat]
    /\ In item [first_entry]
    /\ index item = r_index r
    /\ r = Tree.render no_parse (last_relative_time_mode one_row)
             (Tree.base_of no_parse (last_relative_time_mode one_row)
                [first_entry]) item
    /\ (true = true ->
        is_vline_locked (fst s') = true
        /\ option_map (nth_error [first_entry; second_entry])
             (hover_last_item_index (fst s')) = Some (Some item)).
Proof.
  intros r.
  apply (@click_selects_the_entry_of_the_row no_parse [first_entry]
           [first_entry] [first_entry; second_entry] 1%nat Gui.init
           one_row 1%nat true r).
  - exact one_row_shows.
  - reflexivity.
  - apply extends_refl.
  - exists [second_entry]. reflexivity.
  - reflexivity.
Defined.

(** X22 for the selected GoodCRC row of the view of the examples: a
    redraw keeps it, a redraw that hides GoodCRC drops it. *)
Lemma redraw_keeps_the_selected_entry_witness :
  let v := set_selection [1%nat] one_row in
  let r := still [first_entry; second_entry] in
  selected_entry v = Some 1%nat
  /\ selected_entry (Tree.update_treeview no_parse r (set_vars false false v))
     = Some 1%nat
  /\ selected_entry (Tree.update_treeview no_parse r (set_vars true false v))
     = None.
Proof.
  intros v r.
  assert (Hs : Tree.shows no_parse [first_entry] 1 v).
  { destruct one_row_shows as (S1 & S2 & S3 & S4 & _).
    unfold Tree.shows. split; [exact S1|]. split; [exact S2|].
    split; [exact S3|]. split; [exact S4|].
    intros id [<-|[]]. left. reflexivity. }
  assert (G : grown [first_entry] r).
  { split; [exists [second_entry]; reflexivity|].
    repeat split; apply extends_refl. }
  assert (Hn : numbered (at_export r)) by reflexivity.
  split; [reflexivity|]. split.
  - rewrite (@redraw_keeps_the_selected_entry no_parse [first_entry] 1%nat
               r v false false Hs G Hn).
    reflexivity.
  - rewrite (@redraw_keeps_the_selected_entry no_parse [first_entry] 1%nat
               r v true false Hs G Hn).
    reflexivity.
Defined.

(** Why the numbering is asked for.  On the log a clear between the index
    and the append leaves behind, one row with the index 3, the row of the
    view maps to no entry: a click selects the row and the current
    selection stays empty. *)
Example stale_index_row_maps_to_no_entry :
  let log :=
    data_list
      (Threads.add_data_item_across [Clear true true] "12:00:03.000"
         (PStr "SOP") PNone PNone PNone PNone Sample.pd_source_cap None
         (Some 3) false Threads.two_rows) in
  let v := Tree.update_treeview no_parse (still log) init in
  let s' := on_item_click 1 true log log Gui.init v in
  map r_index (map snd (children v)) = [3]%nat
  /\ selection (snd s') = [1%nat]
  /\ current_selection (snd s') = None.
Proof. repeat split. Qed.

(** X23 for an entry stamped one second before the baseline. *)
Lemma rows_up_to_the_baseline_read_zero_witness :
  display_time (fun _ : string => Some 42) true (Some 43)
    (mkItem 1 "00:00:42.000" None PNone PNone PNone PNone PNone
       Sample.pd_source_cap)
  = "00:00.000"%string.
Proof.
  apply (@rows_up_to_the_baseline_read_zero (fun _ : string => Some 42)
           43 42).
  - reflexivity.
  - unfold Qle; simpl; lia.
Defined.

(** *** The tag of a row *)

(** X21. The tag of a row is always a key of the colour table, and it is
    the message type of the entry up to case. *)
Theorem tag_is_a_key_of_the_colour_table (m : pyval) (k : string) :
  tag_of m = Some k ->
  In k MT_keys /\ exists s, m = PStr s /\ lower k = lower s.
Proof.
  destruct m as [|s| | |]; try discriminate.
  unfold tag_of.
  destruct (existsb (String.eqb s) MT_keys) eqn:He.
  - intros [= <-]. apply existsb_exists in He.
    destruct He as (k & Hin & Heq). apply String.eqb_eq in Heq. subst k.
    split; [exact Hin|]. exists s. split; reflexivity.
  - intros Hf. apply find_some in Hf. destruct Hf as [Hin Heq].
    apply String.eqb_eq in Heq.
    split; [exact Hin|]. exists s. split; [reflexivity | exact Heq].
Qed.

(** X21 for a message type written in lower case. *)
Lemma tag_is_a_key_of_the_colour_table_witness :
  In "GoodCRC"%string MT_keys
  /\ exists s, PStr "goodcrc" = PStr s /\ lower "GoodCRC" = lower s.
Proof.
  apply (@tag_is_a_key_of_the_colour_table (PStr "goodcrc") "GoodCRC").
  reflexivity.
Defined.

End TreeExtra.
